(** * Greedy planning engine (solvers/greedy_engine.py)

    A shallow embedding of [GreedyPlanner.solve] and its helpers, followed by
    the properties of the allocation loop, the bottleneck analysis and the
    result metrics.

    Conventions of the embedding:
    - Python [str] is [string]; Python [int] is [Z]; [len] is [length]
      injected into [Z].
    - A dataclass is a record inside a module of the dataclass's name, so
      that fields keep their names ([Assignment.date], [Bottleneck.date]).
    - [dict] is [gmap], [set] is [gset].
    - An exception is an [Outcome] that is [Raise]; the engine's loops thread
      the local variables of [solve] and the worker objects explicitly.
    - An [int] written into an f-string goes through [format_int], which
      raises [ValueError] beyond CPython's limit on the digits of an int.
    - [float] results of true division are exact rationals ([Q]); rounding
      to binary64 is not modelled. *)

From stdpp Require Import gmap strings list pretty.
From Stdlib Require Import QArith.

#[local] Open Scope Z_scope.

(** ** Exceptions *)

Inductive PyExn : Type :=
  | KeyError (key : string)
  | ZeroDivisionError
  | ValueError (msg : string)
  | TypeError.

Inductive Outcome (A : Type) : Type :=
  | Return (a : A)
  | Raise (e : PyExn).
Arguments Return {A} a.
Arguments Raise {A} e.

#[global] Instance Outcome_ret : MRet Outcome := fun A a => Return a.
#[global] Instance Outcome_bind : MBind Outcome := fun A B k m =>
  match m with
  | Return a => k a
  | Raise e => Raise e
  end.

(** [for x in l: body], with the loop-carried variables in [s]. *)
Fixpoint for_each {A S : Type} (body : A -> S -> Outcome S) (l : list A) (s : S)
  : Outcome S :=
  match l with
  | [] => Return s
  | x :: l' => s' ← body x s; for_each body l' s'
  end.

(** [d[k] += 1]: raises [KeyError] on a missing key. *)
Definition dict_incr (k : string) (d : gmap string Z) : Outcome (gmap string Z) :=
  match d !! k with
  | Some n => Return (<[k := n + 1]> d)
  | None => Raise (KeyError k)
  end.

(** [a / b] on ints: raises [ZeroDivisionError] when [b] is 0. *)
Definition truediv (a b : Z) : Outcome Q :=
  if decide (b = 0) then Raise ZeroDivisionError
  else Return (inject_Z a / inject_Z b)%Q.

(** An int inside an f-string. CPython (3.11 and later, and the patched
    releases before it) refuses to convert an int of more than
    [sys.int_max_str_digits] decimal digits, 4300 unless configured, and
    raises [ValueError]; the sign is not counted. *)
Definition int_max_str_digits : Z := 4300.

Definition int_str_limit : Z := 10 ^ int_max_str_digits.

Definition digits_msg : string :=
  "Exceeds the limit (4300 digits) for integer string conversion; use sys.set_int_max_str_digits() to increase the limit".

#[global] Opaque int_str_limit.

Definition fits (n : Z) : bool := Z.abs n <? int_str_limit.

Definition format_int (n : Z) : Outcome string :=
  if fits n then Return (pretty n) else Raise (ValueError digits_msg).

(** [list.sort(key=...)]: a stable sort, here by insertion. *)
Fixpoint insert_key {A : Type} (key : A -> Z) (x : A) (l : list A) : list A :=
  match l with
  | [] => [x]
  | y :: l' => if key x <=? key y then x :: l else y :: insert_key key x l'
  end.

Definition sort_key {A : Type} (key : A -> Z) (l : list A) : list A :=
  foldr (insert_key key) [] l.

(** ** Data model *)

Inductive SeverityLevel : Type := CRITICAL | HIGH | MEDIUM | LOW.

Module RosteringRequirement.
Record t : Type := mk {
  date : string;
  dagdeel : string;
  service_id : string;
  required_count : Z;
  team : string
}.
End RosteringRequirement.

Module EmployeeCapability.
Record t : Type := mk {
  employee_id : string;
  voornaam : string;
  achternaam : string;
  capable_services : gmap string bool;
  available_dates : gset string;
  team : string;
  max_shifts_per_week : Z;
  current_shifts : Z
}.
End EmployeeCapability.

Module FixedAssignment.
Record t : Type := mk {
  employee_id : string;
  date : string;
  dagdeel : string;
  service_id : string;
  reason : string
}.
End FixedAssignment.

Module BlockedSlot.
Record t : Type := mk {
  employee_id : string;
  date : string;
  dagdeel : string;
  reason : string
}.
End BlockedSlot.

Module Assignment.
Record t : Type := mk {
  assignment_id : string;
  employee_id : string;
  date : string;
  dagdeel : string;
  service_id : string;
  source : string;
  is_locked : bool
}.
End Assignment.

Module Bottleneck.
Record t : Type := mk {
  date : string;
  dagdeel : string;
  service_id : string;
  required_count : Z;
  placed_count : Z;
  shortage : Z;
  severity : SeverityLevel;
  reason : string;
  suggestions : list string
}.

(** The generated [__init__] followed by [__post_init__]: [shortage] is
    not a constructor argument, it is derived, and so is [severity]. *)
Definition __post_init__ (date dagdeel service_id : string)
    (required_count placed_count : Z) : t :=
  let shortage := required_count - placed_count in
  {| date := date; dagdeel := dagdeel; service_id := service_id;
     required_count := required_count; placed_count := placed_count;
     shortage := shortage;
     severity := if 2 <=? shortage then CRITICAL
                 else if shortage =? 1 then HIGH
                 else MEDIUM;
     reason := ""; suggestions := [] |}.

Definition set_reason (b : t) (r : string) : t :=
  {| date := date b; dagdeel := dagdeel b; service_id := service_id b;
     required_count := required_count b; placed_count := placed_count b;
     shortage := shortage b; severity := severity b;
     reason := r; suggestions := suggestions b |}.

Definition set_suggestions (b : t) (l : list string) : t :=
  {| date := date b; dagdeel := dagdeel b; service_id := service_id b;
     required_count := required_count b; placed_count := placed_count b;
     shortage := shortage b; severity := severity b;
     reason := reason b; suggestions := l |}.
End Bottleneck.

Module RosteringResult.
Record t : Type := mk {
  roster : list Assignment.t;
  bottlenecks : list Bottleneck.t;
  coverage_rate : Q;
  total_slots : Z;
  assigned_slots : Z;
  solve_time_seconds : Q;
  timestamp : string;
  version : string
}.
End RosteringResult.

(** The three readings of [datetime.now()] one call of [solve] makes: at
  entry, after FASE 2, and in the default factory of [timestamp] (already
  in ISO format). Times are in microseconds. *)
Record Clock : Type := {
start_time : Z;
end_time : Z;
timestamp_now : string
}.

Abbreviation Slot := (string * string * string)%type.

(** ** The engine *)

(** The local variables of [solve] that its loops update, together with the
    worker objects the caller passed in: [employees] is the caller's list,
    shared by reference, so a write to a worker inside [solve] would be
    visible here. *)
Module Locals.
Record t : Type := mk {
  employees : list EmployeeCapability.t;
  roster : list Assignment.t;
  bottlenecks : list Bottleneck.t;
  assignment_count : gmap string Z
}.
End Locals.

Definition _build_blocked_set (blocked_slots : list BlockedSlot.t) : gset Slot :=
  list_to_set
    (map (fun b => (BlockedSlot.employee_id b, BlockedSlot.date b, BlockedSlot.dagdeel b))
         blocked_slots).

(** [emp.capable_services.get(service_id, False)] *)
Definition capable (emp : EmployeeCapability.t) (service_id : string) : bool :=
  default false (EmployeeCapability.capable_services emp !! service_id).

Definition _is_valid_assignment (employee_id date dagdeel service_id : string)
    (employees : list EmployeeCapability.t) (blocked_set : gset Slot) : bool :=
  if decide ((employee_id, date, dagdeel) ∈ blocked_set) then false
  else
    match find (fun e => String.eqb (EmployeeCapability.employee_id e) employee_id)
               employees with
    | None => false
    | Some emp => capable emp service_id
    end.

(** The body of the loop of [_find_eligible_employees]: [true] when the
    worker reaches [eligible.append(emp)], [false] at each [continue]. *)
Definition eligible_here (date dagdeel service_id : string)
    (roster : list Assignment.t) (blocked_set : gset Slot) (team_filter : string)
    (emp : EmployeeCapability.t) : bool :=
  if negb (String.eqb team_filter "")
     && negb (String.eqb (EmployeeCapability.team emp) team_filter) then false
  else if negb (capable emp service_id) then false
  else if decide ((EmployeeCapability.employee_id emp, date, dagdeel) ∈ blocked_set)
  then false
  else
    let already_assigned :=
      existsb (fun a =>
                 String.eqb (Assignment.employee_id a) (EmployeeCapability.employee_id emp)
                 && String.eqb (Assignment.date a) date
                 && String.eqb (Assignment.dagdeel a) dagdeel)
              roster in
    if already_assigned then false else true.

Definition _find_eligible_employees (date dagdeel service_id : string)
    (employees : list EmployeeCapability.t) (roster : list Assignment.t)
    (blocked_set : gset Slot) (team_filter : string) : list EmployeeCapability.t :=
  List.filter (eligible_here date dagdeel service_id roster blocked_set team_filter)
              employees.

Definition _analyze_bottleneck_reason (req : RosteringRequirement.t)
    (eligible : list EmployeeCapability.t) (blocked_set : gset Slot)
    (employees : list EmployeeCapability.t) : string :=
  let capable_ :=
    List.filter (fun e => capable e (RosteringRequirement.service_id req)) employees in
  match capable_ with
  | [] => "No employees capable of this service"
  | _ :: _ =>
    let available :=
      List.filter
        (fun e => bool_decide ((EmployeeCapability.employee_id e,
                                RosteringRequirement.date req,
                                RosteringRequirement.dagdeel req) ∉ blocked_set))
        capable_ in
    match available with
    | [] => "All capable employees are blocked/unavailable"
    | _ :: _ => "Insufficient eligible employees for this slot"
    end
  end.

Definition _suggest_solutions (req : RosteringRequirement.t) (bottleneck : Bottleneck.t)
  : Outcome (list string) :=
  let shortage := Bottleneck.shortage bottleneck in
  suggestions ←
    (if shortage =? 1 then mret ["Train 1 more employee in this service"]
     else if 1 <? shortage
     then n ← format_int shortage;
          mret ["Train " +:+ n +:+ " more employees in this service"]
     else mret []);
  n ← format_int shortage;
  mret (suggestions ++ ["Reduce requirement by " +:+ n;
                        "Check for scheduling conflicts"]).

(** FASE 1, one iteration. *)
Definition locked_assignment (fixed : FixedAssignment.t) : Assignment.t :=
  {| Assignment.assignment_id :=
       FixedAssignment.employee_id fixed +:+ "_" +:+ FixedAssignment.date fixed
       +:+ "_" +:+ FixedAssignment.dagdeel fixed;
     Assignment.employee_id := FixedAssignment.employee_id fixed;
     Assignment.date := FixedAssignment.date fixed;
     Assignment.dagdeel := FixedAssignment.dagdeel fixed;
     Assignment.service_id := FixedAssignment.service_id fixed;
     Assignment.source := "pre-planned";
     Assignment.is_locked := true |}.

Definition fase1_body (blocked_set : gset Slot) (fixed : FixedAssignment.t)
    (s : Locals.t) : Outcome Locals.t :=
  if _is_valid_assignment (FixedAssignment.employee_id fixed)
       (FixedAssignment.date fixed) (FixedAssignment.dagdeel fixed)
       (FixedAssignment.service_id fixed) (Locals.employees s) blocked_set
  then
    let roster' := Locals.roster s ++ [locked_assignment fixed] in
    count' ← dict_incr (FixedAssignment.employee_id fixed) (Locals.assignment_count s);
    mret {| Locals.employees := Locals.employees s;
            Locals.roster := roster';
            Locals.bottlenecks := Locals.bottlenecks s;
            Locals.assignment_count := count' |}
  else mret s.

(** FASE 2, the inner loop [for emp in eligible], with [assigned] carried. *)
Definition greedy_assignment (req : RosteringRequirement.t)
    (emp : EmployeeCapability.t) : Assignment.t :=
  {| Assignment.assignment_id :=
       EmployeeCapability.employee_id emp +:+ "_" +:+ RosteringRequirement.date req
       +:+ "_" +:+ RosteringRequirement.dagdeel req
       +:+ "_" +:+ RosteringRequirement.service_id req;
     Assignment.employee_id := EmployeeCapability.employee_id emp;
     Assignment.date := RosteringRequirement.date req;
     Assignment.dagdeel := RosteringRequirement.dagdeel req;
     Assignment.service_id := RosteringRequirement.service_id req;
     Assignment.source := "greedy";
     Assignment.is_locked := false |}.

Fixpoint assign_loop (req : RosteringRequirement.t) (shortage : Z)
    (eligible : list EmployeeCapability.t) (assigned : Z) (s : Locals.t)
  : Outcome (Z * Locals.t) :=
  match eligible with
  | [] => mret (assigned, s)
  | emp :: eligible' =>
    if shortage <=? assigned then mret (assigned, s)
    else
      let roster' := Locals.roster s ++ [greedy_assignment req emp] in
      count' ← dict_incr (EmployeeCapability.employee_id emp) (Locals.assignment_count s);
      assign_loop req shortage eligible' (assigned + 1)
        {| Locals.employees := Locals.employees s;
           Locals.roster := roster';
           Locals.bottlenecks := Locals.bottlenecks s;
           Locals.assignment_count := count' |}
  end.

Definition slot_matches (date dagdeel service_id : string) (a : Assignment.t) : bool :=
  String.eqb (Assignment.date a) date
  && String.eqb (Assignment.dagdeel a) dagdeel
  && String.eqb (Assignment.service_id a) service_id.

Definition slot_count (date dagdeel service_id : string) (roster : list Assignment.t) : Z :=
  Z.of_nat (length (List.filter (slot_matches date dagdeel service_id) roster)).

(** FASE 2, one iteration of [for req in requirements]. *)
Definition fase2_body (blocked_set : gset Slot) (req : RosteringRequirement.t)
    (s : Locals.t) : Outcome Locals.t :=
  let current_count :=
    slot_count (RosteringRequirement.date req) (RosteringRequirement.dagdeel req)
               (RosteringRequirement.service_id req) (Locals.roster s) in
  if current_count <? RosteringRequirement.required_count req then
    let shortage := RosteringRequirement.required_count req - current_count in
    let eligible :=
      _find_eligible_employees (RosteringRequirement.date req)
        (RosteringRequirement.dagdeel req) (RosteringRequirement.service_id req)
        (Locals.employees s) (Locals.roster s) blocked_set
        (RosteringRequirement.team req) in
    let eligible :=
      sort_key
        (fun e => default 0 (Locals.assignment_count s !! EmployeeCapability.employee_id e))
        eligible in
    '(assigned, s') ← assign_loop req shortage eligible 0 s;
    if assigned <? shortage then
      let bottleneck :=
        Bottleneck.__post_init__ (RosteringRequirement.date req)
          (RosteringRequirement.dagdeel req) (RosteringRequirement.service_id req)
          (RosteringRequirement.required_count req) (current_count + assigned) in
      let bottleneck :=
        Bottleneck.set_reason bottleneck
          (_analyze_bottleneck_reason req eligible blocked_set (Locals.employees s')) in
      suggestions ← _suggest_solutions req bottleneck;
      let bottleneck := Bottleneck.set_suggestions bottleneck suggestions in
      mret {| Locals.employees := Locals.employees s';
              Locals.roster := Locals.roster s';
              Locals.bottlenecks := Locals.bottlenecks s' ++ [bottleneck];
              Locals.assignment_count := Locals.assignment_count s' |}
    else mret s'
  else mret s.

(** The locals as [solve] initialises them. *)
Definition init_locals (employees : list EmployeeCapability.t) : Locals.t :=
  {| Locals.employees := employees;
     Locals.roster := [];
     Locals.bottlenecks := [];
     Locals.assignment_count :=
       list_to_map (map (fun emp => (EmployeeCapability.employee_id emp, 0)) employees) |}.

(** FASE 1 then FASE 2. *)
Definition allocate (requirements : list RosteringRequirement.t)
    (employees : list EmployeeCapability.t)
    (fixed_assignments : list FixedAssignment.t)
    (blocked_slots : list BlockedSlot.t) : Outcome Locals.t :=
  let blocked_set := _build_blocked_set blocked_slots in
  s ← for_each (fase1_body blocked_set) fixed_assignments (init_locals employees);
  for_each (fase2_body blocked_set) requirements s.

(** [solve] returns the result; the second component is the state of the
    caller's worker objects when it returns. *)
Definition solve (clock : Clock) (requirements : list RosteringRequirement.t)
    (employees : list EmployeeCapability.t)
    (fixed_assignments : list FixedAssignment.t)
    (blocked_slots : list BlockedSlot.t)
  : Outcome (RosteringResult.t * list EmployeeCapability.t) :=
  s ← allocate requirements employees fixed_assignments blocked_slots;
  let total_slots := Z.of_nat (length requirements) in
  let assigned_slots :=
    Z.of_nat (length (List.filter (fun b => Bottleneck.shortage b =? 0) (Locals.bottlenecks s)))
    + (total_slots - Z.of_nat (length (Locals.bottlenecks s))) in
  coverage_rate ←
    (if 0 <? total_slots
     then q ← truediv assigned_slots total_slots; mret (q * 100)%Q
     else mret 0%Q);
  let elapsed := ((end_time clock - start_time clock) # 1000000)%Q in
  mret ({| RosteringResult.roster := Locals.roster s;
           RosteringResult.bottlenecks := Locals.bottlenecks s;
           RosteringResult.coverage_rate := coverage_rate;
           RosteringResult.total_slots := total_slots;
           RosteringResult.assigned_slots := assigned_slots;
           RosteringResult.solve_time_seconds := elapsed;
           RosteringResult.timestamp := timestamp_now clock;
           RosteringResult.version := "2.0.0-DRAAD194" |},
        Locals.employees s).

(** ** Pure descriptions of what the loops compute *)

Abbreviation eid := EmployeeCapability.employee_id.

(** The number of occurrences of [k] in [ids]. *)
Definition occ (k : string) (ids : list string) : Z :=
  Z.of_nat (length (List.filter (String.eqb k) ids)).

(** The number of entries of [roster] held by worker [k]. *)
Definition load (k : string) (roster : list Assignment.t) : Z :=
  occ k (map Assignment.employee_id roster).

(** The tally after one increment per id in [ids]. *)
Definition charge (count : gmap string Z) (ids : list string) : gmap string Z :=
  foldl (fun c k => <[k := default 0 (c !! k) + 1]> c) count ids.

(** The fixed assignments FASE 1 accepts. *)
Definition valid_fixed (employees : list EmployeeCapability.t) (blocked_set : gset Slot)
    (fixed : FixedAssignment.t) : bool :=
  _is_valid_assignment (FixedAssignment.employee_id fixed) (FixedAssignment.date fixed)
    (FixedAssignment.dagdeel fixed) (FixedAssignment.service_id fixed)
    employees blocked_set.

Definition fase1_roster (employees : list EmployeeCapability.t) (blocked_set : gset Slot)
    (fixed_assignments : list FixedAssignment.t) : list Assignment.t :=
  map locked_assignment (List.filter (valid_fixed employees blocked_set) fixed_assignments).

(** For one requirement: the count it starts from, the sorted candidates,
    the workers it commits and the bottleneck it records (if any). *)
Definition current_count (req : RosteringRequirement.t) (s : Locals.t) : Z :=
  slot_count (RosteringRequirement.date req) (RosteringRequirement.dagdeel req)
             (RosteringRequirement.service_id req) (Locals.roster s).

Definition candidates (blocked_set : gset Slot) (req : RosteringRequirement.t)
    (s : Locals.t) : list EmployeeCapability.t :=
  sort_key (fun e => default 0 (Locals.assignment_count s !! eid e))
    (_find_eligible_employees (RosteringRequirement.date req)
       (RosteringRequirement.dagdeel req) (RosteringRequirement.service_id req)
       (Locals.employees s) (Locals.roster s) blocked_set (RosteringRequirement.team req)).

Definition picked (blocked_set : gset Slot) (req : RosteringRequirement.t)
    (s : Locals.t) : list EmployeeCapability.t :=
  firstn (Z.to_nat (RosteringRequirement.required_count req - current_count req s))
         (candidates blocked_set req s).

(** The suggestions for a shortage whose digits fit. *)
Definition suggestion_texts (shortage : Z) : list string :=
  (if shortage =? 1 then ["Train 1 more employee in this service"]
   else if 1 <? shortage
   then ["Train " +:+ pretty shortage +:+ " more employees in this service"]
   else [])
  ++ ["Reduce requirement by " +:+ pretty shortage; "Check for scheduling conflicts"].

Definition bottleneck_for (blocked_set : gset Slot) (req : RosteringRequirement.t)
    (s : Locals.t) : Bottleneck.t :=
  let b :=
    Bottleneck.set_reason
      (Bottleneck.__post_init__ (RosteringRequirement.date req)
         (RosteringRequirement.dagdeel req) (RosteringRequirement.service_id req)
         (RosteringRequirement.required_count req)
         (current_count req s + Z.of_nat (length (picked blocked_set req s))))
      (_analyze_bottleneck_reason req (candidates blocked_set req s) blocked_set
         (Locals.employees s)) in
  Bottleneck.set_suggestions b (suggestion_texts (Bottleneck.shortage b)).

Definition shortfall (blocked_set : gset Slot) (req : RosteringRequirement.t)
    (s : Locals.t) : list Bottleneck.t :=
  if Z.of_nat (length (picked blocked_set req s))
     <? RosteringRequirement.required_count req - current_count req s
  then [bottleneck_for blocked_set req s]
  else [].

(** Whether the shortage of the bottleneck recorded for [req] (if one is)
    can be written into its suggestions. *)
Definition printable (blocked_set : gset Slot) (req : RosteringRequirement.t)
    (s : Locals.t) : bool :=
  forallb (fun b => fits (Bottleneck.shortage b)) (shortfall blocked_set req s).

Definition after_req (blocked_set : gset Slot) (req : RosteringRequirement.t)
    (s : Locals.t) : Locals.t :=
  {| Locals.employees := Locals.employees s;
     Locals.roster :=
       Locals.roster s ++ map (greedy_assignment req) (picked blocked_set req s);
     Locals.bottlenecks := Locals.bottlenecks s ++ shortfall blocked_set req s;
     Locals.assignment_count :=
       charge (Locals.assignment_count s) (map eid (picked blocked_set req s)) |}.

Definition after_fixed (blocked_set : gset Slot) (fixed : FixedAssignment.t)
    (s : Locals.t) : Locals.t :=
  if valid_fixed (Locals.employees s) blocked_set fixed
  then {| Locals.employees := Locals.employees s;
          Locals.roster := Locals.roster s ++ [locked_assignment fixed];
          Locals.bottlenecks := Locals.bottlenecks s;
          Locals.assignment_count :=
            charge (Locals.assignment_count s) [FixedAssignment.employee_id fixed] |}
  else s.

Definition after_fase1 (blocked_set : gset Slot) (employees : list EmployeeCapability.t)
    (fixed_assignments : list FixedAssignment.t) : Locals.t :=
  foldl (fun s fixed => after_fixed blocked_set fixed s) (init_locals employees)
        fixed_assignments.

Definition after_fase2 (blocked_set : gset Slot)
    (requirements : list RosteringRequirement.t) (s : Locals.t) : Locals.t :=
  foldl (fun s req => after_req blocked_set req s) s requirements.

(** Whether every requirement of the list, processed in order from [s],
    is printable when its turn comes. *)
Fixpoint printable_all (blocked_set : gset Slot)
    (requirements : list RosteringRequirement.t) (s : Locals.t) : bool :=
  match requirements with
  | [] => true
  | req :: requirements' =>
    printable blocked_set req s
    && printable_all blocked_set requirements' (after_req blocked_set req s)
  end.

(** Every worker of the list has an entry in the tally, and the entry is
    the number of roster entries the worker holds. *)
Definition tally_ok (s : Locals.t) : Prop :=
  forall e, In e (Locals.employees s) ->
    Locals.assignment_count s !! eid e = Some (load (eid e) (Locals.roster s)).

(** The fields of a result that do not depend on the clock. *)
Definition clockless (r : RosteringResult.t)
  : list Assignment.t * list Bottleneck.t * Q * Z * Z * string :=
  (RosteringResult.roster r, RosteringResult.bottlenecks r,
   RosteringResult.coverage_rate r, RosteringResult.total_slots r,
   RosteringResult.assigned_slots r, RosteringResult.version r).

(** A list in ascending order of [key]. *)
Definition ascending {A : Type} (key : A -> Z) (l : list A) : Prop :=
  forall i j x y, (i < j)%nat -> nth_error l i = Some x -> nth_error l j = Some y ->
    key x <= key y.

(** The result [solve] builds from the locals FASE 2 leaves. *)
Definition result_of (clock : Clock) (requirements : list RosteringRequirement.t)
    (s : Locals.t) : RosteringResult.t :=
  let total_slots := Z.of_nat (length requirements) in
  let assigned_slots :=
    Z.of_nat (length (List.filter (fun b => Bottleneck.shortage b =? 0)
                                  (Locals.bottlenecks s)))
    + (total_slots - Z.of_nat (length (Locals.bottlenecks s))) in
  {| RosteringResult.roster := Locals.roster s;
     RosteringResult.bottlenecks := Locals.bottlenecks s;
     RosteringResult.coverage_rate :=
       if 0 <? total_slots
       then (inject_Z assigned_slots / inject_Z total_slots * 100)%Q
       else 0%Q;
     RosteringResult.total_slots := total_slots;
     RosteringResult.assigned_slots := assigned_slots;
     RosteringResult.solve_time_seconds :=
       ((end_time clock - start_time clock) # 1000000)%Q;
     RosteringResult.timestamp := timestamp_now clock;
     RosteringResult.version := "2.0.0-DRAAD194" |}.

Definition final_locals (requirements : list RosteringRequirement.t)
    (employees : list EmployeeCapability.t)
    (fixed_assignments : list FixedAssignment.t)
    (blocked_slots : list BlockedSlot.t) : Locals.t :=
  after_fase2 (_build_blocked_set blocked_slots) requirements
    (after_fase1 (_build_blocked_set blocked_slots) employees fixed_assignments).

(** The (worker, date, day-part) an assignment occupies. *)
Definition occupies (a : Assignment.t) : Slot :=
  (Assignment.employee_id a, Assignment.date a, Assignment.dagdeel a).

Definition fixed_occupies (fixed : FixedAssignment.t) : Slot :=
  (FixedAssignment.employee_id fixed, FixedAssignment.date fixed,
   FixedAssignment.dagdeel fixed).

(** What a caller can rely on in a returned result: the metrics add up,
    every assignment names a capable worker of the list, every bottleneck
    has a positive shortage equal to required minus placed, and every
    requirement is either met in the roster or reported as a bottleneck. *)
Definition well_formed (requirements : list RosteringRequirement.t)
    (employees : list EmployeeCapability.t) (r : RosteringResult.t) : Prop :=
  RosteringResult.total_slots r = Z.of_nat (length requirements)
  /\ 0 <= RosteringResult.assigned_slots r <= RosteringResult.total_slots r
  /\ RosteringResult.assigned_slots r
       + Z.of_nat (length (RosteringResult.bottlenecks r))
     = RosteringResult.total_slots r
  /\ (0 <= RosteringResult.coverage_rate r)%Q
  /\ (RosteringResult.coverage_rate r <= 100)%Q
  /\ RosteringResult.version r = "2.0.0-DRAAD194"
  /\ Forall (fun a => exists e, In e employees
                /\ EmployeeCapability.employee_id e = Assignment.employee_id a
                /\ capable e (Assignment.service_id a) = true)
            (RosteringResult.roster r)
  /\ Forall (fun b => 0 <= Bottleneck.placed_count b
                      /\ 0 < Bottleneck.shortage b
                      /\ Bottleneck.shortage b
                         = Bottleneck.required_count b - Bottleneck.placed_count b)
            (RosteringResult.bottlenecks r)
  /\ forall req, In req requirements ->
       RosteringRequirement.required_count req
       <= slot_count (RosteringRequirement.date req) (RosteringRequirement.dagdeel req)
            (RosteringRequirement.service_id req) (RosteringResult.roster r)
       \/ exists b, In b (RosteringResult.bottlenecks r)
            /\ Bottleneck.date b = RosteringRequirement.date req
            /\ Bottleneck.dagdeel b = RosteringRequirement.dagdeel req
            /\ Bottleneck.service_id b = RosteringRequirement.service_id req
            /\ Bottleneck.required_count b = RosteringRequirement.required_count req.

(** Whether [req] targets the slot (date, day-part, service). *)
Definition targets (req : RosteringRequirement.t) (date dagdeel service_id : string)
  : bool :=
  String.eqb (RosteringRequirement.date req) date
  && String.eqb (RosteringRequirement.dagdeel req) dagdeel
  && String.eqb (RosteringRequirement.service_id req) service_id.

(** The largest [required_count] among the requirements that target the
    slot (0 when there is none, or none is positive). *)
Definition demand (date dagdeel service_id : string)
    (requirements : list RosteringRequirement.t) : Z :=
  fold_right (fun req m => if targets req date dagdeel service_id
                           then Z.max (RosteringRequirement.required_count req) m
                           else m)
             0 requirements.

(** What it would mean for the worker objects [after] a run to carry, in
    [current_shifts], the assignments committed for them during the run. *)
Definition shifts_charged (before after : list EmployeeCapability.t)
    (roster : list Assignment.t) : Prop :=
  Forall2 (fun e e' => EmployeeCapability.current_shifts e'
                       = EmployeeCapability.current_shifts e + load (eid e) roster)
          before after.

(** A worker record with the three scheduling fields replaced. *)
Definition reschedule (f : EmployeeCapability.t -> gset string * Z * Z)
    (e : EmployeeCapability.t) : EmployeeCapability.t :=
  {| EmployeeCapability.employee_id := EmployeeCapability.employee_id e;
     EmployeeCapability.voornaam := EmployeeCapability.voornaam e;
     EmployeeCapability.achternaam := EmployeeCapability.achternaam e;
     EmployeeCapability.capable_services := EmployeeCapability.capable_services e;
     EmployeeCapability.available_dates := fst (fst (f e));
     EmployeeCapability.team := EmployeeCapability.team e;
     EmployeeCapability.max_shifts_per_week := snd (fst (f e));
     EmployeeCapability.current_shifts := snd (f e) |}.

(** The locals with another worker list. *)
Definition with_employees (employees : list EmployeeCapability.t) (s : Locals.t)
  : Locals.t :=
  {| Locals.employees := employees;
     Locals.roster := Locals.roster s;
     Locals.bottlenecks := Locals.bottlenecks s;
     Locals.assignment_count := Locals.assignment_count s |}.

(** ** Sample inputs *)

Module Sample.

Definition clock : Clock :=
  {| start_time := 0; end_time := 1500; timestamp_now := "2024-01-01T09:00:00" |}.

Definition later : Clock :=
  {| start_time := 7000000; end_time := 7002500;
     timestamp_now := "2024-01-01T09:00:07" |}.

Definition worker (id : string) (services : list string) : EmployeeCapability.t :=
  {| EmployeeCapability.employee_id := id;
     EmployeeCapability.voornaam := "";
     EmployeeCapability.achternaam := "";
     EmployeeCapability.capable_services :=
       list_to_map (map (fun s => (s, true)) services);
     EmployeeCapability.available_dates := ∅;
     EmployeeCapability.team := "";
     EmployeeCapability.max_shifts_per_week := 40;
     EmployeeCapability.current_shifts := 0 |}.

Definition need (date dagdeel service_id : string) (n : Z) : RosteringRequirement.t :=
  {| RosteringRequirement.date := date;
     RosteringRequirement.dagdeel := dagdeel;
     RosteringRequirement.service_id := service_id;
     RosteringRequirement.required_count := n;
     RosteringRequirement.team := "" |}.

Definition lock (id date dagdeel service_id : string) : FixedAssignment.t :=
  {| FixedAssignment.employee_id := id;
     FixedAssignment.date := date;
     FixedAssignment.dagdeel := dagdeel;
     FixedAssignment.service_id := service_id;
     FixedAssignment.reason := "pre-planned" |}.

Definition sick (id date dagdeel : string) : BlockedSlot.t :=
  {| BlockedSlot.employee_id := id;
     BlockedSlot.date := date;
     BlockedSlot.dagdeel := dagdeel;
     BlockedSlot.reason := "sick" |}.

(** Three workers, two of them trained for service S; one requirement for
    two seats and one for a service nobody is trained for. *)
Definition staff : list EmployeeCapability.t :=
  [worker "ann" ["S"]; worker "bob" ["S"; "T"]; worker "cas" ["T"]].

Definition needs : list RosteringRequirement.t :=
  [need "2024-01-01" "ochtend" "S" 3; need "2024-01-01" "middag" "U" 1;
   need "2024-01-02" "ochtend" "T" 1].

Definition locks : list FixedAssignment.t :=
  [lock "bob" "2024-01-01" "ochtend" "S"; lock "zed" "2024-01-01" "ochtend" "S"].

Definition blocks : list BlockedSlot.t := [sick "cas" "2024-01-02" "ochtend"].

End Sample.

Module SampleRun.

Definition result : RosteringResult.t :=
  Eval vm_compute in
    result_of Sample.clock Sample.needs
      (final_locals Sample.needs Sample.staff Sample.locks Sample.blocks).

(** Its two bottlenecks. *)
Definition bottleneck_S : Bottleneck.t :=
  Bottleneck.set_suggestions
    (Bottleneck.set_reason
       (Bottleneck.__post_init__ "2024-01-01" "ochtend" "S" 3 2)
       "Insufficient eligible employees for this slot")
    ["Train 1 more employee in this service"; "Reduce requirement by 1";
     "Check for scheduling conflicts"].

Definition bottleneck_U : Bottleneck.t :=
  Bottleneck.set_suggestions
    (Bottleneck.set_reason
       (Bottleneck.__post_init__ "2024-01-01" "middag" "U" 1 0)
       "No employees capable of this service")
    ["Train 1 more employee in this service"; "Reduce requirement by 1";
     "Check for scheduling conflicts"].

End SampleRun.

(** The same worker locked twice into one day-part. *)
Module DoubleLock.

Definition staff : list EmployeeCapability.t := [Sample.worker "ann" ["S"; "T"]].

Definition locks : list FixedAssignment.t :=
  [Sample.lock "ann" "2024-01-01" "ochtend" "S";
   Sample.lock "ann" "2024-01-01" "ochtend" "T"].

Definition needs : list RosteringRequirement.t :=
  [Sample.need "2024-01-01" "ochtend" "S" 1].

Definition result : RosteringResult.t :=
  Eval vm_compute in
    result_of Sample.clock needs (final_locals needs staff locks []).

End DoubleLock.

(** Two worker records carrying one id. *)
Module Namesakes.

Definition staff : list EmployeeCapability.t :=
  [Sample.worker "ann" ["S"]; Sample.worker "ann" ["S"]].

Definition needs : list RosteringRequirement.t :=
  [Sample.need "2024-01-01" "ochtend" "S" 2].

Definition result : RosteringResult.t :=
  Eval vm_compute in
    result_of Sample.clock needs (final_locals needs staff [] []).

End Namesakes.

(** The three-way classification of a bottleneck's cause, over the three
    texts it can produce: nobody in the worker list is capable of the
    service; else every capable worker is in the blocked index for the
    (date, day-part); else the third. *)
Definition classify (none_capable all_blocked otherwise : string)
    (employees : list EmployeeCapability.t) (blocked_set : gset Slot)
    (date dagdeel service_id : string) : string :=
  if forallb (fun e => negb (capable e service_id)) employees then none_capable
  else if forallb (fun e => negb (capable e service_id)
                            || bool_decide ((eid e, date, dagdeel) ∈ blocked_set))
                  employees
  then all_blocked
  else otherwise.


(** Two workers locked into a slot that needs one. *)
Module Overbooked.

Definition staff : list EmployeeCapability.t :=
  [Sample.worker "ann" ["S"]; Sample.worker "bob" ["S"]].

Definition locks : list FixedAssignment.t :=
  [Sample.lock "ann" "2024-01-01" "ochtend" "S";
   Sample.lock "bob" "2024-01-01" "ochtend" "S"].

Definition seat : RosteringRequirement.t := Sample.need "2024-01-01" "ochtend" "S" 1.

Definition result : RosteringResult.t :=
  Eval vm_compute in
    result_of Sample.clock [seat] (final_locals [seat] staff locks []).

End Overbooked.

(** Two requirements for one slot, the first asking for more. *)
Module Twice.

Definition first : RosteringRequirement.t := Sample.need "2024-01-01" "ochtend" "S" 2.
Definition second : RosteringRequirement.t := Sample.need "2024-01-01" "ochtend" "S" 1.

Definition result : RosteringResult.t :=
  Eval vm_compute in
    result_of Sample.clock [first; second]
      (final_locals [first; second] Overbooked.staff [] []).

End Twice.

(** A worker available on one other date only, with a cap of one shift that
    is already used, and two requirements on one day. *)
Module Overworked.

Definition ann : EmployeeCapability.t :=
  {| EmployeeCapability.employee_id := "ann";
     EmployeeCapability.voornaam := "Ann";
     EmployeeCapability.achternaam := "A";
     EmployeeCapability.capable_services := {["S" := true]};
     EmployeeCapability.available_dates := {["2024-02-02"]};
     EmployeeCapability.team := "";
     EmployeeCapability.max_shifts_per_week := 1;
     EmployeeCapability.current_shifts := 1 |}.

Definition needs : list RosteringRequirement.t :=
  [Sample.need "2024-01-01" "ochtend" "S" 1; Sample.need "2024-01-01" "middag" "S" 1].

Definition locks : list FixedAssignment.t :=
  [Sample.lock "ann" "2024-01-01" "avond" "S"].

Definition result : RosteringResult.t :=
  Eval vm_compute in
    result_of Sample.clock needs (final_locals needs [ann] locks []).

End Overworked.

(** One requirement whose [required_count] has 5001 digits, and nobody to
    fill it. *)
Module Oversized.

Definition needs : list RosteringRequirement.t :=
  [Sample.need "2024-01-01" "ochtend" "S" (10 ^ 5000)].

End Oversized.

(** Two workers for service S, and one seat on each of two days. *)
Module Balance.

Definition ann : EmployeeCapability.t := Sample.worker "ann" ["S"].
Definition bob : EmployeeCapability.t := Sample.worker "bob" ["S"].
Definition staff : list EmployeeCapability.t := [ann; bob].

Definition monday : RosteringRequirement.t := Sample.need "2024-01-01" "ochtend" "S" 1.
Definition tuesday : RosteringRequirement.t := Sample.need "2024-01-02" "ochtend" "S" 1.
Definition crowd : RosteringRequirement.t := Sample.need "2024-01-03" "ochtend" "S" 5.

End Balance.

(** ** Python values (solvers/solver_selector.py, [to_dict])

    The selector receives decoded JSON and returns dicts. A dict is a list of
    (key, value) pairs in insertion order; [float] is a rational, as for the
    result record, whose [coverage_rate] is kept as a rational also when it
    is the integer 0 of a run without requirements; [len] is an int. *)

#[local] Unset Elimination Schemes.
Inductive PyValue : Type :=
  | PyNone
  | PyBool (b : bool)
  | PyInt (n : Z)
  | PyFloat (q : Q)
  | PyStr (s : string)
  | PyList (l : list PyValue)
  | PyDict (d : list (string * PyValue)).
#[local] Set Elimination Schemes.

(** [d.get(k)] on such a dict. *)
Fixpoint dict_get (k : string) (d : list (string * PyValue)) : option PyValue :=
  match d with
  | [] => None
  | (k', v) :: d' => if String.eqb k' k then Some v else dict_get k d'
  end.

(** What a call into the selector can do. [Untyped] marks the point where a
    value has another Python type than the annotation of the field it is
    bound to: the dataclasses store it unchecked, the typed records of this
    development cannot hold it, and the model says nothing beyond. *)
Inductive Call (A : Type) : Type :=
  | Returned (a : A)
  | Raised (e : PyExn)
  | Untyped.
Arguments Returned {A} a.
Arguments Raised {A} e.
Arguments Untyped {A}.

#[global] Instance Call_ret : MRet Call := fun A a => Returned a.
#[global] Instance Call_bind : MBind Call := fun A B k m =>
  match m with
  | Returned a => k a
  | Raised e => Raised e
  | Untyped => Untyped
  end.

(** [[f(x) for x in l]]: the first failure ends the comprehension. *)
Fixpoint comprehension {A B : Type} (f : A -> Call B) (l : list A) : Call (list B) :=
  match l with
  | [] => mret []
  | x :: l' => y ← f x; ys ← comprehension f l'; mret (y :: ys)
  end.

(** Binding the keywords of [r] to a dataclass with the init fields [fields], of which
    [required] have no default: [r] must be a mapping, every key must be a
    field, and every required field must be given; else [TypeError]. *)
Definition bind_kwargs (fields required : list string) (r : PyValue)
  : Call (list (string * PyValue)) :=
  match r with
  | PyDict d =>
    if forallb (fun kv => existsb (String.eqb (fst kv)) fields) d
       && forallb (fun k => bool_decide (is_Some (dict_get k d))) required
    then Returned d
    else Raised TypeError
  | _ => Raised TypeError
  end.

(** The value bound to field [k], or the field's default. *)
Definition field_str (k : string) (default : string) (d : list (string * PyValue))
  : Call string :=
  match dict_get k d with
  | Some (PyStr s) => Returned s
  | Some _ => Untyped
  | None => Returned default
  end.

Definition field_int (k : string) (default : Z) (d : list (string * PyValue))
  : Call Z :=
  match dict_get k d with
  | Some (PyInt n) => Returned n
  | Some _ => Untyped
  | None => Returned default
  end.

(** [capable_services]: a dict of booleans, default [{}]. *)
Fixpoint bool_dict (d : list (string * PyValue)) : Call (gmap string bool) :=
  match d with
  | [] => Returned ∅
  | (k, PyBool b) :: d' => m ← bool_dict d'; mret (<[k := b]> m)
  | _ => Untyped
  end.

Definition field_bool_dict (k : string) (d : list (string * PyValue))
  : Call (gmap string bool) :=
  match dict_get k d with
  | Some (PyDict m) => bool_dict m
  | Some _ => Untyped
  | None => Returned ∅
  end.

(** [available_dates]: JSON gives a list of strings, default [set()]. The
    record keeps the dates as a set; the engine never reads them. *)
Fixpoint str_list (l : list PyValue) : Call (list string) :=
  match l with
  | [] => Returned []
  | PyStr s :: l' => ss ← str_list l'; mret (s :: ss)
  | _ => Untyped
  end.

Definition field_str_set (k : string) (d : list (string * PyValue))
  : Call (gset string) :=
  match dict_get k d with
  | Some (PyList l) => ss ← str_list l; mret (list_to_set ss)
  | Some _ => Untyped
  | None => Returned ∅
  end.

(** [RosteringRequirement], called with the keywords of [r]. *)
Definition make_requirement (r : PyValue) : Call RosteringRequirement.t :=
  d ← bind_kwargs ["date"; "dagdeel"; "service_id"; "required_count"; "team"]
                  ["date"; "dagdeel"; "service_id"; "required_count"] r;
  date ← field_str "date" "" d;
  dagdeel ← field_str "dagdeel" "" d;
  service_id ← field_str "service_id" "" d;
  required_count ← field_int "required_count" 0 d;
  team ← field_str "team" "" d;
  mret {| RosteringRequirement.date := date;
          RosteringRequirement.dagdeel := dagdeel;
          RosteringRequirement.service_id := service_id;
          RosteringRequirement.required_count := required_count;
          RosteringRequirement.team := team |}.

(** [EmployeeCapability], called with the keywords of [e]. *)
Definition make_employee (e : PyValue) : Call EmployeeCapability.t :=
  d ← bind_kwargs ["employee_id"; "voornaam"; "achternaam"; "capable_services";
                   "available_dates"; "team"; "max_shifts_per_week"; "current_shifts"]
                  ["employee_id"; "voornaam"; "achternaam"] e;
  employee_id ← field_str "employee_id" "" d;
  voornaam ← field_str "voornaam" "" d;
  achternaam ← field_str "achternaam" "" d;
  capable_services ← field_bool_dict "capable_services" d;
  available_dates ← field_str_set "available_dates" d;
  team ← field_str "team" "" d;
  max_shifts_per_week ← field_int "max_shifts_per_week" 40 d;
  current_shifts ← field_int "current_shifts" 0 d;
  mret {| EmployeeCapability.employee_id := employee_id;
          EmployeeCapability.voornaam := voornaam;
          EmployeeCapability.achternaam := achternaam;
          EmployeeCapability.capable_services := capable_services;
          EmployeeCapability.available_dates := available_dates;
          EmployeeCapability.team := team;
          EmployeeCapability.max_shifts_per_week := max_shifts_per_week;
          EmployeeCapability.current_shifts := current_shifts |}.

(** [FixedAssignment], called with the keywords of [f]. *)
Definition make_fixed (f : PyValue) : Call FixedAssignment.t :=
  d ← bind_kwargs ["employee_id"; "date"; "dagdeel"; "service_id"; "reason"]
                  ["employee_id"; "date"; "dagdeel"; "service_id"] f;
  employee_id ← field_str "employee_id" "" d;
  date ← field_str "date" "" d;
  dagdeel ← field_str "dagdeel" "" d;
  service_id ← field_str "service_id" "" d;
  reason ← field_str "reason" "pre-planned" d;
  mret {| FixedAssignment.employee_id := employee_id;
          FixedAssignment.date := date;
          FixedAssignment.dagdeel := dagdeel;
          FixedAssignment.service_id := service_id;
          FixedAssignment.reason := reason |}.

(** [BlockedSlot], called with the keywords of [b]. *)
Definition make_blocked (b : PyValue) : Call BlockedSlot.t :=
  d ← bind_kwargs ["employee_id"; "date"; "dagdeel"; "reason"]
                  ["employee_id"; "date"; "dagdeel"] b;
  employee_id ← field_str "employee_id" "" d;
  date ← field_str "date" "" d;
  dagdeel ← field_str "dagdeel" "" d;
  reason ← field_str "reason" "sick" d;
  mret {| BlockedSlot.employee_id := employee_id;
          BlockedSlot.date := date;
          BlockedSlot.dagdeel := dagdeel;
          BlockedSlot.reason := reason |}.

(** ** [RosteringResult.to_dict] *)

(** [severity.value] *)
Definition SeverityLevel_value (s : SeverityLevel) : string :=
  match s with
  | CRITICAL => "CRITICAL"
  | HIGH => "HIGH"
  | MEDIUM => "MEDIUM"
  | LOW => "LOW"
  end.

Definition assignment_dict (a : Assignment.t) : PyValue :=
  PyDict [("assignment_id", PyStr (Assignment.assignment_id a));
          ("employee_id", PyStr (Assignment.employee_id a));
          ("date", PyStr (Assignment.date a));
          ("dagdeel", PyStr (Assignment.dagdeel a));
          ("service_id", PyStr (Assignment.service_id a));
          ("source", PyStr (Assignment.source a));
          ("is_locked", PyBool (Assignment.is_locked a))].

Definition bottleneck_dict (b : Bottleneck.t) : PyValue :=
  PyDict [("date", PyStr (Bottleneck.date b));
          ("dagdeel", PyStr (Bottleneck.dagdeel b));
          ("service_id", PyStr (Bottleneck.service_id b));
          ("required", PyInt (Bottleneck.required_count b));
          ("placed", PyInt (Bottleneck.placed_count b));
          ("shortage", PyInt (Bottleneck.shortage b));
          ("severity", PyStr (SeverityLevel_value (Bottleneck.severity b)));
          ("reason", PyStr (Bottleneck.reason b));
          ("suggestions", PyList (map PyStr (Bottleneck.suggestions b)))].

Definition to_dict (r : RosteringResult.t) : PyValue :=
  PyDict [("roster", PyList (map assignment_dict (RosteringResult.roster r)));
          ("bottlenecks", PyList (map bottleneck_dict (RosteringResult.bottlenecks r)));
          ("coverage_rate", PyFloat (RosteringResult.coverage_rate r));
          ("total_slots", PyInt (RosteringResult.total_slots r));
          ("assigned_slots", PyInt (RosteringResult.assigned_slots r));
          ("solve_time_seconds", PyFloat (RosteringResult.solve_time_seconds r));
          ("timestamp", PyStr (RosteringResult.timestamp r));
          ("version", PyStr (RosteringResult.version r))].

(** ** The selector *)

Inductive SolverStrategy : Type := GREEDY | SEQUENTIAL | CPSAT.

(** [str.lower()], on the ASCII letters. The three strategy names are ASCII
    and hold none of the letters a non-ASCII character lowers to, so for
    [_parse_strategy] the other characters can stay as they are. *)
Definition lower_ascii (c : Ascii.ascii) : Ascii.ascii :=
  let n := Ascii.nat_of_ascii c in
  if ((65 <=? n) && (n <=? 90))%nat then Ascii.ascii_of_nat (n + 32) else c.

Fixpoint lower (s : string) : string :=
  match s with
  | EmptyString => EmptyString
  | String c s' => String (lower_ascii c) (lower s')
  end.

Definition strategy_map : gmap string SolverStrategy :=
  <["greedy" := GREEDY]> (<["sequential" := SEQUENTIAL]> (<["cpsat" := CPSAT]> ∅)).

Definition _parse_strategy (strategy_str : string) : SolverStrategy :=
  default GREEDY (strategy_map !! lower strategy_str).

Module SolverSelector.

(** The selector object: what [__init__] leaves in [self]. *)
Record t : Type := mk { strategy : SolverStrategy }.

Definition __init__ (strategy : string) : t :=
  {| strategy := _parse_strategy strategy |}.

Definition select_solver (self : t) : string :=
  match strategy self with
  | GREEDY => "GREEDY"
  | SEQUENTIAL => "SEQUENTIAL"
  | CPSAT => "CPSAT"
  end.

Definition _solve_greedy (clock : Clock)
    (requirements employees fixed_assignments blocked_slots : list PyValue)
  : Call PyValue :=
  req_objects ← comprehension make_requirement requirements;
  emp_objects ← comprehension make_employee employees;
  fixed_objects ← comprehension make_fixed fixed_assignments;
  blocked_objects ← comprehension make_blocked blocked_slots;
  match solve clock req_objects emp_objects fixed_objects blocked_objects with
  | Raise e => Raised e
  | Return (result, _) =>
    mret (PyDict
      [("success", PyBool true);
       ("solver", PyStr "GREEDY");
       ("result", to_dict result);
       ("coverage_rate", PyFloat (RosteringResult.coverage_rate result));
       ("solve_time_seconds", PyFloat (RosteringResult.solve_time_seconds result));
       ("assignments_count", PyInt (Z.of_nat (length (RosteringResult.roster result))));
       ("bottlenecks_count",
        PyInt (Z.of_nat (length (RosteringResult.bottlenecks result))))])
  end.

Definition _solve_sequential
    (requirements employees fixed_assignments blocked_slots : list PyValue)
  : Call PyValue :=
  mret (PyDict [("success", PyBool false);
                ("solver", PyStr "SEQUENTIAL");
                ("error", PyStr "Sequential solver not yet implemented")]).

Definition _solve_cpsat
    (requirements employees fixed_assignments blocked_slots : list PyValue)
  : Call PyValue :=
  mret (PyDict [("success", PyBool false);
                ("solver", PyStr "CPSAT");
                ("error", PyStr "CP-SAT solver not yet implemented")]).

(** [solve]; the two optional arguments are [None] when not given. *)
Definition solve (self : t) (clock : Clock) (requirements employees : list PyValue)
    (fixed_assignments blocked_slots : option (list PyValue)) : Call PyValue :=
  let fixed_assignments := default [] fixed_assignments in
  let blocked_slots := default [] blocked_slots in
  let solver_type := select_solver self in
  if String.eqb solver_type "GREEDY"
  then _solve_greedy clock requirements employees fixed_assignments blocked_slots
  else if String.eqb solver_type "SEQUENTIAL"
  then _solve_sequential requirements employees fixed_assignments blocked_slots
  else if String.eqb solver_type "CPSAT"
  then _solve_cpsat requirements employees fixed_assignments blocked_slots
  else Raised (ValueError ("Unknown solver type: " +:+ solver_type)).

End SolverSelector.

(** A call that can raise nothing but [TypeError]. *)
Definition only_type_error {A : Type} (c : Call A) : Prop :=
  forall e, c = Raised e -> e = TypeError.

(** A call that can raise nothing but [TypeError] and the [ValueError] of an
    int too long to be written. *)
Definition only_type_or_digits {A : Type} (c : Call A) : Prop :=
  forall e, c = Raised e -> e = TypeError \/ e = ValueError digits_msg.

(** A record as the dataclass constructors accept it: a dict whose keys are
    all among [fields] and which has every key of [required]. *)
Definition is_record (fields required : list string) (r : PyValue) : Prop :=
  exists d, r = PyDict d
    /\ (forall k v, In (k, v) d -> In k fields)
    /\ (forall k, In k required -> is_Some (dict_get k d)).

(** Sample payloads. *)
Module Payload.

Definition seat : PyValue :=
  PyDict [("date", PyStr "2024-01-01"); ("dagdeel", PyStr "ochtend");
          ("service_id", PyStr "S"); ("required_count", PyInt 1)].

Definition ann : PyValue :=
  PyDict [("employee_id", PyStr "ann"); ("voornaam", PyStr "Ann");
          ("achternaam", PyStr "A");
          ("capable_services", PyDict [("S", PyBool true)]);
          ("available_dates", PyList [PyStr "2024-01-01"])].

(** A requirement without [required_count]. *)
Definition seatless : PyValue :=
  PyDict [("date", PyStr "2024-01-01"); ("dagdeel", PyStr "ochtend");
          ("service_id", PyStr "S")].

(** A requirement for more seats than an int may have digits when it is
    formatted. *)
Definition oversized : PyValue :=
  PyDict [("date", PyStr "2024-01-01"); ("dagdeel", PyStr "ochtend");
          ("service_id", PyStr "S"); ("required_count", PyInt (10 ^ 5000))].

Definition answer : PyValue :=
  Eval vm_compute in
    match SolverSelector.solve (SolverSelector.__init__ "Greedy") Sample.clock
            [seat] [ann] None None with
    | Returned v => v
    | _ => PyNone
    end.

End Payload.

(** [x] stands before [y] in [l]. *)
Definition precedes {A : Type} (x y : A) (l : list A) : Prop :=
  exists l1 l2 l3, l = l1 ++ x :: l2 ++ y :: l3.
(** ** The stable sort *)

Section Sorting.
Context {A : Type} (key : A -> Z).

Lemma insert_key_perm (x : A) (l : list A) :
  Permutation (insert_key key x l) (x :: l).
Proof.
  induction l as [|y l IH]; simpl; [reflexivity|].
  destruct (key x <=? key y); [reflexivity|].
  rewrite IH. apply perm_swap.
Qed.

Lemma sort_key_perm (l : list A) : Permutation (sort_key key l) l.
Proof.
  induction l as [|x l IH]; simpl; [reflexivity|].
  unfold sort_key in *. simpl. rewrite insert_key_perm. now constructor.
Qed.

Lemma ascending_cons (x : A) (l : list A) :
  ascending key (x :: l) <-> (forall y, In y l -> key x <= key y) /\ ascending key l.
Proof.
  split.
  - intros H. split.
    + intros y Hy. apply In_nth_error in Hy as [j Hj].
      apply (H 0%nat (S j) x y); [lia|reflexivity|exact Hj].
    + intros i j a b Hij Ha Hb. apply (H (S i) (S j)); [lia|exact Ha|exact Hb].
  - intros [Hx Hl] i j a b Hij Ha Hb.
    destruct j as [|j]; [lia|]. simpl in Hb.
    destruct i as [|i]; simpl in Ha.
    + inversion Ha; subst. apply Hx. eapply nth_error_In; eauto.
    + apply (Hl i j); [lia|exact Ha|exact Hb].
Qed.

Lemma insert_key_ascending (x : A) (l : list A) :
  ascending key l -> ascending key (insert_key key x l).
Proof.
  induction l as [|y l IH]; intros Hl; simpl.
  - apply ascending_cons. split; [intros ? []|]. intros [|?] [|?] ? ? ?; simpl; discriminate.
  - apply ascending_cons in Hl as [Hy Hl].
    destruct (Z.leb_spec (key x) (key y)) as [Hle|Hgt].
    + apply ascending_cons. split.
      * intros z [->|Hz]; [exact Hle|]. specialize (Hy z Hz). lia.
      * apply ascending_cons. now split.
    + apply ascending_cons. split; [|now apply IH].
      intros z Hz. apply (Permutation_in _ (insert_key_perm x l)) in Hz.
      destruct Hz as [->|Hz]; [lia|now apply Hy].
Qed.

Lemma sort_key_ascending (l : list A) : ascending key (sort_key key l).
Proof.
  induction l as [|x l IH].
  - intros [|?] [|?] ? ? ?; simpl; discriminate.
  - apply insert_key_ascending, IH.
Qed.

(** Stability: elements of equal key keep their relative order. *)
Lemma insert_key_stable (k : Z) (x : A) (l : list A) :
  List.filter (fun a => key a =? k) (insert_key key x l)
  = List.filter (fun a => key a =? k) (x :: l).
Proof.
  induction l as [|y l IH]; [reflexivity|].
  simpl insert_key. destruct (Z.leb_spec (key x) (key y)) as [Hle|Hgt]; [reflexivity|].
  simpl in *. rewrite IH.
  destruct (Z.eqb_spec (key y) k), (Z.eqb_spec (key x) k); try reflexivity. lia.
Qed.

Lemma sort_key_stable (k : Z) (l : list A) :
  List.filter (fun a => key a =? k) (sort_key key l)
  = List.filter (fun a => key a =? k) l.
Proof.
  induction l as [|x l IH]; [reflexivity|].
  unfold sort_key in *. simpl foldr. rewrite insert_key_stable. simpl. now rewrite IH.
Qed.

End Sorting.

Lemma sort_key_map {A B : Type} (f : A -> B) (key : B -> Z) (l : list A) :
  sort_key key (map f l) = map f (sort_key (fun a => key (f a)) l).
Proof.
  induction l as [|x l IH]; [reflexivity|].
  unfold sort_key in *. simpl. rewrite IH.
  generalize (foldr (insert_key (fun a => key (f a))) [] l). intros m.
  induction m as [|y m IHm]; [reflexivity|].
  simpl. destruct (key (f x) <=? key (f y)); [reflexivity|]. simpl. now rewrite IHm.
Qed.

Lemma sort_key_ext {A : Type} (key key' : A -> Z) (l : list A) :
  (forall a, key a = key' a) -> sort_key key l = sort_key key' l.
Proof.
  intros Hk. induction l as [|x l IH]; [reflexivity|].
  unfold sort_key in *. simpl. rewrite IH.
  generalize (foldr (insert_key key') [] l). intros m.
  induction m as [|y m IHm]; [reflexivity|].
  simpl. rewrite !Hk. destruct (key' x <=? key' y); [reflexivity|]. now rewrite IHm.
Qed.

(** ** The loops return, and compute the pure descriptions *)

Lemma for_each_pure {A S : Type} (body : A -> S -> Outcome S) (f : A -> S -> S)
    (I : S -> Prop) (l : list A) (s : S) :
  (forall x s, I s -> body x s = Return (f x s) /\ I (f x s)) ->
  I s ->
  for_each body l s = Return (foldl (fun s x => f x s) s l)
  /\ I (foldl (fun s x => f x s) s l).
Proof.
  intros Hbody. revert s. induction l as [|x l IH]; intros s Hs; simpl.
  - now split.
  - destruct (Hbody x s Hs) as [-> Hs']. simpl. now apply IH.
Qed.

Lemma occ_cons (k i : string) (ids : list string) :
  occ k (i :: ids) = (if String.eqb k i then 1 else 0) + occ k ids.
Proof.
  unfold occ. simpl. destruct (String.eqb k i); simpl length; lia.
Qed.

Lemma occ_app (k : string) (l1 l2 : list string) :
  occ k (l1 ++ l2) = occ k l1 + occ k l2.
Proof.
  unfold occ. rewrite List.filter_app, length_app. lia.
Qed.

Lemma occ_nonneg (k : string) (ids : list string) : 0 <= occ k ids.
Proof. unfold occ. lia. Qed.

Lemma lookup_charge (count : gmap string Z) (ids : list string) (k : string) (n : Z) :
  count !! k = Some n -> charge count ids !! k = Some (n + occ k ids).
Proof.
  revert count n. induction ids as [|i ids IH]; intros count n Hk.
  - simpl. rewrite Hk. f_equal. unfold occ. simpl. lia.
  - unfold charge in *. simpl foldl. rewrite occ_cons.
    destruct (String.eqb_spec k i) as [<-|Hne].
    + rewrite (IH _ (n + 1)); [f_equal; lia|].
      rewrite Hk. simpl. apply lookup_insert_eq.
    + rewrite (IH _ n); [f_equal; lia|].
      rewrite lookup_insert_ne by congruence. exact Hk.
Qed.

Lemma assign_loop_spec (req : RosteringRequirement.t) (shortage : Z)
    (eligible : list EmployeeCapability.t) (assigned : Z) (s : Locals.t) :
  (forall e, In e eligible -> is_Some (Locals.assignment_count s !! eid e)) ->
  assign_loop req shortage eligible assigned s =
  Return (assigned + Z.of_nat (length (firstn (Z.to_nat (shortage - assigned)) eligible)),
          {| Locals.employees := Locals.employees s;
             Locals.roster :=
               Locals.roster s
               ++ map (greedy_assignment req)
                      (firstn (Z.to_nat (shortage - assigned)) eligible);
             Locals.bottlenecks := Locals.bottlenecks s;
             Locals.assignment_count :=
               charge (Locals.assignment_count s)
                      (map eid (firstn (Z.to_nat (shortage - assigned)) eligible)) |}).
Proof.
  revert assigned s. induction eligible as [|emp rest IH]; intros assigned s Hdom.
  - rewrite firstn_nil. destruct s. simpl. rewrite app_nil_r, Z.add_0_r. reflexivity.
  - simpl assign_loop. destruct (Z.leb_spec shortage assigned) as [Hle|Hgt].
    + replace (Z.to_nat (shortage - assigned)) with 0%nat by lia.
      destruct s. simpl. rewrite app_nil_r, Z.add_0_r. reflexivity.
    + replace (Z.to_nat (shortage - assigned))
        with (S (Z.to_nat (shortage - (assigned + 1)))) by lia.
      destruct (Hdom emp (or_introl eq_refl)) as [n Hn].
      unfold dict_incr. rewrite Hn. simpl mbind.
      unfold mbind, Outcome_bind.
      rewrite IH.
      * simpl. rewrite <- app_assoc. simpl. rewrite Hn. simpl.
        do 2 f_equal. lia.
      * intros e He. simpl.
        destruct (decide (eid emp = eid e)) as [->|Hne].
        -- rewrite lookup_insert_eq. eauto.
        -- rewrite lookup_insert_ne by exact Hne. apply Hdom. now right.
Qed.

Lemma load_app (k : string) (r1 r2 : list Assignment.t) :
  load k (r1 ++ r2) = load k r1 + load k r2.
Proof. unfold load. rewrite map_app. apply occ_app. Qed.

Lemma load_greedy (k : string) (req : RosteringRequirement.t)
    (l : list EmployeeCapability.t) :
  load k (map (greedy_assignment req) l) = occ k (map eid l).
Proof. unfold load. rewrite map_map. reflexivity. Qed.

Lemma candidates_in (blocked_set : gset Slot) (req : RosteringRequirement.t)
    (s : Locals.t) (e : EmployeeCapability.t) :
  In e (candidates blocked_set req s) <->
  In e (Locals.employees s)
  /\ eligible_here (RosteringRequirement.date req) (RosteringRequirement.dagdeel req)
       (RosteringRequirement.service_id req) (Locals.roster s) blocked_set
       (RosteringRequirement.team req) e = true.
Proof.
  unfold candidates, _find_eligible_employees. rewrite <- filter_In. split.
  - apply Permutation_in, sort_key_perm.
  - apply Permutation_in. symmetry. apply sort_key_perm.
Qed.

Lemma picked_in (blocked_set : gset Slot) (req : RosteringRequirement.t)
    (s : Locals.t) (e : EmployeeCapability.t) :
  In e (picked blocked_set req s) -> In e (candidates blocked_set req s).
Proof.
  unfold picked. intros H.
  rewrite <- (firstn_skipn
    (Z.to_nat (RosteringRequirement.required_count req - current_count req s))).
  apply in_or_app. now left.
Qed.

Lemma after_req_tally (blocked_set : gset Slot) (req : RosteringRequirement.t)
    (s : Locals.t) :
  tally_ok s -> tally_ok (after_req blocked_set req s).
Proof.
  intros Hs e He. cbn -[charge] in *. rewrite (lookup_charge _ _ _ _ (Hs e He)).
  now rewrite load_app, load_greedy.
Qed.

Lemma suggest_solutions_spec (req : RosteringRequirement.t) (b : Bottleneck.t) :
  _suggest_solutions req b
  = if fits (Bottleneck.shortage b)
    then Return (suggestion_texts (Bottleneck.shortage b))
    else Raise (ValueError digits_msg).
Proof.
  unfold _suggest_solutions, suggestion_texts, format_int.
  destruct (Bottleneck.shortage b =? 1), (1 <? Bottleneck.shortage b),
    (fits (Bottleneck.shortage b)); reflexivity.
Qed.

Lemma fase2_body_spec (blocked_set : gset Slot) (req : RosteringRequirement.t)
    (s : Locals.t) :
  tally_ok s ->
  fase2_body blocked_set req s
  = (if printable blocked_set req s
     then Return (after_req blocked_set req s)
     else Raise (ValueError digits_msg))
  /\ tally_ok (after_req blocked_set req s).
Proof.
  intros Hs. split; [|now apply after_req_tally].
  unfold fase2_body. fold (current_count req s). fold (candidates blocked_set req s).
  destruct (Z.ltb_spec (current_count req s) (RosteringRequirement.required_count req))
    as [Hlt|Hge].
  - rewrite assign_loop_spec.
    + rewrite Z.sub_0_r. fold (picked blocked_set req s).
      cbn [mbind Outcome_bind]. rewrite !Z.add_0_l.
      unfold printable, after_req, shortfall.
      destruct (Z.of_nat (length (picked blocked_set req s))
                <? RosteringRequirement.required_count req - current_count req s).
      * rewrite suggest_solutions_spec. unfold bottleneck_for.
        cbn [forallb Bottleneck.shortage Bottleneck.set_suggestions
             Bottleneck.set_reason Locals.employees].
        rewrite andb_true_r.
        destruct (fits _); reflexivity.
      * cbn [forallb]. now rewrite app_nil_r.
    + intros e He. apply candidates_in in He as [He _]. rewrite (Hs e He). eauto.
  - unfold printable, after_req, shortfall, picked.
    replace (Z.to_nat (RosteringRequirement.required_count req - current_count req s))
      with 0%nat by lia.
    simpl firstn. simpl length.
    destruct (Z.ltb_spec (Z.of_nat 0)
                (RosteringRequirement.required_count req - current_count req s)); [lia|].
    destruct s. simpl. now rewrite !app_nil_r.
Qed.

Lemma valid_fixed_found (employees : list EmployeeCapability.t) (blocked_set : gset Slot)
    (fixed : FixedAssignment.t) :
  valid_fixed employees blocked_set fixed = true ->
  exists emp, In emp employees
    /\ eid emp = FixedAssignment.employee_id fixed
    /\ capable emp (FixedAssignment.service_id fixed) = true
    /\ (FixedAssignment.employee_id fixed, FixedAssignment.date fixed,
        FixedAssignment.dagdeel fixed) ∉ blocked_set.
Proof.
  unfold valid_fixed, _is_valid_assignment. intros H.
  destruct (decide _) as [|Hnb]; [discriminate|].
  destruct (find _ employees) as [emp|] eqn:Hfind; [|discriminate].
  apply find_some in Hfind as [Hin Heq]. apply String.eqb_eq in Heq.
  exists emp. auto.
Qed.

Lemma after_fixed_employees (blocked_set : gset Slot) (fixed : FixedAssignment.t)
    (s : Locals.t) :
  Locals.employees (after_fixed blocked_set fixed s) = Locals.employees s.
Proof. unfold after_fixed. now destruct (valid_fixed _ _ _). Qed.

Lemma fase1_body_spec (blocked_set : gset Slot) (fixed : FixedAssignment.t)
    (s : Locals.t) :
  tally_ok s ->
  fase1_body blocked_set fixed s = Return (after_fixed blocked_set fixed s)
  /\ tally_ok (after_fixed blocked_set fixed s).
Proof.
  intros Hs. unfold fase1_body, after_fixed. fold (valid_fixed (Locals.employees s) blocked_set fixed).
  destruct (valid_fixed _ _ _) eqn:Hv; [|now split].
  apply valid_fixed_found in Hv as (emp & Hin & Hid & _).
  pose proof (Hs emp Hin) as Hn. rewrite Hid in Hn.
  split.
  - unfold dict_incr. rewrite Hn. simpl. rewrite Hn. reflexivity.
  - intros e He. cbn -[charge] in *. rewrite (lookup_charge _ _ _ _ (Hs e He)).
    rewrite load_app. reflexivity.
Qed.

Lemma init_locals_tally (employees : list EmployeeCapability.t) :
  tally_ok (init_locals employees).
Proof.
  intros e He. simpl in *. unfold load, occ. simpl.
  induction employees as [|e' l IH]; [destruct He|].
  simpl. destruct (decide (eid e' = eid e)) as [->|Hne].
  - apply lookup_insert_eq.
  - rewrite lookup_insert_ne by exact Hne. destruct He as [->|He]; [congruence|auto].
Qed.

Lemma fase1_spec (blocked_set : gset Slot) (employees : list EmployeeCapability.t)
    (fixed_assignments : list FixedAssignment.t) :
  for_each (fase1_body blocked_set) fixed_assignments (init_locals employees)
  = Return (after_fase1 blocked_set employees fixed_assignments)
  /\ tally_ok (after_fase1 blocked_set employees fixed_assignments).
Proof.
  apply (for_each_pure (fase1_body blocked_set) (after_fixed blocked_set) tally_ok).
  - intros x s0. apply fase1_body_spec.
  - apply init_locals_tally.
Qed.

Lemma fase2_spec (blocked_set : gset Slot) (requirements : list RosteringRequirement.t)
    (s : Locals.t) :
  tally_ok s ->
  for_each (fase2_body blocked_set) requirements s
  = (if printable_all blocked_set requirements s
     then Return (after_fase2 blocked_set requirements s)
     else Raise (ValueError digits_msg))
  /\ tally_ok (after_fase2 blocked_set requirements s).
Proof.
  revert s. induction requirements as [|req l IH]; intros s Hs.
  - now split.
  - change (after_fase2 blocked_set (req :: l) s)
      with (after_fase2 blocked_set l (after_req blocked_set req s)).
    destruct (fase2_body_spec blocked_set req s Hs) as [Hbody Hs'].
    destruct (IH _ Hs') as [Hrest Hfinal]. split; [|exact Hfinal].
    cbn [for_each printable_all]. rewrite Hbody.
    destruct (printable blocked_set req s); [|reflexivity].
    cbn [mbind Outcome_bind andb]. exact Hrest.
Qed.

(** [allocate] returns the pure description, unless a shortage is too long
    to be written. *)
Lemma allocate_spec (requirements : list RosteringRequirement.t)
    (employees : list EmployeeCapability.t)
    (fixed_assignments : list FixedAssignment.t)
    (blocked_slots : list BlockedSlot.t) :
  allocate requirements employees fixed_assignments blocked_slots
  = if printable_all (_build_blocked_set blocked_slots) requirements
         (after_fase1 (_build_blocked_set blocked_slots) employees fixed_assignments)
    then Return (final_locals requirements employees fixed_assignments blocked_slots)
    else Raise (ValueError digits_msg).
Proof.
  unfold allocate, final_locals.
  destruct (fase1_spec (_build_blocked_set blocked_slots) employees fixed_assignments)
    as [-> H1].
  cbn [mbind Outcome_bind]. now apply fase2_spec.
Qed.

Lemma final_locals_tally (requirements : list RosteringRequirement.t)
    (employees : list EmployeeCapability.t)
    (fixed_assignments : list FixedAssignment.t)
    (blocked_slots : list BlockedSlot.t) :
  tally_ok (final_locals requirements employees fixed_assignments blocked_slots).
Proof.
  unfold final_locals. apply fase2_spec, fase1_spec.
Qed.

Lemma allocate_nil (employees : list EmployeeCapability.t)
    (fixed_assignments : list FixedAssignment.t)
    (blocked_slots : list BlockedSlot.t) :
  allocate [] employees fixed_assignments blocked_slots
  = Return (after_fase1 (_build_blocked_set blocked_slots) employees fixed_assignments).
Proof. now rewrite allocate_spec. Qed.

Lemma allocate_returns (requirements : list RosteringRequirement.t)
    (employees : list EmployeeCapability.t)
    (fixed_assignments : list FixedAssignment.t)
    (blocked_slots : list BlockedSlot.t) (s : Locals.t) :
  allocate requirements employees fixed_assignments blocked_slots = Return s ->
  s = final_locals requirements employees fixed_assignments blocked_slots
  /\ printable_all (_build_blocked_set blocked_slots) requirements
       (after_fase1 (_build_blocked_set blocked_slots) employees fixed_assignments)
     = true.
Proof.
  rewrite allocate_spec. destruct (printable_all _ _ _); [|discriminate].
  intros H. injection H as <-. now split.
Qed.

Lemma printable_all_app (blocked_set : gset Slot)
    (l1 l2 : list RosteringRequirement.t) (s : Locals.t) :
  printable_all blocked_set (l1 ++ l2) s
  = printable_all blocked_set l1 s
    && printable_all blocked_set l2 (after_fase2 blocked_set l1 s).
Proof.
  revert s. induction l1 as [|req l1 IH]; intros s; [reflexivity|].
  change (after_fase2 blocked_set (req :: l1) s)
    with (after_fase2 blocked_set l1 (after_req blocked_set req s)).
  cbn [app printable_all]. now rewrite IH, andb_assoc.
Qed.

(** When the run on a list of requirements returns, so does the run on any
    of its prefixes. *)
Lemma allocate_prefix (before rest : list RosteringRequirement.t)
    (employees : list EmployeeCapability.t)
    (fixed_assignments : list FixedAssignment.t)
    (blocked_slots : list BlockedSlot.t) (s : Locals.t) :
  allocate (before ++ rest) employees fixed_assignments blocked_slots = Return s ->
  allocate before employees fixed_assignments blocked_slots
  = Return (final_locals before employees fixed_assignments blocked_slots).
Proof.
  intros H. apply allocate_returns in H as [_ H].
  rewrite printable_all_app in H. apply andb_prop in H as [H _].
  now rewrite allocate_spec, H.
Qed.

(** Induction over the two loops. *)
Lemma after_fase2_ind (I : Locals.t -> Prop) (blocked_set : gset Slot)
    (requirements : list RosteringRequirement.t) (s : Locals.t) :
  (forall req s, In req requirements -> I s -> I (after_req blocked_set req s)) ->
  I s -> I (after_fase2 blocked_set requirements s).
Proof.
  unfold after_fase2. revert s.
  induction requirements as [|req l IH]; intros s Hstep Hs; simpl; [exact Hs|].
  apply IH.
  - intros r s' Hr. apply Hstep. now right.
  - apply Hstep; [now left|exact Hs].
Qed.

Lemma after_fase1_ind (I : Locals.t -> Prop) (blocked_set : gset Slot)
    (employees : list EmployeeCapability.t)
    (fixed_assignments : list FixedAssignment.t) :
  (forall fixed s, In fixed fixed_assignments -> I s ->
     I (after_fixed blocked_set fixed s)) ->
  I (init_locals employees) ->
  I (after_fase1 blocked_set employees fixed_assignments).
Proof.
  unfold after_fase1. generalize (init_locals employees). intros s. revert s.
  induction fixed_assignments as [|f l IH]; intros s Hstep Hs; simpl; [exact Hs|].
  apply IH.
  - intros r s' Hr. apply Hstep. now right.
  - apply Hstep; [now left|exact Hs].
Qed.

Lemma after_fase2_employees (blocked_set : gset Slot)
    (requirements : list RosteringRequirement.t) (s : Locals.t) :
  Locals.employees (after_fase2 blocked_set requirements s) = Locals.employees s.
Proof.
  apply (after_fase2_ind (fun s' => Locals.employees s' = Locals.employees s));
    [|reflexivity].
  intros req s' _ H. exact H.
Qed.

Lemma after_fase1_employees (blocked_set : gset Slot)
    (employees : list EmployeeCapability.t)
    (fixed_assignments : list FixedAssignment.t) :
  Locals.employees (after_fase1 blocked_set employees fixed_assignments) = employees.
Proof.
  apply (after_fase1_ind (fun s' => Locals.employees s' = employees)); [|reflexivity].
  intros f s' _ H. now rewrite after_fixed_employees.
Qed.

Lemma final_locals_employees (requirements : list RosteringRequirement.t)
    (employees : list EmployeeCapability.t)
    (fixed_assignments : list FixedAssignment.t)
    (blocked_slots : list BlockedSlot.t) :
  Locals.employees (final_locals requirements employees fixed_assignments blocked_slots)
  = employees.
Proof.
  unfold final_locals. now rewrite after_fase2_employees, after_fase1_employees.
Qed.

Lemma solve_spec (clock : Clock) (requirements : list RosteringRequirement.t)
    (employees : list EmployeeCapability.t)
    (fixed_assignments : list FixedAssignment.t)
    (blocked_slots : list BlockedSlot.t) :
  solve clock requirements employees fixed_assignments blocked_slots
  = if printable_all (_build_blocked_set blocked_slots) requirements
         (after_fase1 (_build_blocked_set blocked_slots) employees fixed_assignments)
    then Return (result_of clock requirements
                   (final_locals requirements employees fixed_assignments
                      blocked_slots),
                 employees)
    else Raise (ValueError digits_msg).
Proof.
  unfold solve. rewrite allocate_spec.
  destruct (printable_all _ _ _); [|reflexivity].
  cbn [mbind Outcome_bind]. rewrite final_locals_employees.
  unfold result_of.
  destruct (Z.ltb_spec 0 (Z.of_nat (length requirements))) as [Hpos|Hzero].
  - unfold truediv. destruct (decide _) as [Heq|_]; [lia|]. reflexivity.
  - reflexivity.
Qed.

(** What [solve] returns, when it returns: the result built from the pure
    description, and the worker list it was given. *)
Lemma solve_returns_allocate (clock : Clock)
    (requirements : list RosteringRequirement.t)
    (employees : list EmployeeCapability.t)
    (fixed_assignments : list FixedAssignment.t)
    (blocked_slots : list BlockedSlot.t)
    (r : RosteringResult.t) (h : list EmployeeCapability.t) :
  solve clock requirements employees fixed_assignments blocked_slots = Return (r, h) ->
  allocate requirements employees fixed_assignments blocked_slots
  = Return (final_locals requirements employees fixed_assignments blocked_slots).
Proof.
  rewrite solve_spec, allocate_spec. now destruct (printable_all _ _ _).
Qed.

Lemma after_fase1_roster (blocked_set : gset Slot)
    (employees : list EmployeeCapability.t)
    (fixed_assignments : list FixedAssignment.t) :
  Locals.roster (after_fase1 blocked_set employees fixed_assignments)
  = fase1_roster employees blocked_set fixed_assignments
  /\ Locals.bottlenecks (after_fase1 blocked_set employees fixed_assignments) = [].
Proof.
  unfold after_fase1, fase1_roster.
  assert (Hgen : forall l s, Locals.employees s = employees ->
            let s' := foldl (fun s fixed => after_fixed blocked_set fixed s) s l in
            Locals.roster s'
            = Locals.roster s
              ++ map locked_assignment (List.filter (valid_fixed employees blocked_set) l)
            /\ Locals.bottlenecks s' = Locals.bottlenecks s).
  { induction l as [|f l IH]; intros s Hs; simpl.
    - now rewrite app_nil_r.
    - destruct (IH (after_fixed blocked_set f s)) as [Hr Hb].
      { now rewrite after_fixed_employees. }
      rewrite Hr, Hb. unfold after_fixed. rewrite Hs.
      destruct (valid_fixed employees blocked_set f); simpl; [|now split].
      now rewrite <- app_assoc. }
  apply (Hgen fixed_assignments (init_locals employees) eq_refl).
Qed.

(** ** Bottlenecks *)

Lemma shortfall_in (blocked_set : gset Slot) (req : RosteringRequirement.t)
    (s : Locals.t) (b : Bottleneck.t) :
  In b (shortfall blocked_set req s) ->
  b = bottleneck_for blocked_set req s
  /\ current_count req s + Z.of_nat (length (picked blocked_set req s))
     < RosteringRequirement.required_count req.
Proof.
  unfold shortfall. destruct (Z.ltb_spec
    (Z.of_nat (length (picked blocked_set req s)))
    (RosteringRequirement.required_count req - current_count req s)) as [Hlt|Hge].
  - intros [<-|[]]. split; [reflexivity|lia].
  - intros [].
Qed.

Lemma shortfall_length (blocked_set : gset Slot) (req : RosteringRequirement.t)
    (s : Locals.t) :
  (length (shortfall blocked_set req s) <= 1)%nat.
Proof. unfold shortfall. destruct (_ <? _); simpl; lia. Qed.

(** Where a bottleneck of the final list comes from: the requirement that
    was being processed, and the locals at that moment. *)
Lemma bottleneck_origin (blocked_set : gset Slot)
    (requirements : list RosteringRequirement.t) (s0 : Locals.t) (b : Bottleneck.t) :
  In b (Locals.bottlenecks (after_fase2 blocked_set requirements s0)) ->
  In b (Locals.bottlenecks s0)
  \/ exists before req after,
       requirements = before ++ req :: after
       /\ In b (shortfall blocked_set req (after_fase2 blocked_set before s0)).
Proof.
  revert s0. induction requirements as [|r l IH]; intros s0 Hb; [now left|].
  change (after_fase2 blocked_set (r :: l) s0)
    with (after_fase2 blocked_set l (after_req blocked_set r s0)) in Hb.
  apply IH in Hb as [Hb|(before & req & after & -> & Hb)].
  - simpl in Hb. apply in_app_or in Hb as [Hb|Hb]; [now left|].
    right. exists [], r, l. now split.
  - right. exists (r :: before), req, after. now split.
Qed.

Lemma bottlenecks_length (blocked_set : gset Slot)
    (requirements : list RosteringRequirement.t) (s0 : Locals.t) :
  (length (Locals.bottlenecks (after_fase2 blocked_set requirements s0))
   <= length (Locals.bottlenecks s0) + length requirements)%nat.
Proof.
  revert s0. induction requirements as [|r l IH]; intros s0; [simpl; lia|].
  change (after_fase2 blocked_set (r :: l) s0)
    with (after_fase2 blocked_set l (after_req blocked_set r s0)).
  etransitivity; [apply IH|]. simpl. rewrite length_app.
  pose proof (shortfall_length blocked_set r s0). lia.
Qed.

Lemma final_bottleneck (requirements : list RosteringRequirement.t)
    (employees : list EmployeeCapability.t)
    (fixed_assignments : list FixedAssignment.t)
    (blocked_slots : list BlockedSlot.t) (b : Bottleneck.t) :
  In b (Locals.bottlenecks
          (final_locals requirements employees fixed_assignments blocked_slots)) ->
  exists before req after,
    requirements = before ++ req :: after
    /\ b = bottleneck_for (_build_blocked_set blocked_slots) req
             (final_locals before employees fixed_assignments blocked_slots)
    /\ current_count req (final_locals before employees fixed_assignments blocked_slots)
       + Z.of_nat (length (picked (_build_blocked_set blocked_slots) req
            (final_locals before employees fixed_assignments blocked_slots)))
       < RosteringRequirement.required_count req.
Proof.
  unfold final_locals. intros Hb.
  apply bottleneck_origin in Hb as [Hb|(before & req & after & -> & Hb)].
  - destruct (after_fase1_roster (_build_blocked_set blocked_slots) employees
                fixed_assignments) as [_ Hnil].
    rewrite Hnil in Hb. destruct Hb.
  - apply shortfall_in in Hb as [-> Hlt]. now exists before, req, after.
Qed.

Lemma final_shortage_positive (requirements : list RosteringRequirement.t)
    (employees : list EmployeeCapability.t)
    (fixed_assignments : list FixedAssignment.t)
    (blocked_slots : list BlockedSlot.t) :
  Forall (fun b => 0 < Bottleneck.shortage b)
    (Locals.bottlenecks
       (final_locals requirements employees fixed_assignments blocked_slots)).
Proof.
  apply List.Forall_forall. intros b Hb.
  apply final_bottleneck in Hb as (before & req & after & _ & -> & Hlt).
  simpl. lia.
Qed.

Lemma solve_returns (clock : Clock) (requirements : list RosteringRequirement.t)
    (employees : list EmployeeCapability.t)
    (fixed_assignments : list FixedAssignment.t)
    (blocked_slots : list BlockedSlot.t)
    (r : RosteringResult.t) (h : list EmployeeCapability.t) :
  solve clock requirements employees fixed_assignments blocked_slots = Return (r, h) ->
  r = result_of clock requirements
        (final_locals requirements employees fixed_assignments blocked_slots)
  /\ h = employees.
Proof.
  rewrite solve_spec. destruct (printable_all _ _ _); [|discriminate].
  intros H. injection H as <- <-. now split.
Qed.

Lemma no_zero_shortage (l : list Bottleneck.t) :
  Forall (fun b => 0 < Bottleneck.shortage b) l ->
  List.filter (fun b => Bottleneck.shortage b =? 0) l = [].
Proof.
  induction 1 as [|b l Hb _ IH]; [reflexivity|].
  simpl. destruct (Z.eqb_spec (Bottleneck.shortage b) 0); [lia|exact IH].
Qed.

(** A requirement whose slot is already full leaves the locals as they
    are: nothing is committed and no bottleneck is recorded. *)
Lemma fase2_body_full (blocked_set : gset Slot) (req : RosteringRequirement.t)
    (s : Locals.t) :
  RosteringRequirement.required_count req
  <= slot_count (RosteringRequirement.date req) (RosteringRequirement.dagdeel req)
       (RosteringRequirement.service_id req) (Locals.roster s) ->
  fase2_body blocked_set req s = Return s.
Proof.
  intros Hfull. unfold fase2_body.
  destruct (Z.ltb_spec
    (slot_count (RosteringRequirement.date req) (RosteringRequirement.dagdeel req)
       (RosteringRequirement.service_id req) (Locals.roster s))
    (RosteringRequirement.required_count req)); [lia|reflexivity].
Qed.

(** C3. The metrics of a returned result: [total_slots] is the number of
    requirements, [assigned_slots] is [total_slots] minus the number of
    bottlenecks, and [coverage_rate] is [assigned_slots / total_slots * 100]
    when [total_slots > 0] and 0 otherwise. *)
Theorem result_metrics (clock : Clock) (requirements : list RosteringRequirement.t)
    (employees : list EmployeeCapability.t)
    (fixed_assignments : list FixedAssignment.t)
    (blocked_slots : list BlockedSlot.t)
    (r : RosteringResult.t) (h : list EmployeeCapability.t) :
  solve clock requirements employees fixed_assignments blocked_slots = Return (r, h) ->
  RosteringResult.total_slots r = Z.of_nat (length requirements)
  /\ RosteringResult.assigned_slots r
     = RosteringResult.total_slots r
       - Z.of_nat (length (RosteringResult.bottlenecks r))
  /\ RosteringResult.coverage_rate r
     = if decide (0 < RosteringResult.total_slots r)
       then (inject_Z (RosteringResult.assigned_slots r)
             / inject_Z (RosteringResult.total_slots r) * 100)%Q
       else 0%Q.
Proof.
  intros Hsolve. apply solve_returns in Hsolve as [-> _].
  repeat split.
  - simpl. rewrite no_zero_shortage by apply final_shortage_positive. simpl. lia.
  - simpl. destruct (Z.ltb_spec 0 (Z.of_nat (length requirements)));
      destruct (decide _); try lia; reflexivity.
Qed.

Lemma result_metrics_witness :
  solve Sample.clock Sample.needs Sample.staff Sample.locks Sample.blocks
  = Return (SampleRun.result, Sample.staff)
  /\ RosteringResult.total_slots SampleRun.result = 3
  /\ RosteringResult.assigned_slots SampleRun.result = 3 - 2
  /\ RosteringResult.coverage_rate SampleRun.result
     = (inject_Z 1 / inject_Z 3 * 100)%Q.
Proof.
  assert (Hsolve : solve Sample.clock Sample.needs Sample.staff Sample.locks Sample.blocks
                   = Return (SampleRun.result, Sample.staff))
    by (vm_compute; reflexivity).
  split; [exact Hsolve|]. exact (result_metrics _ _ _ _ _ _ _ Hsolve).
Defined.

(** C4. Every bottleneck of a returned result has a strictly positive
    shortage equal to [required_count - placed_count], and it was recorded
    for a requirement whose slot, when the requirement was processed, held
    fewer assignments than its [required_count]: the locals at that moment
    are what FASE 1 and the requirements before it leave. *)
Theorem bottleneck_shortage (clock : Clock) (requirements : list RosteringRequirement.t)
    (employees : list EmployeeCapability.t)
    (fixed_assignments : list FixedAssignment.t)
    (blocked_slots : list BlockedSlot.t)
    (r : RosteringResult.t) (h : list EmployeeCapability.t) (b : Bottleneck.t) :
  solve clock requirements employees fixed_assignments blocked_slots = Return (r, h) ->
  In b (RosteringResult.bottlenecks r) ->
  0 < Bottleneck.shortage b
  /\ Bottleneck.shortage b = Bottleneck.required_count b - Bottleneck.placed_count b
  /\ exists before req after s,
       requirements = before ++ req :: after
       /\ allocate before employees fixed_assignments blocked_slots = Return s
       /\ Bottleneck.date b = RosteringRequirement.date req
       /\ Bottleneck.dagdeel b = RosteringRequirement.dagdeel req
       /\ Bottleneck.service_id b = RosteringRequirement.service_id req
       /\ Bottleneck.required_count b = RosteringRequirement.required_count req
       /\ slot_count (RosteringRequirement.date req) (RosteringRequirement.dagdeel req)
            (RosteringRequirement.service_id req) (Locals.roster s)
          <= Bottleneck.placed_count b
       /\ slot_count (RosteringRequirement.date req) (RosteringRequirement.dagdeel req)
            (RosteringRequirement.service_id req) (Locals.roster s)
          < RosteringRequirement.required_count req.
Proof.
  intros Hsolve Hb. pose proof (solve_returns_allocate _ _ _ _ _ _ _ Hsolve) as Halloc.
  apply solve_returns in Hsolve as [-> _]. simpl in Hb.
  apply final_bottleneck in Hb as (before & req & after & Hreq & -> & Hlt).
  split; [simpl; lia|]. split; [reflexivity|].
  exists before, req, after,
    (final_locals before employees fixed_assignments blocked_slots).
  split; [exact Hreq|]. split.
  { rewrite Hreq in Halloc. exact (allocate_prefix _ _ _ _ _ _ Halloc). }
  fold (current_count req (final_locals before employees fixed_assignments blocked_slots)).
  simpl. repeat split; lia.
Qed.

Lemma bottleneck_shortage_witness :
  In SampleRun.bottleneck_S (RosteringResult.bottlenecks SampleRun.result)
  /\ 0 < Bottleneck.shortage SampleRun.bottleneck_S
  /\ Bottleneck.shortage SampleRun.bottleneck_S
     = Bottleneck.required_count SampleRun.bottleneck_S
       - Bottleneck.placed_count SampleRun.bottleneck_S.
Proof.
  assert (Hsolve : solve Sample.clock Sample.needs Sample.staff Sample.locks Sample.blocks
                   = Return (SampleRun.result, Sample.staff))
    by (vm_compute; reflexivity).
  assert (Hb : In SampleRun.bottleneck_S (RosteringResult.bottlenecks SampleRun.result))
    by (left; reflexivity).
  split; [exact Hb|].
  destruct (bottleneck_shortage _ _ _ _ _ _ _ _ Hsolve Hb) as (Hpos & Heq & _).
  now split.
Defined.

(** ** The metrics *)

Lemma coverage_bounds (a t : Z) :
  0 < t -> 0 <= a <= t ->
  (0 <= inject_Z a / inject_Z t * 100)%Q /\ (inject_Z a / inject_Z t * 100 <= 100)%Q.
Proof.
  intros Ht Ha.
  assert (Hq : (inject_Z 0 < inject_Z t)%Q) by (rewrite <- Zlt_Qlt; exact Ht).
  assert (H0 : (0 <= inject_Z a / inject_Z t)%Q).
  { apply Qle_shift_div_l; [exact Hq|]. rewrite Qmult_0_l.
    change 0%Q with (inject_Z 0). rewrite <- Zle_Qle. lia. }
  assert (H1 : (inject_Z a / inject_Z t <= 1)%Q).
  { apply Qle_shift_div_r; [exact Hq|]. rewrite Qmult_1_l. rewrite <- Zle_Qle. lia. }
  split.
  - apply Qmult_le_0_compat; [exact H0|discriminate].
  - apply Qle_trans with (1 * 100)%Q; [|discriminate].
    apply Qmult_le_compat_r; [exact H1|discriminate].
Qed.

(** The metrics of the result built from the pure description. *)
Lemma result_of_metrics (clock : Clock) (requirements : list RosteringRequirement.t)
    (employees : list EmployeeCapability.t)
    (fixed_assignments : list FixedAssignment.t)
    (blocked_slots : list BlockedSlot.t) :
  let r := result_of clock requirements
             (final_locals requirements employees fixed_assignments blocked_slots) in
  RosteringResult.total_slots r = Z.of_nat (length requirements)
  /\ 0 <= RosteringResult.assigned_slots r <= RosteringResult.total_slots r
  /\ RosteringResult.assigned_slots r
       + Z.of_nat (length (RosteringResult.bottlenecks r))
     = RosteringResult.total_slots r
  /\ (0 <= RosteringResult.coverage_rate r)%Q
  /\ (RosteringResult.coverage_rate r <= 100)%Q
  /\ RosteringResult.version r = "2.0.0-DRAAD194".
Proof.
  set (s := final_locals requirements employees fixed_assignments blocked_slots).
  assert (Hlen : (length (Locals.bottlenecks s) <= length requirements)%nat).
  { subst s. unfold final_locals.
    etransitivity; [apply bottlenecks_length|].
    destruct (after_fase1_roster (_build_blocked_set blocked_slots) employees
                fixed_assignments) as [_ ->]. simpl. lia. }
  assert (Hzero : List.filter (fun b => Bottleneck.shortage b =? 0)
                    (Locals.bottlenecks s) = [])
    by apply no_zero_shortage, final_shortage_positive.
  unfold result_of. simpl. rewrite Hzero. simpl.
  repeat split; try lia.
  + destruct (Z.ltb_spec 0 (Z.of_nat (length requirements))); [|discriminate].
    apply coverage_bounds; lia.
  + destruct (Z.ltb_spec 0 (Z.of_nat (length requirements))); [|discriminate].
    apply coverage_bounds; lia.
Qed.

Example solve_empty (clock : Clock) :
  exists r, solve clock [] [] [] [] = Return (r, [])
            /\ RosteringResult.roster r = [] /\ RosteringResult.bottlenecks r = []
            /\ RosteringResult.coverage_rate r = 0%Q.
Proof. eexists. split; [reflexivity|]. repeat split. Qed.

Example solve_unknown_worker (clock : Clock) :
  exists r, solve clock [] [] [Sample.lock "zed" "2024-01-01" "ochtend" "S"] []
            = Return (r, [])
            /\ RosteringResult.roster r = [].
Proof. eexists. split; [reflexivity|]. reflexivity. Qed.

(** ** The roster *)

(** FASE 2 only appends, and what it appends are greedy assignments of
    workers of the list to requirements of the list. *)
Lemma after_fase2_roster (blocked_set : gset Slot)
    (requirements : list RosteringRequirement.t) (s : Locals.t) :
  exists added,
    Locals.roster (after_fase2 blocked_set requirements s) = Locals.roster s ++ added
    /\ Forall (fun a => exists req e,
                 In req requirements /\ In e (Locals.employees s)
                 /\ a = greedy_assignment req e) added.
Proof.
  revert s. induction requirements as [|r l IH]; intros s.
  - exists []. split; [simpl; now rewrite app_nil_r|constructor].
  - change (after_fase2 blocked_set (r :: l) s)
      with (after_fase2 blocked_set l (after_req blocked_set r s)).
    destruct (IH (after_req blocked_set r s)) as (added & -> & Hadded).
    exists (map (greedy_assignment r) (picked blocked_set r s) ++ added).
    split; [simpl; now rewrite <- app_assoc|].
    apply Forall_app. split.
    + apply List.Forall_forall. intros a Ha. apply in_map_iff in Ha as (e & <- & He).
      exists r, e. split; [now left|]. split; [|reflexivity].
      apply picked_in, candidates_in in He. tauto.
    + eapply List.Forall_impl; [|exact Hadded]. simpl.
      intros a (req & e & Hreq & He & ->). exists req, e. split; [now right|]. now split.
Qed.

(** C10. In a returned roster an assignment is locked exactly when its
    source is "pre-planned": the roster is the FASE 1 roster (what
    [allocate] leaves when there are no requirements), all locked with source
    "pre-planned", followed by the FASE 2 assignments, all unlocked with
    source "greedy". *)
Theorem locked_iff_preplanned (clock : Clock)
    (requirements : list RosteringRequirement.t)
    (employees : list EmployeeCapability.t)
    (fixed_assignments : list FixedAssignment.t)
    (blocked_slots : list BlockedSlot.t)
    (r : RosteringResult.t) (h : list EmployeeCapability.t) :
  solve clock requirements employees fixed_assignments blocked_slots = Return (r, h) ->
  Forall (fun a => Assignment.is_locked a = true <-> Assignment.source a = "pre-planned")
         (RosteringResult.roster r)
  /\ exists s1 fase2,
       allocate [] employees fixed_assignments blocked_slots = Return s1
       /\ RosteringResult.roster r = Locals.roster s1 ++ fase2
       /\ Forall (fun a => Assignment.is_locked a = true
                           /\ Assignment.source a = "pre-planned") (Locals.roster s1)
       /\ Forall (fun a => Assignment.is_locked a = false
                           /\ Assignment.source a = "greedy") fase2.
Proof.
  intros Hsolve. apply solve_returns in Hsolve as [-> _]. simpl.
  set (bs := _build_blocked_set blocked_slots).
  destruct (after_fase2_roster bs requirements (after_fase1 bs employees fixed_assignments))
    as (added & Hr & Hadded).
  assert (H1 : Forall (fun a => Assignment.is_locked a = true
                                /\ Assignment.source a = "pre-planned")
                 (Locals.roster (after_fase1 bs employees fixed_assignments))).
  { destruct (after_fase1_roster bs employees fixed_assignments) as [-> _].
    unfold fase1_roster. apply List.Forall_forall. intros a Ha.
    apply in_map_iff in Ha as (f & <- & _). now split. }
  assert (H2 : Forall (fun a => Assignment.is_locked a = false
                                /\ Assignment.source a = "greedy") added).
  { eapply List.Forall_impl; [|exact Hadded]. simpl. intros a (req & e & _ & _ & ->).
    now split. }
  split.
  - unfold final_locals. fold bs. rewrite Hr. apply Forall_app. split.
    + eapply List.Forall_impl; [|exact H1]. simpl. intros a [-> ->]. tauto.
    + eapply List.Forall_impl; [|exact H2]. simpl. intros a [-> ->].
      split; intros; discriminate.
  - exists (after_fase1 bs employees fixed_assignments), added.
    split; [apply allocate_nil|]. split; [exact Hr|]. now split.
Qed.

Lemma locked_iff_preplanned_witness :
  Forall (fun a => Assignment.is_locked a = true <-> Assignment.source a = "pre-planned")
         (RosteringResult.roster SampleRun.result).
Proof.
  assert (Hsolve : solve Sample.clock Sample.needs Sample.staff Sample.locks Sample.blocks
                   = Return (SampleRun.result, Sample.staff))
    by (vm_compute; reflexivity).
  exact (proj1 (locked_iff_preplanned _ _ _ _ _ _ _ Hsolve)).
Defined.

(** ** The cause of a bottleneck *)

Lemma analyze_reason_classify (req : RosteringRequirement.t)
    (eligible employees : list EmployeeCapability.t) (blocked_set : gset Slot) :
  _analyze_bottleneck_reason req eligible blocked_set employees
  = classify "No employees capable of this service"
             "All capable employees are blocked/unavailable"
             "Insufficient eligible employees for this slot"
             employees blocked_set
             (RosteringRequirement.date req) (RosteringRequirement.dagdeel req)
             (RosteringRequirement.service_id req).
Proof.
  unfold _analyze_bottleneck_reason, classify.
  set (svc := RosteringRequirement.service_id req).
  assert (Hcap : forall l : list EmployeeCapability.t,
            forallb (fun e => negb (capable e svc)) l = true
            <-> List.filter (fun e => capable e svc) l = []).
  { induction l as [|e l IH]; simpl; [tauto|].
    destruct (capable e svc); simpl; [split; discriminate|exact IH]. }
  assert (Hblk : forall l : list EmployeeCapability.t,
            forallb (fun e => negb (capable e svc)
                              || bool_decide ((eid e, RosteringRequirement.date req,
                                   RosteringRequirement.dagdeel req) ∈ blocked_set))
                    l = true
            <-> List.filter (fun e => bool_decide
                   ((eid e, RosteringRequirement.date req,
                     RosteringRequirement.dagdeel req) ∉ blocked_set))
                  (List.filter (fun e => capable e svc) l) = []).
  { induction l as [|e l IH]; simpl; [tauto|].
    destruct (capable e svc); simpl; [|exact IH].
    destruct (decide ((eid e, RosteringRequirement.date req,
      RosteringRequirement.dagdeel req) ∈ blocked_set)) as [Hin|Hout].
    - rewrite (bool_decide_eq_true_2 _ Hin), bool_decide_eq_false_2 by tauto.
      exact IH.
    - rewrite (bool_decide_eq_false_2 _ Hout), bool_decide_eq_true_2 by tauto.
      split; discriminate. }
  destruct (forallb (fun e => negb (capable e svc)) employees) eqn:Hnone.
  - apply Hcap in Hnone. now rewrite Hnone.
  - destruct (List.filter (fun e => capable e svc) employees) as [|c cs] eqn:Hc.
    { apply Hcap in Hc. congruence. }
    rewrite <- Hc.
    match goal with |- context [forallb ?f employees] =>
      destruct (forallb f employees) eqn:Hall
    end.
    + apply Hblk in Hall. now rewrite Hall.
    + destruct (List.filter _ (List.filter _ employees)) eqn:Hav; [|reflexivity].
      apply Hblk in Hav. congruence.
Qed.

Lemma classify_cases (t1 t2 t3 : string) (employees : list EmployeeCapability.t)
    (blocked_set : gset Slot) (date dagdeel service_id : string) :
  ((forall e, In e employees -> capable e service_id = false) ->
   classify t1 t2 t3 employees blocked_set date dagdeel service_id = t1)
  /\ ((exists e, In e employees /\ capable e service_id = true) ->
      (forall e, In e employees -> capable e service_id = true ->
         (eid e, date, dagdeel) ∈ blocked_set) ->
      classify t1 t2 t3 employees blocked_set date dagdeel service_id = t2)
  /\ ((exists e, In e employees /\ capable e service_id = true
                 /\ (eid e, date, dagdeel) ∉ blocked_set) ->
      classify t1 t2 t3 employees blocked_set date dagdeel service_id = t3).
Proof.
  unfold classify. repeat split.
  - intros Hnone.
    rewrite (proj2 (forallb_forall _ employees)); [reflexivity|].
    intros e He. now rewrite (Hnone e He).
  - intros (e & He & Hcap) Hall.
    destruct (forallb (fun e => negb (capable e service_id)) employees) eqn:Hnone.
    { rewrite forallb_forall in Hnone. specialize (Hnone e He).
      rewrite Hcap in Hnone. discriminate. }
    rewrite (proj2 (forallb_forall _ employees)); [reflexivity|].
    intros e' He'. destruct (capable e' service_id) eqn:Hc'; [|reflexivity].
    simpl. apply bool_decide_eq_true_2. now apply Hall.
  - intros (e & He & Hcap & Hfree).
    destruct (forallb (fun e => negb (capable e service_id)) employees) eqn:Hnone.
    { rewrite forallb_forall in Hnone. specialize (Hnone e He).
      rewrite Hcap in Hnone. discriminate. }
    match goal with |- context [forallb ?f employees] =>
      destruct (forallb f employees) eqn:Hall
    end; [|reflexivity].
    rewrite forallb_forall in Hall. specialize (Hall e He).
    rewrite Hcap in Hall. simpl in Hall. apply bool_decide_eq_true_1 in Hall. tauto.
Qed.

(** C5, the texts as the claim gives them: on the sample run the bottleneck
    of the service nobody is trained for does not carry the claimed text
    (the engine's text starts with a capital). *)
Lemma bottleneck_reason_text_differs :
  solve Sample.clock Sample.needs Sample.staff Sample.locks Sample.blocks
  = Return (SampleRun.result, Sample.staff)
  /\ In SampleRun.bottleneck_U (RosteringResult.bottlenecks SampleRun.result)
  /\ Bottleneck.reason SampleRun.bottleneck_U
     <> classify "no employees capable of this service"
                 "all capable employees are blocked/unavailable"
                 "insufficient eligible employees for this slot"
                 Sample.staff (_build_blocked_set Sample.blocks)
                 (Bottleneck.date SampleRun.bottleneck_U)
                 (Bottleneck.dagdeel SampleRun.bottleneck_U)
                 (Bottleneck.service_id SampleRun.bottleneck_U).
Proof.
  split; [vm_compute; reflexivity|].
  split; [right; left; reflexivity|].
  vm_compute. discriminate.
Qed.

(** C5, amended. The reason of every bottleneck of a returned result is
    "No employees capable of this service" when no worker of the list is
    capable of the bottleneck's service; else "All capable employees are
    blocked/unavailable" when every capable worker is in the blocked index
    for the bottleneck's (date, day-part); else "Insufficient eligible
    employees for this slot". *)
Theorem bottleneck_reason (clock : Clock) (requirements : list RosteringRequirement.t)
    (employees : list EmployeeCapability.t)
    (fixed_assignments : list FixedAssignment.t)
    (blocked_slots : list BlockedSlot.t)
    (r : RosteringResult.t) (h : list EmployeeCapability.t) (b : Bottleneck.t) :
  solve clock requirements employees fixed_assignments blocked_slots = Return (r, h) ->
  In b (RosteringResult.bottlenecks r) ->
  Bottleneck.reason b
  = classify "No employees capable of this service"
             "All capable employees are blocked/unavailable"
             "Insufficient eligible employees for this slot"
             employees (_build_blocked_set blocked_slots)
             (Bottleneck.date b) (Bottleneck.dagdeel b) (Bottleneck.service_id b).
Proof.
  intros Hsolve Hb. apply solve_returns in Hsolve as [-> _]. simpl in Hb.
  apply final_bottleneck in Hb as (before & req & after & _ & -> & _).
  simpl. rewrite final_locals_employees. apply analyze_reason_classify.
Qed.

Lemma bottleneck_reason_witness :
  Bottleneck.reason SampleRun.bottleneck_U = "No employees capable of this service".
Proof.
  assert (Hsolve : solve Sample.clock Sample.needs Sample.staff Sample.locks Sample.blocks
                   = Return (SampleRun.result, Sample.staff))
    by (vm_compute; reflexivity).
  assert (Hb : In SampleRun.bottleneck_U (RosteringResult.bottlenecks SampleRun.result))
    by (right; left; reflexivity).
  rewrite (bottleneck_reason _ _ _ _ _ _ _ _ Hsolve Hb). vm_compute. reflexivity.
Defined.

(** ** One slot per worker and day-part *)

Lemma NoDup_map_filter {A B : Type} (g : A -> B) (f : A -> bool) (l : list A) :
  List.NoDup (map g l) -> List.NoDup (map g (List.filter f l)).
Proof.
  induction l as [|x l IH]; simpl; intros Hnd; [constructor|].
  apply List.NoDup_cons_iff in Hnd as [Hx Hl].
  destruct (f x); simpl; [|now apply IH].
  constructor; [|now apply IH].
  intros Hin. apply Hx. apply in_map_iff in Hin as (y & Hy & Hin).
  apply filter_In in Hin as [Hin _]. apply in_map_iff. now exists y.
Qed.

Lemma NoDup_firstn {A : Type} (n : nat) (l : list A) :
  List.NoDup l -> List.NoDup (firstn n l).
Proof.
  intros Hnd. rewrite <- (firstn_skipn n l) in Hnd.
  now apply List.NoDup_app_remove_r in Hnd.
Qed.

Lemma picked_ids_NoDup (blocked_set : gset Slot) (req : RosteringRequirement.t)
    (s : Locals.t) :
  List.NoDup (map eid (Locals.employees s)) ->
  List.NoDup (map eid (picked blocked_set req s)).
Proof.
  intros Hnd. unfold picked. rewrite <- List.firstn_map. apply NoDup_firstn.
  unfold candidates.
  eapply Permutation.Permutation_NoDup.
  - apply Permutation.Permutation_map. symmetry. apply sort_key_perm.
  - now apply NoDup_map_filter.
Qed.

Lemma eligible_here_free (date dagdeel service_id : string)
    (roster : list Assignment.t) (blocked_set : gset Slot) (team_filter : string)
    (emp : EmployeeCapability.t) :
  eligible_here date dagdeel service_id roster blocked_set team_filter emp = true ->
  ~ In (eid emp, date, dagdeel) (map occupies roster).
Proof.
  unfold eligible_here. intros Hel Hin.
  destruct (negb (String.eqb team_filter "") && _); [discriminate|].
  destruct (negb (capable emp service_id)); [discriminate|].
  destruct (decide _); [discriminate|].
  destruct (existsb _ roster) eqn:Hex; [discriminate|].
  apply in_map_iff in Hin as (a & Ha & Hin). unfold occupies in Ha.
  injection Ha as Hid Hdate Hdag.
  assert (Htrue : existsb (fun a =>
            String.eqb (Assignment.employee_id a) (eid emp)
            && String.eqb (Assignment.date a) date
            && String.eqb (Assignment.dagdeel a) dagdeel) roster = true).
  { apply existsb_exists. exists a. split; [exact Hin|].
    rewrite Hid, Hdate, Hdag, !String.eqb_refl. reflexivity. }
  congruence.
Qed.

Lemma after_req_NoDup (blocked_set : gset Slot) (req : RosteringRequirement.t)
    (s : Locals.t) :
  List.NoDup (map eid (Locals.employees s)) ->
  List.NoDup (map occupies (Locals.roster s)) ->
  List.NoDup (map occupies (Locals.roster (after_req blocked_set req s))).
Proof.
  intros Hids Hnd. simpl. rewrite map_app, map_map.
  apply List.NoDup_app.
  - exact Hnd.
  - apply (NoDup_map_inv (fun k : Slot => fst (fst k))). rewrite map_map. simpl.
    now apply picked_ids_NoDup.
  - intros k Hk Hnew. apply in_map_iff in Hnew as (e & <- & He).
    apply picked_in, candidates_in in He as [_ He].
    apply eligible_here_free in He. now apply He.
Qed.

(** C1, as stated, fails: a worker locked twice into one day-part holds
    both assignments in the returned roster. *)
Lemma double_lock_kept :
  solve Sample.clock DoubleLock.needs DoubleLock.staff DoubleLock.locks []
  = Return (DoubleLock.result, DoubleLock.staff)
  /\ ~ List.NoDup (map occupies (RosteringResult.roster DoubleLock.result)).
Proof.
  split; [vm_compute; reflexivity|].
  intros Hnd. apply List.NoDup_cons_iff in Hnd as [Hnotin _].
  apply Hnotin. left. reflexivity.
Qed.

(** The same happens in FASE 2 when two worker records carry one id. *)
Example namesakes_both_picked :
  solve Sample.clock Namesakes.needs Namesakes.staff [] []
  = Return (Namesakes.result, Namesakes.staff)
  /\ ~ List.NoDup (map occupies (RosteringResult.roster Namesakes.result)).
Proof.
  split; [vm_compute; reflexivity|].
  intros Hnd. apply List.NoDup_cons_iff in Hnd as [Hnotin _].
  apply Hnotin. left. reflexivity.
Qed.

(** C1, amended. When the worker ids of the worker list are pairwise
    distinct and the fixed assignments that pass validation occupy pairwise
    distinct (worker, date, day-part) triples, no two assignments of the
    returned roster share their (worker id, date, day-part). *)
Theorem roster_slots_unique (clock : Clock)
    (requirements : list RosteringRequirement.t)
    (employees : list EmployeeCapability.t)
    (fixed_assignments : list FixedAssignment.t)
    (blocked_slots : list BlockedSlot.t)
    (r : RosteringResult.t) (h : list EmployeeCapability.t) :
  List.NoDup (map eid employees) ->
  List.NoDup (map fixed_occupies
                (List.filter (valid_fixed employees (_build_blocked_set blocked_slots))
                             fixed_assignments)) ->
  solve clock requirements employees fixed_assignments blocked_slots = Return (r, h) ->
  List.NoDup (map occupies (RosteringResult.roster r)).
Proof.
  intros Hids Hfixed Hsolve. apply solve_returns in Hsolve as [-> _]. simpl.
  set (bs := _build_blocked_set blocked_slots) in *. unfold final_locals. fold bs.
  apply (after_fase2_ind (fun s =>
           Locals.employees s = employees
           /\ List.NoDup (map occupies (Locals.roster s)))).
  - intros req s _ [Hemp Hnd]. split; [exact Hemp|].
    apply after_req_NoDup; [now rewrite Hemp|exact Hnd].
  - split; [apply after_fase1_employees|].
    destruct (after_fase1_roster bs employees fixed_assignments) as [-> _].
    unfold fase1_roster. rewrite map_map. exact Hfixed.
Qed.

Lemma roster_slots_unique_witness :
  List.NoDup (map occupies (RosteringResult.roster SampleRun.result)).
Proof.
  apply (roster_slots_unique Sample.clock Sample.needs Sample.staff Sample.locks
           Sample.blocks SampleRun.result Sample.staff).
  - vm_compute. repeat constructor; simpl; intuition discriminate.
  - vm_compute. repeat constructor; simpl; intuition discriminate.
  - vm_compute. reflexivity.
Defined.

(** ** How full a slot can get *)

Lemma slot_matches_greedy (date dagdeel service_id : string)
    (req : RosteringRequirement.t) (e : EmployeeCapability.t) :
  slot_matches date dagdeel service_id (greedy_assignment req e)
  = targets req date dagdeel service_id.
Proof. reflexivity. Qed.

Lemma slot_count_app (date dagdeel service_id : string) (r1 r2 : list Assignment.t) :
  slot_count date dagdeel service_id (r1 ++ r2)
  = slot_count date dagdeel service_id r1 + slot_count date dagdeel service_id r2.
Proof. unfold slot_count. rewrite List.filter_app, length_app. lia. Qed.

Lemma slot_count_greedy (date dagdeel service_id : string)
    (req : RosteringRequirement.t) (l : list EmployeeCapability.t) :
  slot_count date dagdeel service_id (map (greedy_assignment req) l)
  = if targets req date dagdeel service_id then Z.of_nat (length l) else 0.
Proof.
  unfold slot_count. induction l as [|e l IH]; simpl.
  - now destruct (targets req date dagdeel service_id).
  - rewrite slot_matches_greedy.
    destruct (targets req date dagdeel service_id); simpl length; lia.
Qed.

Lemma targets_current_count (req : RosteringRequirement.t)
    (date dagdeel service_id : string) (s : Locals.t) :
  targets req date dagdeel service_id = true ->
  current_count req s = slot_count date dagdeel service_id (Locals.roster s).
Proof.
  unfold targets, current_count. intros H.
  apply andb_prop in H as [H Hsvc]. apply andb_prop in H as [Hdate Hdag].
  apply String.eqb_eq in Hsvc, Hdate, Hdag. now rewrite Hsvc, Hdate, Hdag.
Qed.

Lemma picked_length (blocked_set : gset Slot) (req : RosteringRequirement.t)
    (s : Locals.t) :
  Z.of_nat (length (picked blocked_set req s))
  <= Z.max 0 (RosteringRequirement.required_count req - current_count req s).
Proof.
  unfold picked.
  pose proof (firstn_le_length
    (Z.to_nat (RosteringRequirement.required_count req - current_count req s))
    (candidates blocked_set req s)). lia.
Qed.

Lemma after_req_slot_count (blocked_set : gset Slot) (req : RosteringRequirement.t)
    (s : Locals.t) (date dagdeel service_id : string) :
  slot_count date dagdeel service_id (Locals.roster (after_req blocked_set req s))
  <= Z.max (slot_count date dagdeel service_id (Locals.roster s))
           (if targets req date dagdeel service_id
            then RosteringRequirement.required_count req else 0).
Proof.
  simpl. rewrite slot_count_app, slot_count_greedy.
  destruct (targets req date dagdeel service_id) eqn:Ht; [|lia].
  rewrite <- (targets_current_count req _ _ _ s Ht).
  pose proof (picked_length blocked_set req s). lia.
Qed.

Lemma after_fase2_slot_count (blocked_set : gset Slot)
    (requirements : list RosteringRequirement.t) (s : Locals.t)
    (date dagdeel service_id : string) :
  slot_count date dagdeel service_id
    (Locals.roster (after_fase2 blocked_set requirements s))
  <= Z.max (slot_count date dagdeel service_id (Locals.roster s))
           (demand date dagdeel service_id requirements).
Proof.
  revert s. induction requirements as [|r l IH]; intros s; [simpl; lia|].
  change (after_fase2 blocked_set (r :: l) s)
    with (after_fase2 blocked_set l (after_req blocked_set r s)).
  specialize (IH (after_req blocked_set r s)).
  pose proof (after_req_slot_count blocked_set r s date dagdeel service_id) as Hstep.
  assert (Hnn : 0 <= slot_count date dagdeel service_id (Locals.roster s))
    by (unfold slot_count; lia).
  simpl demand. destruct (targets r date dagdeel service_id); lia.
Qed.

(** C2, as stated, fails: two valid fixed assignments for a slot that
    requires one are both kept. *)
Lemma overbooked_slot :
  solve Sample.clock [Overbooked.seat] Overbooked.staff Overbooked.locks []
  = Return (Overbooked.result, Overbooked.staff)
  /\ RosteringRequirement.required_count Overbooked.seat
     < slot_count (RosteringRequirement.date Overbooked.seat)
         (RosteringRequirement.dagdeel Overbooked.seat)
         (RosteringRequirement.service_id Overbooked.seat)
         (RosteringResult.roster Overbooked.result).
Proof. split; vm_compute; reflexivity. Qed.

(** It also fails without fixed assignments, for the smaller of two
    requirements that target one slot. *)
Example second_requirement_exceeded :
  solve Sample.clock [Twice.first; Twice.second] Overbooked.staff [] []
  = Return (Twice.result, Overbooked.staff)
  /\ RosteringRequirement.required_count Twice.second
     < slot_count (RosteringRequirement.date Twice.second)
         (RosteringRequirement.dagdeel Twice.second)
         (RosteringRequirement.service_id Twice.second)
         (RosteringResult.roster Twice.result).
Proof. split; vm_compute; reflexivity. Qed.

(** C2, amended. For every requirement, the number of assignments of the
    returned roster on its (date, day-part, service id) is at most the larger
    of two numbers: how many assignments FASE 1 locked on that slot, and the
    largest [required_count] among the requirements that target the slot. *)
Theorem slot_count_bounded (clock : Clock)
    (requirements : list RosteringRequirement.t)
    (employees : list EmployeeCapability.t)
    (fixed_assignments : list FixedAssignment.t)
    (blocked_slots : list BlockedSlot.t)
    (r : RosteringResult.t) (h : list EmployeeCapability.t)
    (req : RosteringRequirement.t) :
  solve clock requirements employees fixed_assignments blocked_slots = Return (r, h) ->
  In req requirements ->
  exists s1,
    allocate [] employees fixed_assignments blocked_slots = Return s1
    /\ slot_count (RosteringRequirement.date req) (RosteringRequirement.dagdeel req)
         (RosteringRequirement.service_id req) (RosteringResult.roster r)
       <= Z.max
            (slot_count (RosteringRequirement.date req) (RosteringRequirement.dagdeel req)
               (RosteringRequirement.service_id req) (Locals.roster s1))
            (demand (RosteringRequirement.date req) (RosteringRequirement.dagdeel req)
               (RosteringRequirement.service_id req) requirements).
Proof.
  intros Hsolve _. apply solve_returns in Hsolve as [-> _].
  exists (after_fase1 (_build_blocked_set blocked_slots) employees fixed_assignments).
  split; [apply allocate_nil|]. simpl. apply after_fase2_slot_count.
Qed.

Lemma slot_count_bounded_witness :
  slot_count "2024-01-01" "ochtend" "S" (RosteringResult.roster SampleRun.result) <= 3.
Proof.
  assert (Hsolve : solve Sample.clock Sample.needs Sample.staff Sample.locks Sample.blocks
                   = Return (SampleRun.result, Sample.staff))
    by (vm_compute; reflexivity).
  destruct (slot_count_bounded _ _ _ _ _ _ _
              (Sample.need "2024-01-01" "ochtend" "S" 3) Hsolve (or_introl eq_refl))
    as (s1 & Hs1 & Hle).
  assert (Hs1' : allocate [] Sample.staff Sample.locks Sample.blocks
                 = Return (after_fase1 (_build_blocked_set Sample.blocks)
                             Sample.staff Sample.locks))
    by apply allocate_nil.
  rewrite Hs1' in Hs1. injection Hs1 as <-.
  etransitivity; [exact Hle|]. vm_compute. discriminate.
Defined.

(** When the slot was not locked beyond the requirement's count and no
    other requirement asks more for it, the claim's bound holds. *)
Corollary slot_count_within_required (clock : Clock)
    (requirements : list RosteringRequirement.t)
    (employees : list EmployeeCapability.t)
    (fixed_assignments : list FixedAssignment.t)
    (blocked_slots : list BlockedSlot.t)
    (r : RosteringResult.t) (h : list EmployeeCapability.t)
    (req : RosteringRequirement.t) :
  solve clock requirements employees fixed_assignments blocked_slots = Return (r, h) ->
  In req requirements ->
  slot_count (RosteringRequirement.date req) (RosteringRequirement.dagdeel req)
    (RosteringRequirement.service_id req)
    (fase1_roster employees (_build_blocked_set blocked_slots) fixed_assignments)
  <= RosteringRequirement.required_count req ->
  demand (RosteringRequirement.date req) (RosteringRequirement.dagdeel req)
    (RosteringRequirement.service_id req) requirements
  <= RosteringRequirement.required_count req ->
  slot_count (RosteringRequirement.date req) (RosteringRequirement.dagdeel req)
    (RosteringRequirement.service_id req) (RosteringResult.roster r)
  <= RosteringRequirement.required_count req.
Proof.
  intros Hsolve _ Hlocked Hdemand. apply solve_returns in Hsolve as [-> _]. simpl.
  unfold final_locals.
  etransitivity; [apply after_fase2_slot_count|].
  destruct (after_fase1_roster (_build_blocked_set blocked_slots) employees
              fixed_assignments) as [-> _]. lia.
Qed.

(** ** The worker objects and the tally *)

(** C6, as stated, fails: on the sample run ann and bob are committed, and
    the [current_shifts] of the worker objects are what they were. *)
Lemma current_shifts_not_charged :
  solve Sample.clock Sample.needs Sample.staff Sample.locks Sample.blocks
  = Return (SampleRun.result, Sample.staff)
  /\ load "ann" (RosteringResult.roster SampleRun.result) = 1
  /\ load "bob" (RosteringResult.roster SampleRun.result) = 2
  /\ ~ shifts_charged Sample.staff Sample.staff (RosteringResult.roster SampleRun.result).
Proof.
  split; [vm_compute; reflexivity|].
  split; [reflexivity|]. split; [reflexivity|].
  intros H. inversion H as [|e e' l l' Hann _]; subst.
  vm_compute in Hann. discriminate.
Qed.

(** C6, amended. [solve] writes no field of a worker record, so none of
    them is changed when it returns, [current_shifts] included. The running
    count lives in the tally of the invocation, keyed by worker id: when the
    loops are done the entry of every worker of the list is the number of
    roster entries that carry the worker's id. *)
Theorem workers_not_mutated (clock : Clock)
    (requirements : list RosteringRequirement.t)
    (employees : list EmployeeCapability.t)
    (fixed_assignments : list FixedAssignment.t)
    (blocked_slots : list BlockedSlot.t)
    (r : RosteringResult.t) (h : list EmployeeCapability.t) :
  solve clock requirements employees fixed_assignments blocked_slots = Return (r, h) ->
  h = employees
  /\ exists s,
       allocate requirements employees fixed_assignments blocked_slots = Return s
       /\ Locals.employees s = employees
       /\ Locals.roster s = RosteringResult.roster r
       /\ forall e, In e employees ->
            Locals.assignment_count s !! eid e
            = Some (load (eid e) (RosteringResult.roster r)).
Proof.
  intros Hsolve. pose proof (solve_returns_allocate _ _ _ _ _ _ _ Hsolve) as Halloc.
  apply solve_returns in Hsolve as [-> ->]. split; [reflexivity|].
  pose proof (final_locals_tally requirements employees fixed_assignments blocked_slots)
    as Htally.
  exists (final_locals requirements employees fixed_assignments blocked_slots).
  split; [exact Halloc|]. split; [apply final_locals_employees|].
  split; [reflexivity|].
  intros e He. apply Htally. fold (final_locals requirements employees
    fixed_assignments blocked_slots). now rewrite final_locals_employees.
Qed.

Lemma workers_not_mutated_witness :
  exists s,
    allocate Sample.needs Sample.staff Sample.locks Sample.blocks = Return s
    /\ Locals.employees s = Sample.staff
    /\ Locals.roster s = RosteringResult.roster SampleRun.result
    /\ forall e, In e Sample.staff ->
         Locals.assignment_count s !! eid e
         = Some (load (eid e) (RosteringResult.roster SampleRun.result)).
Proof.
  apply (workers_not_mutated Sample.clock Sample.needs Sample.staff Sample.locks
           Sample.blocks SampleRun.result Sample.staff).
  vm_compute. reflexivity.
Defined.

(** ** Running again *)

(** A second run, under another clock and on the worker objects the first
    run leaves behind, returns the same roster, bottlenecks and metrics. *)
Lemma solve_rerun (clock1 clock2 : Clock)
    (requirements : list RosteringRequirement.t)
    (employees : list EmployeeCapability.t)
    (fixed_assignments : list FixedAssignment.t)
    (blocked_slots : list BlockedSlot.t)
    (r1 : RosteringResult.t) (h1 : list EmployeeCapability.t) :
  solve clock1 requirements employees fixed_assignments blocked_slots = Return (r1, h1) ->
  exists r2,
    solve clock2 requirements h1 fixed_assignments blocked_slots = Return (r2, h1)
    /\ clockless r1 = clockless r2.
Proof.
  intros Hsolve. pose proof Hsolve as Hret. apply solve_returns in Hret as [-> ->].
  rewrite solve_spec in Hsolve. rewrite solve_spec.
  destruct (printable_all _ _ _); [|discriminate].
  eexists. split; reflexivity.
Qed.

(** A run that raises does so under every clock. *)
Lemma solve_raise_again (clock1 clock2 : Clock)
    (requirements : list RosteringRequirement.t)
    (employees : list EmployeeCapability.t)
    (fixed_assignments : list FixedAssignment.t)
    (blocked_slots : list BlockedSlot.t) (e : PyExn) :
  solve clock1 requirements employees fixed_assignments blocked_slots = Raise e ->
  solve clock2 requirements employees fixed_assignments blocked_slots = Raise e.
Proof.
  rewrite !solve_spec. now destruct (printable_all _ _ _).
Qed.

Example sample_rerun :
  exists r2,
    solve Sample.later Sample.needs Sample.staff Sample.locks Sample.blocks
    = Return (r2, Sample.staff)
    /\ clockless r2 = clockless SampleRun.result
    /\ RosteringResult.timestamp r2 <> RosteringResult.timestamp SampleRun.result.
Proof.
  eexists. split; [vm_compute; reflexivity|]. split; [reflexivity|].
  vm_compute. discriminate.
Qed.

(** ** Fields the engine does not read *)

Section Unused.
Variable f : EmployeeCapability.t -> gset string * Z * Z.

Lemma find_map {A B : Type} (g : A -> B) (p : B -> bool) (l : list A) :
  find p (map g l) = option_map g (find (fun x => p (g x)) l).
Proof.
  induction l as [|x l IH]; [reflexivity|]. simpl. now destruct (p (g x)).
Qed.

Lemma filter_map_comm {A B : Type} (g : A -> B) (p : B -> bool) (l : list A) :
  List.filter p (map g l) = map g (List.filter (fun x => p (g x)) l).
Proof.
  induction l as [|x l IH]; [reflexivity|]. simpl.
  destruct (p (g x)); simpl; now rewrite IH.
Qed.

Lemma forallb_map {A B : Type} (g : A -> B) (p : B -> bool) (l : list A) :
  forallb p (map g l) = forallb (fun x => p (g x)) l.
Proof.
  induction l as [|x l IH]; [reflexivity|]. simpl. now rewrite IH.
Qed.

Lemma is_valid_reschedule (employee_id date dagdeel service_id : string)
    (employees : list EmployeeCapability.t) (blocked_set : gset Slot) :
  _is_valid_assignment employee_id date dagdeel service_id
    (map (reschedule f) employees) blocked_set
  = _is_valid_assignment employee_id date dagdeel service_id employees blocked_set.
Proof.
  unfold _is_valid_assignment. destruct (decide _); [reflexivity|].
  rewrite find_map. simpl. now destruct (find _ employees).
Qed.

Lemma find_eligible_reschedule (date dagdeel service_id : string)
    (employees : list EmployeeCapability.t) (roster : list Assignment.t)
    (blocked_set : gset Slot) (team_filter : string) :
  _find_eligible_employees date dagdeel service_id (map (reschedule f) employees)
    roster blocked_set team_filter
  = map (reschedule f)
      (_find_eligible_employees date dagdeel service_id employees roster blocked_set
         team_filter).
Proof. unfold _find_eligible_employees. now rewrite filter_map_comm. Qed.

Lemma candidates_reschedule (blocked_set : gset Slot) (req : RosteringRequirement.t)
    (s : Locals.t) :
  candidates blocked_set req
    (with_employees (map (reschedule f) (Locals.employees s)) s)
  = map (reschedule f) (candidates blocked_set req s).
Proof.
  unfold candidates. simpl. rewrite find_eligible_reschedule, sort_key_map.
  reflexivity.
Qed.

Lemma picked_reschedule (blocked_set : gset Slot) (req : RosteringRequirement.t)
    (s : Locals.t) :
  picked blocked_set req
    (with_employees (map (reschedule f) (Locals.employees s)) s)
  = map (reschedule f) (picked blocked_set req s).
Proof.
  unfold picked. rewrite candidates_reschedule, List.firstn_map. reflexivity.
Qed.

Lemma classify_reschedule (t1 t2 t3 : string) (employees : list EmployeeCapability.t)
    (blocked_set : gset Slot) (date dagdeel service_id : string) :
  classify t1 t2 t3 (map (reschedule f) employees) blocked_set date dagdeel service_id
  = classify t1 t2 t3 employees blocked_set date dagdeel service_id.
Proof. unfold classify. now rewrite !forallb_map. Qed.

Lemma after_req_reschedule (blocked_set : gset Slot) (req : RosteringRequirement.t)
    (s : Locals.t) :
  after_req blocked_set req
    (with_employees (map (reschedule f) (Locals.employees s)) s)
  = with_employees (map (reschedule f) (Locals.employees s))
      (after_req blocked_set req s).
Proof.
  unfold after_req, shortfall, bottleneck_for.
  rewrite !picked_reschedule, !candidates_reschedule, !analyze_reason_classify.
  unfold with_employees, current_count.
  cbn [Locals.employees Locals.roster Locals.bottlenecks Locals.assignment_count].
  rewrite classify_reschedule, !map_map, length_map. reflexivity.
Qed.

Lemma after_fixed_reschedule (blocked_set : gset Slot) (fixed : FixedAssignment.t)
    (s : Locals.t) :
  after_fixed blocked_set fixed
    (with_employees (map (reschedule f) (Locals.employees s)) s)
  = with_employees (map (reschedule f) (Locals.employees s))
      (after_fixed blocked_set fixed s).
Proof.
  unfold after_fixed, valid_fixed. simpl. rewrite is_valid_reschedule.
  now destruct (_is_valid_assignment _ _ _ _ _ _).
Qed.

Lemma final_locals_reschedule (requirements : list RosteringRequirement.t)
    (employees : list EmployeeCapability.t)
    (fixed_assignments : list FixedAssignment.t)
    (blocked_slots : list BlockedSlot.t) :
  final_locals requirements (map (reschedule f) employees) fixed_assignments
    blocked_slots
  = with_employees (map (reschedule f) employees)
      (final_locals requirements employees fixed_assignments blocked_slots).
Proof.
  unfold final_locals. set (bs := _build_blocked_set blocked_slots).
  assert (H1 : after_fase1 bs (map (reschedule f) employees) fixed_assignments
               = with_employees (map (reschedule f) employees)
                   (after_fase1 bs employees fixed_assignments)).
  { unfold after_fase1.
    assert (Hinit : init_locals (map (reschedule f) employees)
                    = with_employees (map (reschedule f) employees)
                        (init_locals employees)).
    { unfold init_locals, with_employees. simpl. now rewrite map_map. }
    rewrite Hinit. clear Hinit.
    assert (Hemp : Locals.employees (init_locals employees) = employees) by reflexivity.
    revert Hemp. generalize (init_locals employees).
    induction fixed_assignments as [|x l IH]; intros s Hemp; [reflexivity|].
    simpl. rewrite <- Hemp at 1. rewrite after_fixed_reschedule, Hemp.
    apply IH. now rewrite after_fixed_employees. }
  rewrite H1. clear H1.
  pose proof (after_fase1_employees bs employees fixed_assignments) as Hemp.
  revert Hemp. generalize (after_fase1 bs employees fixed_assignments).
  unfold after_fase2.
  induction requirements as [|x l IH]; intros s Hemp; [reflexivity|].
  simpl. rewrite <- Hemp at 1. rewrite after_req_reschedule, Hemp.
  apply IH. exact Hemp.
Qed.

Lemma printable_all_reschedule (blocked_set : gset Slot)
    (requirements : list RosteringRequirement.t)
    (employees : list EmployeeCapability.t)
    (fixed_assignments : list FixedAssignment.t) :
  printable_all blocked_set requirements
    (after_fase1 blocked_set (map (reschedule f) employees) fixed_assignments)
  = printable_all blocked_set requirements
      (after_fase1 blocked_set employees fixed_assignments).
Proof.
  assert (H1 : after_fase1 blocked_set (map (reschedule f) employees) fixed_assignments
               = with_employees (map (reschedule f) employees)
                   (after_fase1 blocked_set employees fixed_assignments)).
  { pose proof (final_locals_reschedule [] employees fixed_assignments []) as H.
    unfold final_locals in H. simpl in H.
    unfold after_fase1.
    assert (Hinit : init_locals (map (reschedule f) employees)
                    = with_employees (map (reschedule f) employees)
                        (init_locals employees)).
    { unfold init_locals, with_employees. simpl. now rewrite map_map. }
    rewrite Hinit. clear Hinit H.
    assert (Hemp : Locals.employees (init_locals employees) = employees) by reflexivity.
    revert Hemp. generalize (init_locals employees).
    induction fixed_assignments as [|x l IH]; intros s Hemp; [reflexivity|].
    simpl. rewrite <- Hemp at 1. rewrite after_fixed_reschedule, Hemp.
    apply IH. now rewrite after_fixed_employees. }
  rewrite H1. clear H1.
  pose proof (after_fase1_employees blocked_set employees fixed_assignments) as Hemp.
  revert Hemp. generalize (after_fase1 blocked_set employees fixed_assignments).
  induction requirements as [|req l IH]; intros s Hemp; [reflexivity|].
  cbn [printable_all].
  assert (Hp : printable blocked_set req (with_employees (map (reschedule f) employees) s)
               = printable blocked_set req s).
  { unfold printable. rewrite <- Hemp.
    pose proof (after_req_reschedule blocked_set req s) as Hreq.
    apply (f_equal Locals.bottlenecks) in Hreq. simpl in Hreq.
    apply app_inv_head in Hreq. now rewrite Hreq. }
  rewrite Hp. f_equal.
  rewrite <- Hemp at 1. rewrite after_req_reschedule, Hemp. apply IH. exact Hemp.
Qed.

End Unused.

(** C9. Neither [_is_valid_assignment] nor [_find_eligible_employees]
    reads a worker's [available_dates], [max_shifts_per_week] or
    [current_shifts]: replacing the three fields of every worker by anything
    at all leaves the validation verdict, the eligible workers and the whole
    result of [solve] as they were. So whoever is committed stays committed
    when the date is taken out of their available dates and their cap is set
    below their load. *)
Theorem scheduling_fields_unread (f : EmployeeCapability.t -> gset string * Z * Z)
    (clock : Clock) (requirements : list RosteringRequirement.t)
    (employees : list EmployeeCapability.t)
    (fixed_assignments : list FixedAssignment.t)
    (blocked_slots : list BlockedSlot.t) :
  (forall (employee_id date dagdeel service_id : string) (blocked_set : gset Slot),
     _is_valid_assignment employee_id date dagdeel service_id
       (map (reschedule f) employees) blocked_set
     = _is_valid_assignment employee_id date dagdeel service_id employees blocked_set)
  /\ (forall (date dagdeel service_id : string) (roster : list Assignment.t)
             (blocked_set : gset Slot) (team_filter : string),
        _find_eligible_employees date dagdeel service_id
          (map (reschedule f) employees) roster blocked_set team_filter
        = map (reschedule f)
            (_find_eligible_employees date dagdeel service_id employees roster
               blocked_set team_filter))
  /\ ((exists r : RosteringResult.t,
         solve clock requirements employees fixed_assignments blocked_slots
         = Return (r, employees)
         /\ solve clock requirements (map (reschedule f) employees) fixed_assignments
              blocked_slots
            = Return (r, map (reschedule f) employees))
      \/ (solve clock requirements employees fixed_assignments blocked_slots
          = Raise (ValueError digits_msg)
          /\ solve clock requirements (map (reschedule f) employees) fixed_assignments
               blocked_slots
             = Raise (ValueError digits_msg))).
Proof.
  split; [intros; apply is_valid_reschedule|].
  split; [intros; apply find_eligible_reschedule|].
  rewrite !solve_spec, final_locals_reschedule, printable_all_reschedule.
  destruct (printable_all _ _ _); [left|right; now split].
  eexists. split; reflexivity.
Qed.

(** Ann is available on 2024-02-02 only and capped at one shift, which she
    has already worked; she is committed three times on 2024-01-01. *)
Example overworked_ann :
  solve Sample.clock Overworked.needs [Overworked.ann] Overworked.locks []
  = Return (Overworked.result, [Overworked.ann])
  /\ load "ann" (RosteringResult.roster Overworked.result) = 3
  /\ EmployeeCapability.max_shifts_per_week Overworked.ann = 1
  /\ Forall (fun a => Assignment.date a
                      ∉ EmployeeCapability.available_dates Overworked.ann)
            (RosteringResult.roster Overworked.result).
Proof.
  split; [vm_compute; reflexivity|]. split; [reflexivity|]. split; [reflexivity|].
  unfold Overworked.result. simpl RosteringResult.roster.
  repeat (apply List.Forall_cons;
          [cbv beta; apply (bool_decide_eq_false_1 _); vm_compute; reflexivity|]).
  apply List.Forall_nil.
Qed.

(** ** The sample, end to end *)

Example sort_key_ties :
  sort_key snd [("a", 1); ("b", 0); ("c", 1); ("d", 0)]
  = [("b", 0); ("d", 0); ("a", 1); ("c", 1)].
Proof. reflexivity. Qed.

Example sample_roster_workers :
  map Assignment.employee_id (RosteringResult.roster SampleRun.result)
  = ["bob"; "ann"; "bob"]
  /\ RosteringResult.bottlenecks SampleRun.result
     = [SampleRun.bottleneck_S; SampleRun.bottleneck_U].
Proof. split; reflexivity. Qed.

(** * Further properties of the engine *)

(** ** What every committed assignment satisfies *)

Lemma blocked_set_elem (blocked_slots : list BlockedSlot.t) (w d p : string) :
((w, d, p) ∈ _build_blocked_set blocked_slots)
  <-> exists b, In b blocked_slots
        /\ BlockedSlot.employee_id b = w /\ BlockedSlot.date b = d
        /\ BlockedSlot.dagdeel b = p.
Proof.
  unfold _build_blocked_set. rewrite elem_of_list_to_set, list_elem_of_In, in_map_iff.
  split.
  - intros (b & Hb & Hin). injection Hb as <- <- <-. now exists b.
  - intros (b & Hin & <- & <- & <-). now exists b.
Qed.

Lemma eligible_here_inv (date dagdeel service_id : string)
    (roster : list Assignment.t) (blocked_set : gset Slot) (team_filter : string)
    (emp : EmployeeCapability.t) :
  eligible_here date dagdeel service_id roster blocked_set team_filter emp = true <->
  (team_filter = "" \/ EmployeeCapability.team emp = team_filter)
  /\ capable emp service_id = true
  /\ ((eid emp, date, dagdeel) ∉ blocked_set)
  /\ ~ In (eid emp, date, dagdeel) (map occupies roster).
Proof.
  split.
  - intros Hel. pose proof (eligible_here_free _ _ _ _ _ _ _ Hel) as Hfree.
    unfold eligible_here in Hel.
    destruct (String.eqb_spec team_filter "") as [Hnil|Hset];
      destruct (String.eqb_spec (EmployeeCapability.team emp) team_filter) as [Ht|Ht];
      simpl in Hel; try discriminate;
      destruct (capable emp service_id); simpl in Hel; try discriminate;
      destruct (decide _) as [|Hnb]; try discriminate; auto.
  - intros (Hteam & Hcap & Hnb & Hfree). unfold eligible_here.
    assert (Hguard : negb (String.eqb team_filter "")
                     && negb (String.eqb (EmployeeCapability.team emp) team_filter)
                     = false).
    { destruct Hteam as [->| ->]; [reflexivity|].
      rewrite String.eqb_refl. now rewrite andb_false_r. }
    rewrite Hguard, Hcap. simpl. destruct (decide _) as [Hb|_]; [contradiction|].
    destruct (existsb _ roster) eqn:Hex; [|reflexivity].
    exfalso. apply Hfree. apply existsb_exists in Hex as (a & Hin & Ha).
    apply andb_prop in Ha as [Ha Hdag]. apply andb_prop in Ha as [Hid Hdate].
    apply String.eqb_eq in Hid, Hdate, Hdag.
    apply in_map_iff. exists a. split; [|exact Hin]. unfold occupies. congruence.
Qed.

(** The assignments FASE 2 appends, with what made their workers eligible. *)
Lemma after_fase2_roster_eligible (blocked_set : gset Slot)
    (requirements : list RosteringRequirement.t) (s : Locals.t) :
  exists added,
    Locals.roster (after_fase2 blocked_set requirements s) = Locals.roster s ++ added
    /\ Forall (fun a => exists req e,
                 In req requirements /\ In e (Locals.employees s)
                 /\ a = greedy_assignment req e
                 /\ (RosteringRequirement.team req = ""
                     \/ EmployeeCapability.team e = RosteringRequirement.team req)
                 /\ capable e (RosteringRequirement.service_id req) = true
                 /\ (eid e, RosteringRequirement.date req,
                     RosteringRequirement.dagdeel req) ∉ blocked_set) added.
Proof.
  revert s. induction requirements as [|r l IH]; intros s.
  - exists []. split; [simpl; now rewrite app_nil_r|constructor].
  - change (after_fase2 blocked_set (r :: l) s)
      with (after_fase2 blocked_set l (after_req blocked_set r s)).
    destruct (IH (after_req blocked_set r s)) as (added & -> & Hadded).
    exists (map (greedy_assignment r) (picked blocked_set r s) ++ added).
    split; [simpl; now rewrite <- app_assoc|].
    apply Forall_app. split.
    + apply List.Forall_forall. intros a Ha. apply in_map_iff in Ha as (e & <- & He).
      apply picked_in, candidates_in in He as [Hin Hel].
      apply eligible_here_inv in Hel as (Hteam & Hcap & Hnb & _).
      exists r, e. split; [now left|]. auto.
    + eapply List.Forall_impl; [|exact Hadded]. simpl.
      intros a (req & e & Hreq & He & Ha). exists req, e. split; [now right|]. auto.
Qed.

(** The roster of a result: the valid fixed assignments, locked, then the
    greedy ones. *)
Lemma final_roster (requirements : list RosteringRequirement.t)
    (employees : list EmployeeCapability.t)
    (fixed_assignments : list FixedAssignment.t)
    (blocked_slots : list BlockedSlot.t) :
  exists added,
    Locals.roster (final_locals requirements employees fixed_assignments blocked_slots)
    = fase1_roster employees (_build_blocked_set blocked_slots) fixed_assignments
      ++ added
    /\ Forall (fun a => exists req e,
                 In req requirements /\ In e employees
                 /\ a = greedy_assignment req e
                 /\ (RosteringRequirement.team req = ""
                     \/ EmployeeCapability.team e = RosteringRequirement.team req)
                 /\ capable e (RosteringRequirement.service_id req) = true
                 /\ (eid e, RosteringRequirement.date req,
                     RosteringRequirement.dagdeel req)
                    ∉ _build_blocked_set blocked_slots) added.
Proof.
  unfold final_locals. set (bs := _build_blocked_set blocked_slots).
  destruct (after_fase2_roster_eligible bs requirements
              (after_fase1 bs employees fixed_assignments)) as (added & Hr & Hadded).
  destruct (after_fase1_roster bs employees fixed_assignments) as [H1 _].
  rewrite H1, after_fase1_employees in *. now exists added.
Qed.

(** X1. The locked assignments of a returned roster are exactly the fixed
    assignments that pass [_is_valid_assignment], each converted once, in
    input order, and they stand at the front of the roster. *)
Theorem locked_are_valid_fixed (clock : Clock)
    (requirements : list RosteringRequirement.t)
    (employees : list EmployeeCapability.t)
    (fixed_assignments : list FixedAssignment.t)
    (blocked_slots : list BlockedSlot.t)
    (r : RosteringResult.t) (h : list EmployeeCapability.t) :
  solve clock requirements employees fixed_assignments blocked_slots = Return (r, h) ->
  let locked :=
    map locked_assignment
      (List.filter
         (fun fixed =>
            _is_valid_assignment (FixedAssignment.employee_id fixed)
              (FixedAssignment.date fixed) (FixedAssignment.dagdeel fixed)
              (FixedAssignment.service_id fixed) employees
              (_build_blocked_set blocked_slots))
         fixed_assignments) in
  List.filter Assignment.is_locked (RosteringResult.roster r) = locked
  /\ firstn (length locked) (RosteringResult.roster r) = locked.
Proof.
  intros Hsolve locked. apply solve_returns in Hsolve as [-> _]. simpl.
  destruct (final_roster requirements employees fixed_assignments blocked_slots)
    as (added & -> & Hadded).
  change (fase1_roster employees (_build_blocked_set blocked_slots) fixed_assignments)
    with locked.
  split.
  - rewrite List.filter_app.
    assert (H1 : List.filter Assignment.is_locked locked = locked).
    { subst locked. induction (List.filter _ fixed_assignments) as [|x l IH];
        [reflexivity|]. simpl. now rewrite IH. }
    assert (H2 : List.filter Assignment.is_locked added = []).
    { clear -Hadded. induction Hadded as [|a l (req & e & _ & _ & -> & _) _ IH];
        [reflexivity|]. simpl. exact IH. }
    now rewrite H1, H2, app_nil_r.
  - rewrite firstn_app, Nat.sub_diag, firstn_all. simpl. now rewrite app_nil_r.
Qed.

Lemma locked_are_valid_fixed_witness :
  List.filter Assignment.is_locked (RosteringResult.roster SampleRun.result)
  = [locked_assignment (Sample.lock "bob" "2024-01-01" "ochtend" "S")].
Proof.
  apply (locked_are_valid_fixed Sample.clock Sample.needs Sample.staff Sample.locks
           Sample.blocks SampleRun.result Sample.staff).
  vm_compute. reflexivity.
Defined.

(** X2. No assignment of a returned roster puts a worker on a (date,
    day-part) for which the blocked-slot list names that worker. *)
Theorem no_blocked_assignment (clock : Clock)
    (requirements : list RosteringRequirement.t)
    (employees : list EmployeeCapability.t)
    (fixed_assignments : list FixedAssignment.t)
    (blocked_slots : list BlockedSlot.t)
    (r : RosteringResult.t) (h : list EmployeeCapability.t)
    (a : Assignment.t) (b : BlockedSlot.t) :
  solve clock requirements employees fixed_assignments blocked_slots = Return (r, h) ->
  In a (RosteringResult.roster r) ->
  In b blocked_slots ->
  ~ (BlockedSlot.employee_id b = Assignment.employee_id a
     /\ BlockedSlot.date b = Assignment.date a
     /\ BlockedSlot.dagdeel b = Assignment.dagdeel a).
Proof.
  intros Hsolve Ha Hb (Hid & Hdate & Hdag). apply solve_returns in Hsolve as [-> _].
  simpl in Ha.
  assert (Hblocked : occupies a ∈ _build_blocked_set blocked_slots).
  { apply blocked_set_elem. now exists b. }
  destruct (final_roster requirements employees fixed_assignments blocked_slots)
    as (added & Hr & Hadded).
  rewrite Hr in Ha. apply in_app_or in Ha as [Ha|Ha].
  - unfold fase1_roster in Ha. apply in_map_iff in Ha as (f & <- & Hf).
    apply filter_In in Hf as [_ Hf].
    apply valid_fixed_found in Hf as (_ & _ & _ & _ & Hnb). now apply Hnb.
  - rewrite List.Forall_forall in Hadded.
    destruct (Hadded a Ha) as (req & e & _ & _ & -> & _ & _ & Hnb). now apply Hnb.
Qed.

Lemma no_blocked_assignment_witness :
  ~ (BlockedSlot.employee_id (Sample.sick "cas" "2024-01-02" "ochtend") = "bob"
     /\ BlockedSlot.date (Sample.sick "cas" "2024-01-02" "ochtend") = "2024-01-02"
     /\ BlockedSlot.dagdeel (Sample.sick "cas" "2024-01-02" "ochtend") = "ochtend").
Proof.
  apply (no_blocked_assignment Sample.clock Sample.needs Sample.staff Sample.locks
           Sample.blocks SampleRun.result Sample.staff
           (greedy_assignment (Sample.need "2024-01-02" "ochtend" "T" 1)
              (Sample.worker "bob" ["S"; "T"]))).
  - vm_compute. reflexivity.
  - right. right. left. reflexivity.
  - left. reflexivity.
Defined.

(** X3. Every assignment of a returned roster names a worker of the worker
    list whose capability map marks the assignment's service as true. *)
Theorem assigned_worker_capable (clock : Clock)
    (requirements : list RosteringRequirement.t)
    (employees : list EmployeeCapability.t)
    (fixed_assignments : list FixedAssignment.t)
    (blocked_slots : list BlockedSlot.t)
    (r : RosteringResult.t) (h : list EmployeeCapability.t) (a : Assignment.t) :
  solve clock requirements employees fixed_assignments blocked_slots = Return (r, h) ->
  In a (RosteringResult.roster r) ->
  exists e, In e employees
    /\ EmployeeCapability.employee_id e = Assignment.employee_id a
    /\ EmployeeCapability.capable_services e !! Assignment.service_id a = Some true.
Proof.
  intros Hsolve Ha. apply solve_returns in Hsolve as [-> _]. simpl in Ha.
  assert (Hcap : forall e svc, capable e svc = true ->
                   EmployeeCapability.capable_services e !! svc = Some true).
  { intros e svc. unfold capable.
    destruct (EmployeeCapability.capable_services e !! svc) as [[]|]; simpl;
      congruence. }
  destruct (final_roster requirements employees fixed_assignments blocked_slots)
    as (added & Hr & Hadded).
  rewrite Hr in Ha. apply in_app_or in Ha as [Ha|Ha].
  - unfold fase1_roster in Ha. apply in_map_iff in Ha as (f & <- & Hf).
    apply filter_In in Hf as [_ Hf].
    apply valid_fixed_found in Hf as (e & He & Hid & Hc & _).
    exists e. simpl. auto.
  - rewrite List.Forall_forall in Hadded.
    destruct (Hadded a Ha) as (req & e & _ & He & -> & _ & Hc & _).
    exists e. simpl. auto.
Qed.

Lemma assigned_worker_capable_witness :
  exists e, In e Sample.staff
    /\ EmployeeCapability.employee_id e = "ann"
    /\ EmployeeCapability.capable_services e !! "S" = Some true.
Proof.
  apply (assigned_worker_capable Sample.clock Sample.needs Sample.staff Sample.locks
           Sample.blocks SampleRun.result Sample.staff
           (greedy_assignment (Sample.need "2024-01-01" "ochtend" "S" 3)
              (Sample.worker "ann" ["S"]))).
  - vm_compute. reflexivity.
  - right. left. reflexivity.
Defined.

(** X4. Every unlocked assignment of a returned roster answers a
    requirement of the list (same date, day-part and service), and when that
    requirement names a team the assignment goes to a worker record of that
    team. *)
Theorem greedy_respects_team (clock : Clock)
    (requirements : list RosteringRequirement.t)
    (employees : list EmployeeCapability.t)
    (fixed_assignments : list FixedAssignment.t)
    (blocked_slots : list BlockedSlot.t)
    (r : RosteringResult.t) (h : list EmployeeCapability.t) (a : Assignment.t) :
  solve clock requirements employees fixed_assignments blocked_slots = Return (r, h) ->
  In a (RosteringResult.roster r) ->
  Assignment.is_locked a = false ->
  exists req e,
    In req requirements /\ In e employees
    /\ Assignment.date a = RosteringRequirement.date req
    /\ Assignment.dagdeel a = RosteringRequirement.dagdeel req
    /\ Assignment.service_id a = RosteringRequirement.service_id req
    /\ Assignment.employee_id a = EmployeeCapability.employee_id e
    /\ (RosteringRequirement.team req = ""
        \/ EmployeeCapability.team e = RosteringRequirement.team req).
Proof.
  intros Hsolve Ha Hunlocked. apply solve_returns in Hsolve as [-> _]. simpl in Ha.
  destruct (final_roster requirements employees fixed_assignments blocked_slots)
    as (added & Hr & Hadded).
  rewrite Hr in Ha. apply in_app_or in Ha as [Ha|Ha].
  - unfold fase1_roster in Ha. apply in_map_iff in Ha as (f & <- & _). discriminate.
  - rewrite List.Forall_forall in Hadded.
    destruct (Hadded a Ha) as (req & e & Hreq & He & -> & Hteam & _).
    exists req, e. simpl. auto 10.
Qed.

Lemma greedy_respects_team_witness :
  exists req e,
    In req Sample.needs /\ In e Sample.staff
    /\ "2024-01-02" = RosteringRequirement.date req
    /\ "ochtend" = RosteringRequirement.dagdeel req
    /\ "T" = RosteringRequirement.service_id req
    /\ "bob" = EmployeeCapability.employee_id e
    /\ (RosteringRequirement.team req = ""
        \/ EmployeeCapability.team e = RosteringRequirement.team req).
Proof.
  apply (greedy_respects_team Sample.clock Sample.needs Sample.staff Sample.locks
           Sample.blocks SampleRun.result Sample.staff
           (greedy_assignment (Sample.need "2024-01-02" "ochtend" "T" 1)
              (Sample.worker "bob" ["S"; "T"]))).
  - vm_compute. reflexivity.
  - right. right. left. reflexivity.
  - reflexivity.
Defined.

(** ** What every recorded bottleneck carries *)

(** X5. A bottleneck of a returned result has severity HIGH when its
    shortage is 1 and CRITICAL when it is 2 or more; MEDIUM and LOW never
    occur in a result. *)
Theorem bottleneck_severity (clock : Clock)
    (requirements : list RosteringRequirement.t)
    (employees : list EmployeeCapability.t)
    (fixed_assignments : list FixedAssignment.t)
    (blocked_slots : list BlockedSlot.t)
    (r : RosteringResult.t) (h : list EmployeeCapability.t) (b : Bottleneck.t) :
  solve clock requirements employees fixed_assignments blocked_slots = Return (r, h) ->
  In b (RosteringResult.bottlenecks r) ->
  (Bottleneck.shortage b = 1 /\ Bottleneck.severity b = HIGH)
  \/ (2 <= Bottleneck.shortage b /\ Bottleneck.severity b = CRITICAL).
Proof.
  intros Hsolve Hb. apply solve_returns in Hsolve as [-> _]. simpl in Hb.
  apply final_bottleneck in Hb as (before & req & after & _ & -> & Hlt).
  unfold bottleneck_for, Bottleneck.set_suggestions, Bottleneck.set_reason,
    Bottleneck.__post_init__.
  cbn [Bottleneck.shortage Bottleneck.severity].
  destruct (Z.leb_spec 2 (RosteringRequirement.required_count req -
     (current_count req (final_locals before employees fixed_assignments blocked_slots)
      + Z.of_nat (length (picked (_build_blocked_set blocked_slots) req
           (final_locals before employees fixed_assignments blocked_slots))))))
    as [Hge|Hlt2].
  - right. now split.
  - left. destruct (Z.eqb_spec (RosteringRequirement.required_count req -
     (current_count req (final_locals before employees fixed_assignments blocked_slots)
      + Z.of_nat (length (picked (_build_blocked_set blocked_slots) req
           (final_locals before employees fixed_assignments blocked_slots))))) 1)
      as [Heq|Hne]; [now split|lia].
Qed.

Lemma bottleneck_severity_witness :
  (Bottleneck.shortage SampleRun.bottleneck_S = 1
   /\ Bottleneck.severity SampleRun.bottleneck_S = HIGH)
  \/ (2 <= Bottleneck.shortage SampleRun.bottleneck_S
      /\ Bottleneck.severity SampleRun.bottleneck_S = CRITICAL).
Proof.
  apply (bottleneck_severity Sample.clock Sample.needs Sample.staff Sample.locks
           Sample.blocks SampleRun.result Sample.staff).
  - vm_compute. reflexivity.
  - left. reflexivity.
Defined.

(** X6. A bottleneck of a returned result carries exactly three
    suggestions, in this order: train more staff (worded in the singular
    when the shortage is 1, with the shortage spelled out otherwise), reduce
    the requirement by the shortage, check for scheduling conflicts. *)
Theorem bottleneck_suggestions (clock : Clock)
    (requirements : list RosteringRequirement.t)
    (employees : list EmployeeCapability.t)
    (fixed_assignments : list FixedAssignment.t)
    (blocked_slots : list BlockedSlot.t)
    (r : RosteringResult.t) (h : list EmployeeCapability.t) (b : Bottleneck.t) :
  solve clock requirements employees fixed_assignments blocked_slots = Return (r, h) ->
  In b (RosteringResult.bottlenecks r) ->
  Bottleneck.suggestions b
  = [ (if decide (Bottleneck.shortage b = 1)
       then "Train 1 more employee in this service"
       else "Train " +:+ pretty (Bottleneck.shortage b)
            +:+ " more employees in this service");
      "Reduce requirement by " +:+ pretty (Bottleneck.shortage b);
      "Check for scheduling conflicts" ].
Proof.
  intros Hsolve Hb. apply solve_returns in Hsolve as [-> _]. simpl in Hb.
  apply final_bottleneck in Hb as (before & req & after & _ & -> & Hlt).
  unfold bottleneck_for, Bottleneck.set_suggestions, Bottleneck.set_reason,
    Bottleneck.__post_init__, suggestion_texts.
  cbn [Bottleneck.shortage Bottleneck.suggestions].
  set (sh := RosteringRequirement.required_count req - _) in *.
  assert (Hpos : 0 < sh) by (subst sh; lia).
  destruct (Z.eqb_spec sh 1) as [Heq|Hne]; destruct (decide (sh = 1)); try lia;
    [reflexivity|].
  destruct (Z.ltb_spec 1 sh); [reflexivity|lia].
Qed.

Lemma bottleneck_suggestions_witness :
  Bottleneck.suggestions SampleRun.bottleneck_U
  = ["Train 1 more employee in this service"; "Reduce requirement by 1";
     "Check for scheduling conflicts"].
Proof.
  rewrite (bottleneck_suggestions Sample.clock Sample.needs Sample.staff Sample.locks
             Sample.blocks SampleRun.result Sample.staff SampleRun.bottleneck_U).
  - reflexivity.
  - vm_compute. reflexivity.
  - right. left. reflexivity.
Defined.

(** ** Every requirement is met or reported *)

Lemma after_fase2_bottlenecks_ext (blocked_set : gset Slot)
    (requirements : list RosteringRequirement.t) (s : Locals.t) :
  exists more,
    Locals.bottlenecks (after_fase2 blocked_set requirements s)
    = Locals.bottlenecks s ++ more.
Proof.
  revert s. induction requirements as [|r l IH]; intros s.
  - exists []. simpl. now rewrite app_nil_r.
  - change (after_fase2 blocked_set (r :: l) s)
      with (after_fase2 blocked_set l (after_req blocked_set r s)).
    destruct (IH (after_req blocked_set r s)) as (more & ->).
    exists (shortfall blocked_set r s ++ more). simpl. now rewrite <- app_assoc.
Qed.

Lemma slot_count_nonneg (date dagdeel service_id : string) (roster : list Assignment.t) :
  0 <= slot_count date dagdeel service_id roster.
Proof. unfold slot_count. lia. Qed.

Lemma after_req_met_or_short (blocked_set : gset Slot) (req : RosteringRequirement.t)
    (s : Locals.t) :
  RosteringRequirement.required_count req
  <= slot_count (RosteringRequirement.date req) (RosteringRequirement.dagdeel req)
       (RosteringRequirement.service_id req)
       (Locals.roster (after_req blocked_set req s))
  \/ In (bottleneck_for blocked_set req s)
        (Locals.bottlenecks (after_req blocked_set req s)).
Proof.
  simpl. rewrite slot_count_app, slot_count_greedy.
  assert (Ht : targets req (RosteringRequirement.date req)
                 (RosteringRequirement.dagdeel req)
                 (RosteringRequirement.service_id req) = true).
  { unfold targets. now rewrite !String.eqb_refl. }
  rewrite Ht. fold (current_count req s). unfold shortfall.
  destruct (Z.ltb_spec (Z.of_nat (length (picked blocked_set req s)))
              (RosteringRequirement.required_count req - current_count req s)).
  - right. apply in_or_app. right. now left.
  - left. lia.
Qed.

Lemma after_fase2_met_or_short (blocked_set : gset Slot)
    (requirements : list RosteringRequirement.t) (s : Locals.t)
    (req : RosteringRequirement.t) :
  In req requirements ->
  RosteringRequirement.required_count req
  <= slot_count (RosteringRequirement.date req) (RosteringRequirement.dagdeel req)
       (RosteringRequirement.service_id req)
       (Locals.roster (after_fase2 blocked_set requirements s))
  \/ exists b, In b (Locals.bottlenecks (after_fase2 blocked_set requirements s))
       /\ Bottleneck.date b = RosteringRequirement.date req
       /\ Bottleneck.dagdeel b = RosteringRequirement.dagdeel req
       /\ Bottleneck.service_id b = RosteringRequirement.service_id req
       /\ Bottleneck.required_count b = RosteringRequirement.required_count req.
Proof.
  revert s. induction requirements as [|r l IH]; intros s Hin; [destruct Hin|].
  change (after_fase2 blocked_set (r :: l) s)
    with (after_fase2 blocked_set l (after_req blocked_set r s)).
  destruct Hin as [->|Hin]; [|now apply IH].
  destruct (after_fase2_roster blocked_set l (after_req blocked_set req s))
    as (added & -> & _).
  destruct (after_fase2_bottlenecks_ext blocked_set l (after_req blocked_set req s))
    as (more & ->).
  destruct (after_req_met_or_short blocked_set req s) as [Hmet|Hshort].
  - left. rewrite slot_count_app.
    pose proof (slot_count_nonneg (RosteringRequirement.date req)
                  (RosteringRequirement.dagdeel req)
                  (RosteringRequirement.service_id req) added). lia.
  - right. exists (bottleneck_for blocked_set req s).
    split; [apply in_or_app; now left|]. repeat split.
Qed.

(** X7. Every requirement of the list ends up either with at least
    [required_count] assignments on its (date, day-part, service) in the
    returned roster, or with a bottleneck in the result that carries its
    date, day-part, service and [required_count]. *)
Theorem requirement_met_or_reported (clock : Clock)
    (requirements : list RosteringRequirement.t)
    (employees : list EmployeeCapability.t)
    (fixed_assignments : list FixedAssignment.t)
    (blocked_slots : list BlockedSlot.t)
    (r : RosteringResult.t) (h : list EmployeeCapability.t)
    (req : RosteringRequirement.t) :
  solve clock requirements employees fixed_assignments blocked_slots = Return (r, h) ->
  In req requirements ->
  RosteringRequirement.required_count req
  <= slot_count (RosteringRequirement.date req) (RosteringRequirement.dagdeel req)
       (RosteringRequirement.service_id req) (RosteringResult.roster r)
  \/ exists b, In b (RosteringResult.bottlenecks r)
       /\ Bottleneck.date b = RosteringRequirement.date req
       /\ Bottleneck.dagdeel b = RosteringRequirement.dagdeel req
       /\ Bottleneck.service_id b = RosteringRequirement.service_id req
       /\ Bottleneck.required_count b = RosteringRequirement.required_count req.
Proof.
  intros Hsolve Hin. apply solve_returns in Hsolve as [-> _]. simpl.
  unfold final_locals. now apply after_fase2_met_or_short.
Qed.

Lemma requirement_met_or_reported_witness :
  1 <= slot_count "2024-01-02" "ochtend" "T" (RosteringResult.roster SampleRun.result)
  \/ exists b, In b (RosteringResult.bottlenecks SampleRun.result)
       /\ Bottleneck.date b = "2024-01-02"
       /\ Bottleneck.dagdeel b = "ochtend"
       /\ Bottleneck.service_id b = "T"
       /\ Bottleneck.required_count b = 1.
Proof.
  apply (requirement_met_or_reported Sample.clock Sample.needs Sample.staff
           Sample.locks Sample.blocks SampleRun.result Sample.staff
           (Sample.need "2024-01-02" "ochtend" "T" 1)).
  - vm_compute. reflexivity.
  - right. right. left. reflexivity.
Defined.

Lemma after_fase2_bottlenecks_order (blocked_set : gset Slot)
    (requirements : list RosteringRequirement.t) (s : Locals.t) :
  exists more,
    Locals.bottlenecks (after_fase2 blocked_set requirements s)
    = Locals.bottlenecks s ++ more
    /\ sublist
         (map (fun b => (Bottleneck.date b, Bottleneck.dagdeel b,
                         Bottleneck.service_id b, Bottleneck.required_count b)) more)
         (map (fun req => (RosteringRequirement.date req,
                           RosteringRequirement.dagdeel req,
                           RosteringRequirement.service_id req,
                           RosteringRequirement.required_count req)) requirements).
Proof.
  revert s. induction requirements as [|r l IH]; intros s.
  - exists []. split; [simpl; now rewrite app_nil_r|constructor].
  - change (after_fase2 blocked_set (r :: l) s)
      with (after_fase2 blocked_set l (after_req blocked_set r s)).
    destruct (IH (after_req blocked_set r s)) as (more & -> & Hsub).
    exists (shortfall blocked_set r s ++ more).
    split; [simpl; now rewrite <- app_assoc|].
    unfold shortfall. destruct (_ <? _); simpl.
    + now apply sublist_skip.
    + now apply sublist_cons.
Qed.

(** X21. The bottlenecks of a returned result follow the requirements: at
    most one per requirement, in input order, each carrying the date,
    day-part, service and [required_count] of its requirement. *)
Theorem bottlenecks_follow_requirements (clock : Clock)
    (requirements : list RosteringRequirement.t)
    (employees : list EmployeeCapability.t)
    (fixed_assignments : list FixedAssignment.t)
    (blocked_slots : list BlockedSlot.t)
    (r : RosteringResult.t) (h : list EmployeeCapability.t) :
  solve clock requirements employees fixed_assignments blocked_slots = Return (r, h) ->
  sublist
    (map (fun b => (Bottleneck.date b, Bottleneck.dagdeel b,
                    Bottleneck.service_id b, Bottleneck.required_count b))
         (RosteringResult.bottlenecks r))
    (map (fun req => (RosteringRequirement.date req, RosteringRequirement.dagdeel req,
                      RosteringRequirement.service_id req,
                      RosteringRequirement.required_count req)) requirements).
Proof.
  intros Hsolve. apply solve_returns in Hsolve as [-> _]. simpl. unfold final_locals.
  destruct (after_fase2_bottlenecks_order (_build_blocked_set blocked_slots)
              requirements
              (after_fase1 (_build_blocked_set blocked_slots) employees
                 fixed_assignments)) as (more & -> & Hsub).
  destruct (after_fase1_roster (_build_blocked_set blocked_slots) employees
              fixed_assignments) as [_ ->]. exact Hsub.
Qed.

Lemma bottlenecks_follow_requirements_witness :
  sublist
    [("2024-01-01", "ochtend", "S", 3); ("2024-01-01", "middag", "U", 1)]
    [("2024-01-01", "ochtend", "S", 3); ("2024-01-01", "middag", "U", 1);
     ("2024-01-02", "ochtend", "T", 1)].
Proof.
  apply (bottlenecks_follow_requirements Sample.clock Sample.needs Sample.staff
           Sample.locks Sample.blocks SampleRun.result Sample.staff).
  vm_compute. reflexivity.
Defined.

(** ** Coverage *)

Lemma full_ratio (a t : Z) :
  0 < t -> ((inject_Z a / inject_Z t * 100 == 100)%Q <-> a = t).
Proof.
  intros Ht. destruct t as [|p|p]; try lia.
  unfold Qeq, Qdiv, Qmult, Qinv, inject_Z. simpl. split; intros H; nia.
Qed.

(** X8. With at least one requirement, the returned coverage rate is 100
    exactly when the result has no bottleneck; with no requirement it is 0. *)
Theorem full_coverage_iff_no_bottleneck (clock : Clock)
    (requirements : list RosteringRequirement.t)
    (employees : list EmployeeCapability.t)
    (fixed_assignments : list FixedAssignment.t)
    (blocked_slots : list BlockedSlot.t)
    (r : RosteringResult.t) (h : list EmployeeCapability.t) :
  solve clock requirements employees fixed_assignments blocked_slots = Return (r, h) ->
  (requirements = [] -> RosteringResult.coverage_rate r = 0%Q)
  /\ (requirements <> [] ->
      (RosteringResult.bottlenecks r = []
       <-> (RosteringResult.coverage_rate r == 100)%Q)).
Proof.
  intros Hsolve. apply solve_returns in Hsolve as [-> _]. split.
  - intros ->. reflexivity.
  - intros Hne. simpl.
    rewrite no_zero_shortage by apply final_shortage_positive. simpl length.
    destruct requirements as [|q l]; [congruence|].
    destruct (Z.ltb_spec 0 (Z.of_nat (length (q :: l)))) as [Hpos|Hle];
      [|simpl in Hle; lia].
    rewrite full_ratio by exact Hpos.
    destruct (Locals.bottlenecks _) as [|b bs]; simpl length.
    + split; [lia|reflexivity].
    + split; [discriminate|lia].
Qed.

Lemma full_coverage_iff_no_bottleneck_witness :
  RosteringResult.bottlenecks SampleRun.result = []
  <-> (RosteringResult.coverage_rate SampleRun.result == 100)%Q.
Proof.
  apply (full_coverage_iff_no_bottleneck Sample.clock Sample.needs Sample.staff
           Sample.locks Sample.blocks SampleRun.result Sample.staff).
  - vm_compute. reflexivity.
  - discriminate.
Defined.

(** ** One requirement at a time *)

(** Processing [before ++ [req]] is processing [before], then [req]. *)
Lemma allocate_snoc (before : list RosteringRequirement.t) (req : RosteringRequirement.t)
    (employees : list EmployeeCapability.t)
    (fixed_assignments : list FixedAssignment.t)
    (blocked_slots : list BlockedSlot.t) (s s' : Locals.t) :
  allocate before employees fixed_assignments blocked_slots = Return s ->
  allocate (before ++ [req]) employees fixed_assignments blocked_slots = Return s' ->
  tally_ok s /\ Locals.employees s = employees
  /\ s' = after_req (_build_blocked_set blocked_slots) req s.
Proof.
  intros Hs Hs'.
  apply allocate_returns in Hs as [-> _]. apply allocate_returns in Hs' as [-> _].
  split; [apply final_locals_tally|]. split; [apply final_locals_employees|].
  unfold final_locals, after_fase2. now rewrite foldl_app.
Qed.

Lemma ascending_firstn_skipn {A : Type} (key : A -> Z) (n : nat) (l : list A)
    (x y : A) :
  ascending key l -> In x (firstn n l) -> In y (skipn n l) -> key x <= key y.
Proof.
  revert l. induction n as [|n IH]; intros l Hasc Hx Hy; [destruct Hx|].
  destruct l as [|a l]; [destruct Hx|].
  apply ascending_cons in Hasc as [Ha Hl]. simpl in Hx, Hy.
  destruct Hx as [->|Hx]; [|now apply (IH l)].
  apply Ha. rewrite <- (firstn_skipn n l). apply in_or_app. now right.
Qed.

(** X9. Least loaded first: when a requirement is processed, a worker who
    is committed to it never holds more roster entries at that moment than
    an eligible worker who is passed over. *)
Theorem least_loaded_first (before : list RosteringRequirement.t)
    (req : RosteringRequirement.t)
    (employees : list EmployeeCapability.t)
    (fixed_assignments : list FixedAssignment.t)
    (blocked_slots : list BlockedSlot.t) (s s' : Locals.t)
    (e q : EmployeeCapability.t) :
  allocate before employees fixed_assignments blocked_slots = Return s ->
  allocate (before ++ [req]) employees fixed_assignments blocked_slots = Return s' ->
  In e (_find_eligible_employees (RosteringRequirement.date req)
          (RosteringRequirement.dagdeel req) (RosteringRequirement.service_id req)
          employees (Locals.roster s) (_build_blocked_set blocked_slots)
          (RosteringRequirement.team req)) ->
  In q (_find_eligible_employees (RosteringRequirement.date req)
          (RosteringRequirement.dagdeel req) (RosteringRequirement.service_id req)
          employees (Locals.roster s) (_build_blocked_set blocked_slots)
          (RosteringRequirement.team req)) ->
  In (greedy_assignment req e) (Locals.roster s') ->
  ~ In (greedy_assignment req q) (Locals.roster s') ->
  load (EmployeeCapability.employee_id e) (Locals.roster s)
  <= load (EmployeeCapability.employee_id q) (Locals.roster s).
Proof.
  intros Hs Hs' He Hq Hin Hout.
  destruct (allocate_snoc _ _ _ _ _ _ _ Hs Hs') as (Htally & Hemp & ->).
  set (bs := _build_blocked_set blocked_slots) in *.
  unfold _find_eligible_employees in He, Hq.
  apply filter_In in He as [He Hel]. apply filter_In in Hq as [Hq Hql].
  rewrite <- Hemp in He, Hq.
  simpl in Hin, Hout.
  apply in_app_or in Hin as [Hin|Hin].
  { exfalso. apply (eligible_here_free _ _ _ _ _ _ _ Hel).
    apply in_map_iff. now exists (greedy_assignment req e). }
  apply in_map_iff in Hin as (e' & He' & Hpicked).
  assert (Hid : eid e' = eid e) by (injection He'; auto).
  assert (Hqc : In q (candidates bs req s)) by (apply candidates_in; auto).
  assert (Hqs : In q (skipn (Z.to_nat (RosteringRequirement.required_count req
                                        - current_count req s))
                        (candidates bs req s))).
  { rewrite <- (firstn_skipn (Z.to_nat (RosteringRequirement.required_count req
                                         - current_count req s))) in Hqc.
    apply in_app_or in Hqc as [Hqc|Hqc]; [|exact Hqc].
    exfalso. apply Hout. apply in_or_app. right. now apply in_map. }
  pose proof (ascending_firstn_skipn _ _ _ e' q
                (sort_key_ascending _ _) Hpicked Hqs) as Hle.
  simpl in Hle. rewrite Hid, (Htally e He), (Htally q Hq) in Hle. exact Hle.
Qed.

Lemma least_loaded_first_witness :
  load "bob" (Locals.roster (final_locals [Balance.monday] Balance.staff [] []))
  <= load "ann" (Locals.roster (final_locals [Balance.monday] Balance.staff [] [])).
Proof.
  apply (least_loaded_first [Balance.monday] Balance.tuesday Balance.staff [] []
           (final_locals [Balance.monday] Balance.staff [] [])
           (final_locals [Balance.monday; Balance.tuesday] Balance.staff [] [])
           Balance.bob Balance.ann).
  - vm_compute. reflexivity.
  - vm_compute. reflexivity.
  - vm_compute. right. left. reflexivity.
  - vm_compute. left. reflexivity.
  - vm_compute. right. left. reflexivity.
  - vm_compute. intros [H|[H|[]]]; discriminate.
Defined.

(** X10. A requirement is filled as far as the eligible workers reach: the
    number of assignments added for it is the smaller of its shortage and the
    number of eligible workers. No bottleneck is added when the eligible
    workers cover the shortage; otherwise exactly one is, and its placed
    count shows that every eligible worker was committed. *)
Theorem filled_as_far_as_eligible (before : list RosteringRequirement.t)
    (req : RosteringRequirement.t)
    (employees : list EmployeeCapability.t)
    (fixed_assignments : list FixedAssignment.t)
    (blocked_slots : list BlockedSlot.t) (s s' : Locals.t) :
  allocate before employees fixed_assignments blocked_slots = Return s ->
  allocate (before ++ [req]) employees fixed_assignments blocked_slots = Return s' ->
  let count :=
    slot_count (RosteringRequirement.date req) (RosteringRequirement.dagdeel req)
      (RosteringRequirement.service_id req) (Locals.roster s) in
  let shortage := RosteringRequirement.required_count req - count in
  let eligible :=
    Z.of_nat (length (_find_eligible_employees (RosteringRequirement.date req)
      (RosteringRequirement.dagdeel req) (RosteringRequirement.service_id req)
      employees (Locals.roster s) (_build_blocked_set blocked_slots)
      (RosteringRequirement.team req))) in
  (exists added,
     Locals.roster s' = Locals.roster s ++ added
     /\ Z.of_nat (length added) = Z.min (Z.max 0 shortage) eligible)
  /\ (shortage <= eligible -> Locals.bottlenecks s' = Locals.bottlenecks s)
  /\ (eligible < shortage ->
      exists b, Locals.bottlenecks s' = Locals.bottlenecks s ++ [b]
        /\ Bottleneck.placed_count b = count + eligible
        /\ Bottleneck.shortage b = shortage - eligible).
Proof.
  intros Hs Hs' count shortage eligible.
  destruct (allocate_snoc _ _ _ _ _ _ _ Hs Hs') as (_ & Hemp & ->).
  set (bs := _build_blocked_set blocked_slots) in *.
  assert (Hlen : Z.of_nat (length (picked bs req s))
                 = Z.min (Z.max 0 shortage) eligible).
  { unfold picked. rewrite length_firstn.
    assert (Hc : length (candidates bs req s)
                 = length (_find_eligible_employees (RosteringRequirement.date req)
                     (RosteringRequirement.dagdeel req)
                     (RosteringRequirement.service_id req)
                     employees (Locals.roster s) bs (RosteringRequirement.team req))).
    { unfold candidates. rewrite Hemp. apply Permutation_length, sort_key_perm. }
    rewrite Hc. subst shortage count eligible. unfold current_count. lia. }
  split; [|split].
  - exists (map (greedy_assignment req) (picked bs req s)).
    split; [reflexivity|]. now rewrite length_map.
  - intros Hle. simpl. unfold shortfall. fold count shortage.
    change (current_count req s) with count. rewrite Hlen.
    destruct (Z.ltb_spec (Z.min (Z.max 0 shortage) eligible) (RosteringRequirement.required_count req - count));
      [subst shortage; lia|]. now rewrite app_nil_r.
  - intros Hlt. simpl. unfold shortfall.
    change (current_count req s) with count. rewrite Hlen.
    destruct (Z.ltb_spec (Z.min (Z.max 0 shortage) eligible) (RosteringRequirement.required_count req - count));
      [|subst shortage eligible; lia].
    exists (bottleneck_for bs req s). split; [reflexivity|].
    unfold bottleneck_for. simpl. change (current_count req s) with count.
    rewrite Hlen. subst shortage eligible. lia.
Qed.

Lemma filled_as_far_as_eligible_witness :
  exists b,
    Locals.bottlenecks (final_locals [Balance.monday; Balance.crowd] Balance.staff [] [])
    = Locals.bottlenecks (final_locals [Balance.monday] Balance.staff [] []) ++ [b]
    /\ Bottleneck.placed_count b = 0 + 2
    /\ Bottleneck.shortage b = 5 - 0 - 2.
Proof.
  apply (filled_as_far_as_eligible [Balance.monday] Balance.crowd Balance.staff [] []
           (final_locals [Balance.monday] Balance.staff [] [])
           (final_locals [Balance.monday; Balance.crowd] Balance.staff [] [])).
  - vm_compute. reflexivity.
  - vm_compute. reflexivity.
  - vm_compute. reflexivity.
Defined.

(** ** Validation and eligibility *)

Lemma NoDup_map_inj {A B : Type} (f : A -> B) (l : list A) (x y : A) :
  List.NoDup (map f l) -> In x l -> In y l -> f x = f y -> x = y.
Proof.
  induction l as [|a l IH]; intros Hnd Hx Hy Hf; [destruct Hx|].
  simpl in Hnd. apply List.NoDup_cons_iff in Hnd as [Ha Hnd].
  destruct Hx as [->|Hx], Hy as [->|Hy]; auto.
  - exfalso. apply Ha. rewrite Hf. now apply in_map.
  - exfalso. apply Ha. rewrite <- Hf. now apply in_map.
Qed.

(** ** Ties *)

Lemma precedes_app {A : Type} (x y : A) (l1 l2 : list A) :
  In x l1 -> In y l2 -> precedes x y (l1 ++ l2).
Proof.
  intros Hx Hy. apply in_split in Hx as (a1 & a2 & ->).
  apply in_split in Hy as (b1 & b2 & ->).
  exists a1, (a2 ++ b1), b2. now rewrite <- !app_assoc.
Qed.

Lemma precedes_cons {A : Type} (a x y : A) (l : list A) :
  precedes x y l -> precedes x y (a :: l).
Proof. intros (l1 & l2 & l3 & ->). now exists (a :: l1), l2, l3. Qed.

Lemma precedes_filter {A : Type} (f : A -> bool) (x y : A) (l : list A) :
  precedes x y (List.filter f l) -> precedes x y l.
Proof.
  induction l as [|a l IH]; simpl.
  - intros (l1 & l2 & l3 & H). now destruct l1.
  - destruct (f a); [|intros H; now apply precedes_cons, IH].
    intros (l1 & l2 & l3 & H). destruct l1 as [|a' l1]; simpl in H.
    + injection H as -> H.
      assert (Hy : In y l).
      { assert (Hin : In y (List.filter f l))
          by (rewrite H; apply in_or_app; right; now left).
        now apply filter_In in Hin. }
      apply in_split in Hy as (m1 & m2 & ->). now exists [], m1, m2.
    + injection H as -> H. apply precedes_cons, IH. now exists l1, l2, l3.
Qed.

(** X20. Ties go by list order: with pairwise distinct worker ids, when a
    committed worker and an eligible worker who is passed over hold the same
    number of roster entries, the committed one stands earlier in the worker
    list. *)
Theorem ties_in_list_order (before : list RosteringRequirement.t)
    (req : RosteringRequirement.t)
    (employees : list EmployeeCapability.t)
    (fixed_assignments : list FixedAssignment.t)
    (blocked_slots : list BlockedSlot.t) (s s' : Locals.t)
    (e q : EmployeeCapability.t) :
  List.NoDup (map EmployeeCapability.employee_id employees) ->
  allocate before employees fixed_assignments blocked_slots = Return s ->
  allocate (before ++ [req]) employees fixed_assignments blocked_slots = Return s' ->
  In e (_find_eligible_employees (RosteringRequirement.date req)
          (RosteringRequirement.dagdeel req) (RosteringRequirement.service_id req)
          employees (Locals.roster s) (_build_blocked_set blocked_slots)
          (RosteringRequirement.team req)) ->
  In q (_find_eligible_employees (RosteringRequirement.date req)
          (RosteringRequirement.dagdeel req) (RosteringRequirement.service_id req)
          employees (Locals.roster s) (_build_blocked_set blocked_slots)
          (RosteringRequirement.team req)) ->
  load (EmployeeCapability.employee_id e) (Locals.roster s)
  = load (EmployeeCapability.employee_id q) (Locals.roster s) ->
  In (greedy_assignment req e) (Locals.roster s') ->
  ~ In (greedy_assignment req q) (Locals.roster s') ->
  precedes e q employees.
Proof.
  intros Hnd Hs Hs' He Hq Hload Hin Hout.
  destruct (allocate_snoc _ _ _ _ _ _ _ Hs Hs') as (Htally & Hemp & ->).
  set (bs := _build_blocked_set blocked_slots) in *.
  pose proof He as He0. pose proof Hq as Hq0.
  unfold _find_eligible_employees in He, Hq.
  apply filter_In in He as [He Hel]. apply filter_In in Hq as [Hq Hql].
  rewrite <- Hemp in He, Hq, He0, Hq0, Hnd.
  simpl in Hin, Hout.
  apply in_app_or in Hin as [Hin|Hin].
  { exfalso. apply (eligible_here_free _ _ _ _ _ _ _ Hel).
    apply in_map_iff. now exists (greedy_assignment req e). }
  apply in_map_iff in Hin as (e' & He' & Hpicked).
  assert (e' = e) as ->.
  { apply (NoDup_map_inj eid (Locals.employees s)); auto.
    - apply picked_in, candidates_in in Hpicked. tauto.
    - injection He'; auto. }
  assert (Hqc : In q (candidates bs req s)) by (apply candidates_in; auto).
  set (n := Z.to_nat (RosteringRequirement.required_count req - current_count req s))
    in *.
  assert (Hqs : In q (skipn n (candidates bs req s))).
  { rewrite <- (firstn_skipn n) in Hqc.
    apply in_app_or in Hqc as [Hqc|Hqc]; [|exact Hqc].
    exfalso. apply Hout. apply in_or_app. right. now apply in_map. }
  set (key := fun x : EmployeeCapability.t =>
                default 0 (Locals.assignment_count s !! eid x)).
  set (k := key e).
  assert (Hke : (key e =? k) = true) by apply Z.eqb_refl.
  assert (Hkq : (key q =? k) = true).
  { apply Z.eqb_eq. subst k key. simpl.
    now rewrite (Htally e He), (Htally q Hq), Hload. }
  rewrite <- Hemp.
  apply (precedes_filter (eligible_here (RosteringRequirement.date req)
           (RosteringRequirement.dagdeel req) (RosteringRequirement.service_id req)
           (Locals.roster s) bs (RosteringRequirement.team req))).
  apply (precedes_filter (fun x => key x =? k)).
  fold (_find_eligible_employees (RosteringRequirement.date req)
          (RosteringRequirement.dagdeel req) (RosteringRequirement.service_id req)
          (Locals.employees s) (Locals.roster s) bs (RosteringRequirement.team req)).
  rewrite <- (sort_key_stable key k).
  change (sort_key key _) with (candidates bs req s).
  rewrite <- (firstn_skipn n (candidates bs req s)), List.filter_app.
  apply precedes_app; apply filter_In; auto.
Qed.

Lemma ties_in_list_order_witness : precedes Balance.ann Balance.bob Balance.staff.
Proof.
  apply (ties_in_list_order [] Balance.monday Balance.staff [] []
           (final_locals [] Balance.staff [] [])
           (final_locals [Balance.monday] Balance.staff [] [])).
  - vm_compute. repeat constructor; simpl; intuition discriminate.
  - vm_compute. reflexivity.
  - vm_compute. reflexivity.
  - vm_compute. left. reflexivity.
  - vm_compute. right. left. reflexivity.
  - reflexivity.
  - vm_compute. left. reflexivity.
  - vm_compute. intros [H|[]]. discriminate.
Defined.

Lemma capable_true (e : EmployeeCapability.t) (service_id : string) :
  capable e service_id = true
  <-> EmployeeCapability.capable_services e !! service_id = Some true.
Proof.
  unfold capable.
  destruct (EmployeeCapability.capable_services e !! service_id) as [[]|]; simpl;
    split; congruence.
Qed.

(** X11. With pairwise distinct worker ids, [_is_valid_assignment] accepts
    exactly when the (worker, date, day-part) is not in the blocked set and
    the worker list has a worker with that id whose capability map marks the
    service as true. An unknown worker id, a blocked slot, and a service that
    is missing from the map or mapped to false are all refused. *)
Theorem is_valid_assignment_iff (employee_id date dagdeel service_id : string)
    (employees : list EmployeeCapability.t) (blocked_set : gset Slot) :
  List.NoDup (map EmployeeCapability.employee_id employees) ->
  _is_valid_assignment employee_id date dagdeel service_id employees blocked_set = true
  <-> ((employee_id, date, dagdeel) ∉ blocked_set)
      /\ exists e, In e employees
           /\ EmployeeCapability.employee_id e = employee_id
           /\ EmployeeCapability.capable_services e !! service_id = Some true.
Proof.
  intros Hnd. unfold _is_valid_assignment. split.
  - destruct (decide _) as [|Hnb]; [discriminate|].
    destruct (find _ employees) as [emp|] eqn:Hfind; [|discriminate].
    intros Hcap. apply find_some in Hfind as [Hin Heq]. apply String.eqb_eq in Heq.
    split; [exact Hnb|]. exists emp. rewrite <- capable_true. auto.
  - intros (Hnb & e & He & Hid & Hcap).
    destruct (decide _) as [|_]; [contradiction|].
    destruct (find _ employees) as [emp|] eqn:Hfind.
    + apply find_some in Hfind as [Hin Heq]. apply String.eqb_eq in Heq.
      assert (emp = e) as ->.
      { apply (NoDup_map_inj eid employees); auto. congruence. }
      now apply capable_true.
    + exfalso. apply (find_none _ _ Hfind) in He. simpl in He.
      rewrite Hid, String.eqb_refl in He. discriminate.
Qed.

Lemma is_valid_assignment_iff_witness :
  _is_valid_assignment "bob" "2024-01-01" "ochtend" "S" Sample.staff
    (_build_blocked_set Sample.blocks) = true
  <-> (("bob", "2024-01-01", "ochtend") ∉ _build_blocked_set Sample.blocks)
      /\ exists e, In e Sample.staff
           /\ EmployeeCapability.employee_id e = "bob"
           /\ EmployeeCapability.capable_services e !! "S" = Some true.
Proof.
  apply (is_valid_assignment_iff "bob" "2024-01-01" "ochtend" "S" Sample.staff).
  vm_compute. repeat constructor; simpl; intuition discriminate.
Defined.

(** Without distinct ids only the first record with the id is looked at. *)
Example first_namesake_decides :
  _is_valid_assignment "ann" "2024-01-01" "ochtend" "S"
    [Sample.worker "ann" []; Sample.worker "ann" ["S"]] ∅ = false.
Proof. reflexivity. Qed.

(** X12. [_find_eligible_employees] returns the workers of the list, in
    list order, that pass all four checks: the team matches when a team
    filter is given, the capability map marks the service as true, the
    (worker, date, day-part) is not blocked, and no roster entry has the
    worker's id on that date and day-part. The service of an existing roster
    entry plays no role. *)
Theorem find_eligible_employees_iff (date dagdeel service_id : string)
    (employees : list EmployeeCapability.t) (roster : list Assignment.t)
    (blocked_set : gset Slot) (team_filter : string) :
  sublist (_find_eligible_employees date dagdeel service_id employees roster
             blocked_set team_filter) employees
  /\ forall e,
       In e (_find_eligible_employees date dagdeel service_id employees roster
               blocked_set team_filter)
       <-> In e employees
           /\ (team_filter = "" \/ EmployeeCapability.team e = team_filter)
           /\ EmployeeCapability.capable_services e !! service_id = Some true
           /\ ((EmployeeCapability.employee_id e, date, dagdeel) ∉ blocked_set)
           /\ ~ (exists a, In a roster
                   /\ Assignment.employee_id a = EmployeeCapability.employee_id e
                   /\ Assignment.date a = date /\ Assignment.dagdeel a = dagdeel).
Proof.
  unfold _find_eligible_employees. split.
  - induction employees as [|x l IH]; simpl; [constructor|].
    destruct (eligible_here _ _ _ _ _ _ x); now constructor.
  - intros e. rewrite filter_In, eligible_here_inv, capable_true.
    assert (Hocc : In (eid e, date, dagdeel) (map occupies roster)
                   <-> exists a, In a roster
                         /\ Assignment.employee_id a = eid e
                         /\ Assignment.date a = date /\ Assignment.dagdeel a = dagdeel).
    { rewrite in_map_iff. split.
      - intros (a & Ha & Hin). injection Ha as ? ? ?. now exists a.
      - intros (a & Hin & H1 & H2 & H3). exists a. unfold occupies.
        now rewrite H1, H2, H3. }
    rewrite Hocc. tauto.
Qed.

Lemma find_eligible_employees_iff_witness :
  In Balance.bob
     (_find_eligible_employees "2024-01-02" "ochtend" "S" Balance.staff
        [greedy_assignment Balance.monday Balance.ann] ∅ "").
Proof.
  apply (proj2 (find_eligible_employees_iff "2024-01-02" "ochtend" "S" Balance.staff
                  [greedy_assignment Balance.monday Balance.ann] ∅ "")).
  split; [right; left; reflexivity|]. split; [now left|].
  split; [reflexivity|]. split; [apply not_elem_of_empty|].
  intros (a & [<-|[]] & _ & Hdate & _). discriminate.
Defined.

(** ** An empty worker list *)

Lemma after_fase2_no_workers (blocked_set : gset Slot)
    (requirements : list RosteringRequirement.t) (s : Locals.t) :
  Locals.employees s = [] -> Locals.roster s = [] ->
  Locals.roster (after_fase2 blocked_set requirements s) = []
  /\ Locals.bottlenecks (after_fase2 blocked_set requirements s)
     = Locals.bottlenecks s
       ++ map (fun req => bottleneck_for blocked_set req s)
              (List.filter (fun req => 0 <? RosteringRequirement.required_count req)
                           requirements).
Proof.
  revert s. induction requirements as [|r l IH]; intros s Hemp Hros.
  - simpl. now rewrite app_nil_r.
  - change (after_fase2 blocked_set (r :: l) s)
      with (after_fase2 blocked_set l (after_req blocked_set r s)).
    assert (Hpick : forall req s0, Locals.employees s0 = [] ->
                      picked blocked_set req s0 = []).
    { intros req s0 H0. unfold picked, candidates, _find_eligible_employees.
      rewrite H0. simpl. apply firstn_nil. }
    assert (Hcur : forall req s0, Locals.roster s0 = [] -> current_count req s0 = 0).
    { intros req s0 H0. unfold current_count. now rewrite H0. }
    assert (Hbn : forall req s0, Locals.employees s0 = [] -> Locals.roster s0 = [] ->
                    bottleneck_for blocked_set req s0 = bottleneck_for blocked_set req s).
    { intros req s0 H0 H1. unfold bottleneck_for, candidates.
      now rewrite !Hpick, !Hcur, H0, H1, Hemp, Hros by assumption. }
    assert (Hr' : Locals.roster (after_req blocked_set r s) = []).
    { simpl. now rewrite Hpick, Hros by exact Hemp. }
    destruct (IH (after_req blocked_set r s) Hemp Hr') as [-> ->].
    split; [reflexivity|].
    simpl Locals.bottlenecks. unfold shortfall.
    rewrite Hpick, Hcur by assumption. simpl length. rewrite Z.sub_0_r.
    simpl List.filter.
    assert (Hmap : map (fun req => bottleneck_for blocked_set req
                                     (after_req blocked_set r s))
                     (List.filter (fun req => 0 <? RosteringRequirement.required_count req) l)
                   = map (fun req => bottleneck_for blocked_set req s)
                     (List.filter (fun req => 0 <? RosteringRequirement.required_count req) l)).
    { apply map_ext. intros req. now apply Hbn. }
    rewrite Hmap.
    change (Z.of_nat 0) with 0.
    destruct (0 <? RosteringRequirement.required_count r); simpl;
      now rewrite <- app_assoc.
Qed.

(** X13. With an empty worker list nothing is assigned, whatever the fixed
    assignments are, and every requirement with a positive [required_count]
    gets one bottleneck, in input order, with placed count 0, the whole
    [required_count] as shortage and the reason "No employees capable of this
    service"; requirements asking for zero or fewer get none. *)
Theorem solve_without_workers (clock : Clock)
    (requirements : list RosteringRequirement.t)
    (fixed_assignments : list FixedAssignment.t)
    (blocked_slots : list BlockedSlot.t)
    (r : RosteringResult.t) (h : list EmployeeCapability.t) :
  solve clock requirements [] fixed_assignments blocked_slots = Return (r, h) ->
  RosteringResult.roster r = []
  /\ map (fun b => (Bottleneck.date b, Bottleneck.dagdeel b, Bottleneck.service_id b,
                    Bottleneck.required_count b))
         (RosteringResult.bottlenecks r)
     = map (fun req => (RosteringRequirement.date req, RosteringRequirement.dagdeel req,
                        RosteringRequirement.service_id req,
                        RosteringRequirement.required_count req))
           (List.filter (fun req => 0 <? RosteringRequirement.required_count req)
                        requirements)
  /\ Forall (fun b => Bottleneck.placed_count b = 0
                      /\ Bottleneck.shortage b = Bottleneck.required_count b
                      /\ Bottleneck.reason b = "No employees capable of this service")
            (RosteringResult.bottlenecks r).
Proof.
  intros Hsolve. apply solve_returns in Hsolve as [-> _]. simpl.
  unfold final_locals. set (bs := _build_blocked_set blocked_slots).
  assert (Hnone : fase1_roster [] bs fixed_assignments = []).
  { unfold fase1_roster. induction fixed_assignments as [|f l IH]; [reflexivity|].
    simpl. unfold valid_fixed at 1, _is_valid_assignment. simpl.
    destruct (decide _); apply IH. }
  destruct (after_fase1_roster bs [] fixed_assignments) as [Hr1 Hb1].
  rewrite Hnone in Hr1.
  destruct (after_fase2_no_workers bs requirements (after_fase1 bs [] fixed_assignments)
              (after_fase1_employees bs [] fixed_assignments) Hr1) as [-> ->].
  rewrite Hb1. simpl app. split; [reflexivity|]. split.
  - rewrite map_map. reflexivity.
  - apply List.Forall_forall. intros b Hb. apply in_map_iff in Hb as (req & <- & _).
    pose proof (after_fase1_employees bs [] fixed_assignments) as Hemp.
    assert (Hpick : picked bs req (after_fase1 bs [] fixed_assignments) = []).
    { unfold picked, candidates, _find_eligible_employees. rewrite Hemp. simpl.
      apply firstn_nil. }
    assert (Hcur : current_count req (after_fase1 bs [] fixed_assignments) = 0).
    { unfold current_count. now rewrite Hr1. }
    unfold bottleneck_for, Bottleneck.set_suggestions, Bottleneck.set_reason,
      Bottleneck.__post_init__.
    cbn [Bottleneck.placed_count Bottleneck.shortage Bottleneck.required_count
         Bottleneck.reason].
    rewrite Hpick, Hcur, Hemp. simpl. repeat split; lia.
Qed.

Lemma solve_without_workers_witness :
  RosteringResult.roster
    (result_of Sample.clock Sample.needs (final_locals Sample.needs [] Sample.locks []))
  = [].
Proof.
  apply (solve_without_workers Sample.clock Sample.needs Sample.locks []
           (result_of Sample.clock Sample.needs
              (final_locals Sample.needs [] Sample.locks [])) []).
  vm_compute. reflexivity.
Defined.

(** * The selector (solvers/solver_selector.py) *)

(** ** Strategy names *)

(** X14. [_parse_strategy] ignores letter case and knows three names:
    it yields SEQUENTIAL exactly for the spellings of "sequential", CPSAT
    exactly for those of "cpsat", and GREEDY for every other string, the
    empty one and unknown names included. *)
Theorem parse_strategy_cases (strategy_str : string) :
  (_parse_strategy strategy_str = SEQUENTIAL <-> lower strategy_str = "sequential")
  /\ (_parse_strategy strategy_str = CPSAT <-> lower strategy_str = "cpsat")
  /\ (_parse_strategy strategy_str = GREEDY
      <-> lower strategy_str <> "sequential" /\ lower strategy_str <> "cpsat").
Proof.
  unfold _parse_strategy, strategy_map.
  destruct (decide (lower strategy_str = "greedy")) as [->|Hg].
  { rewrite lookup_insert_eq. simpl. repeat split; try discriminate; auto. }
  rewrite lookup_insert_ne by congruence.
  destruct (decide (lower strategy_str = "sequential")) as [->|Hs].
  { rewrite lookup_insert_eq. simpl. repeat split; try discriminate; auto.
    intros [H _]. congruence. }
  rewrite lookup_insert_ne by congruence.
  destruct (decide (lower strategy_str = "cpsat")) as [->|Hc].
  { rewrite lookup_insert_eq. simpl. repeat split; try discriminate; auto.
    intros [_ H]. congruence. }
  rewrite lookup_insert_ne by congruence. rewrite lookup_empty. simpl.
  repeat split; try discriminate; auto; congruence.
Qed.

Lemma parse_strategy_cases_witness :
  _parse_strategy "SeQuEnTiAl" = SEQUENTIAL /\ _parse_strategy "fastest" = GREEDY.
Proof.
  split.
  - apply (proj1 (parse_strategy_cases "SeQuEnTiAl")). reflexivity.
  - apply (proj2 (proj2 (parse_strategy_cases "fastest"))). split; discriminate.
Defined.

(** ** What a call can raise *)

Lemma only_type_error_bind {A B : Type} (m : Call A) (k : A -> Call B) :
  only_type_error m -> (forall a, only_type_error (k a)) ->
  only_type_error (m ≫= k).
Proof.
  intros Hm Hk e. destruct m as [a|e'|]; simpl.
  - apply Hk.
  - intros H. injection H as <-. now apply Hm.
  - discriminate.
Qed.

Lemma only_type_error_returned {A : Type} (a : A) : only_type_error (Returned a).
Proof. intros e H. discriminate. Qed.

Lemma only_type_error_untyped {A : Type} : only_type_error (@Untyped A).
Proof. intros e H. discriminate. Qed.

Lemma only_type_error_bind_kwargs (fields required : list string) (r : PyValue) :
  only_type_error (bind_kwargs fields required r).
Proof.
  intros e. unfold bind_kwargs. destruct r; try (intros H; now injection H).
  destruct (_ && _); [discriminate|]. intros H. now injection H.
Qed.

Lemma only_type_error_field_str (k default : string) (d : list (string * PyValue)) :
  only_type_error (field_str k default d).
Proof. intros e. unfold field_str. now destruct (dict_get k d) as [[]|]. Qed.

Lemma only_type_error_field_int (k : string) (default : Z)
    (d : list (string * PyValue)) :
  only_type_error (field_int k default d).
Proof. intros e. unfold field_int. now destruct (dict_get k d) as [[]|]. Qed.

Lemma only_type_error_bool_dict (d : list (string * PyValue)) :
  only_type_error (bool_dict d).
Proof.
  induction d as [|[k v] d IH]; simpl; [apply only_type_error_returned|].
  destruct v; try apply only_type_error_untyped.
  apply only_type_error_bind; [exact IH|]. intros. apply only_type_error_returned.
Qed.

Lemma only_type_error_str_list (l : list PyValue) : only_type_error (str_list l).
Proof.
  induction l as [|v l IH]; simpl; [apply only_type_error_returned|].
  destruct v; try apply only_type_error_untyped.
  apply only_type_error_bind; [exact IH|]. intros. apply only_type_error_returned.
Qed.

Lemma only_type_error_field_bool_dict (k : string) (d : list (string * PyValue)) :
  only_type_error (field_bool_dict k d).
Proof.
  unfold field_bool_dict. destruct (dict_get k d) as [[]|];
    try apply only_type_error_untyped; try apply only_type_error_returned.
  apply only_type_error_bool_dict.
Qed.

Lemma only_type_error_field_str_set (k : string) (d : list (string * PyValue)) :
  only_type_error (field_str_set k d).
Proof.
  unfold field_str_set. destruct (dict_get k d) as [[]|];
    try apply only_type_error_untyped; try apply only_type_error_returned.
  apply only_type_error_bind; [apply only_type_error_str_list|].
  intros. apply only_type_error_returned.
Qed.

Create HintDb raises.
#[local] Hint Resolve only_type_error_returned only_type_error_untyped
  only_type_error_bind_kwargs only_type_error_field_str only_type_error_field_int
  only_type_error_field_bool_dict only_type_error_field_str_set : raises.

Ltac only_type_error :=
  repeat (apply only_type_error_bind; [auto with raises|intros]);
  auto with raises.

Lemma only_type_error_make_requirement (r : PyValue) :
  only_type_error (make_requirement r).
Proof. unfold make_requirement. only_type_error. Qed.

Lemma only_type_error_make_employee (e : PyValue) : only_type_error (make_employee e).
Proof. unfold make_employee. only_type_error. Qed.

Lemma only_type_error_make_fixed (f : PyValue) : only_type_error (make_fixed f).
Proof. unfold make_fixed. only_type_error. Qed.

Lemma only_type_error_make_blocked (b : PyValue) : only_type_error (make_blocked b).
Proof. unfold make_blocked. only_type_error. Qed.

Lemma only_type_error_comprehension {A B : Type} (f : A -> Call B) (l : list A) :
  (forall x, only_type_error (f x)) -> only_type_error (comprehension f l).
Proof.
  intros Hf. induction l as [|x l IH]; simpl; [apply only_type_error_returned|].
  apply only_type_error_bind; [apply Hf|]. intros y.
  apply only_type_error_bind; [exact IH|]. intros. apply only_type_error_returned.
Qed.

Lemma only_type_or_digits_bind {A B : Type} (m : Call A) (k : A -> Call B) :
  only_type_error m -> (forall a, only_type_or_digits (k a)) ->
  only_type_or_digits (m ≫= k).
Proof.
  intros Hm Hk e. destruct m as [a|e'|]; simpl.
  - apply Hk.
  - intros H. injection H as <-. left. now apply Hm.
  - discriminate.
Qed.

Lemma only_type_or_digits_solve_greedy (clock : Clock)
    (requirements employees fixed_assignments blocked_slots : list PyValue) :
  only_type_or_digits
    (SolverSelector._solve_greedy clock requirements employees fixed_assignments
       blocked_slots).
Proof.
  unfold SolverSelector._solve_greedy.
  apply only_type_or_digits_bind;
    [apply only_type_error_comprehension, only_type_error_make_requirement|].
  intros reqs. apply only_type_or_digits_bind;
    [apply only_type_error_comprehension, only_type_error_make_employee|].
  intros emps. apply only_type_or_digits_bind;
    [apply only_type_error_comprehension, only_type_error_make_fixed|].
  intros fixed. apply only_type_or_digits_bind;
    [apply only_type_error_comprehension, only_type_error_make_blocked|].
  intros blocked. rewrite solve_spec.
  destruct (printable_all _ _ _); intros e H; [discriminate|].
  injection H as <-. now right.
Qed.

(** X15. Whatever the strategy string and the payload, [SolverSelector.solve]
    raises only a [TypeError], from building a record, or the [ValueError]
    of the engine for a shortage with more digits than an integer may have
    when it is formatted: the [ValueError] of its last branch, for an unknown
    solver type, is never reached. *)
Theorem selector_raises_type_or_digits (strategy : string) (clock : Clock)
    (requirements employees : list PyValue)
    (fixed_assignments blocked_slots : option (list PyValue)) (e : PyExn) :
  SolverSelector.solve (SolverSelector.__init__ strategy) clock requirements
    employees fixed_assignments blocked_slots = Raised e ->
  (e = TypeError \/ e = ValueError digits_msg)
  /\ (forall solver_type : string,
        e <> ValueError ("Unknown solver type: " +:+ solver_type)).
Proof.
  intros H.
  assert (He : e = TypeError \/ e = ValueError digits_msg).
  { revert H.
    unfold SolverSelector.solve, SolverSelector.select_solver, SolverSelector.__init__.
    simpl. destruct (_parse_strategy strategy); simpl.
    - apply only_type_or_digits_solve_greedy.
    - discriminate.
    - discriminate. }
  split; [exact He|]. intros solver_type.
  destruct He as [->| ->]; [discriminate|].
  intros Heq. injection Heq as Heq. vm_compute in Heq. discriminate.
Qed.

Lemma selector_raises_type_or_digits_witness :
  SolverSelector.solve (SolverSelector.__init__ "greedy") Sample.clock
    [Payload.seatless] [Payload.ann] None None = Raised TypeError.
Proof.
  assert (H : exists e, SolverSelector.solve (SolverSelector.__init__ "greedy")
                Sample.clock [Payload.seatless] [Payload.ann] None None = Raised e)
    by (eexists; vm_compute; reflexivity).
  destruct H as [e He]. rewrite He. f_equal.
  destruct (proj1 (selector_raises_type_or_digits _ _ _ _ _ _ _ He)) as [->| ->].
  - reflexivity.
  - exfalso. revert He. vm_compute. discriminate.
Defined.

(** Both exceptions occur: the second through the engine. *)
Example selector_raises_digits :
  SolverSelector.solve (SolverSelector.__init__ "greedy") Sample.clock
    [Payload.oversized] [Payload.ann] None None = Raised (ValueError digits_msg).
Proof. vm_compute. reflexivity. Qed.

(** X16. A selector built for "sequential" or "cpsat", in any letter case,
    answers every call with the "not yet implemented" dict, [success] false:
    it builds no record and runs no allocation, so even a malformed payload
    raises nothing. *)
Theorem unimplemented_strategies (strategy : string) (clock : Clock)
    (requirements employees : list PyValue)
    (fixed_assignments blocked_slots : option (list PyValue)) :
  (lower strategy = "sequential" ->
   SolverSelector.solve (SolverSelector.__init__ strategy) clock requirements
     employees fixed_assignments blocked_slots
   = Returned (PyDict [("success", PyBool false); ("solver", PyStr "SEQUENTIAL");
                       ("error", PyStr "Sequential solver not yet implemented")]))
  /\ (lower strategy = "cpsat" ->
      SolverSelector.solve (SolverSelector.__init__ strategy) clock requirements
        employees fixed_assignments blocked_slots
      = Returned (PyDict [("success", PyBool false); ("solver", PyStr "CPSAT");
                          ("error", PyStr "CP-SAT solver not yet implemented")])).
Proof.
  unfold SolverSelector.solve, SolverSelector.select_solver, SolverSelector.__init__,
    _parse_strategy.
  split; intros ->; reflexivity.
Qed.

Lemma unimplemented_strategies_witness :
  SolverSelector.solve (SolverSelector.__init__ "CPsat") Sample.clock
    [Payload.seatless; PyNone] [] None None
  = Returned (PyDict [("success", PyBool false); ("solver", PyStr "CPSAT");
                      ("error", PyStr "CP-SAT solver not yet implemented")]).
Proof.
  apply (proj2 (unimplemented_strategies "CPsat" Sample.clock
                  [Payload.seatless; PyNone] [] None None)).
  reflexivity.
Defined.

(** ** What a returned answer tells *)

Lemma bind_returned {A B : Type} (m : Call A) (k : A -> Call B) (b : B) :
  m ≫= k = Returned b -> exists a, m = Returned a /\ k a = Returned b.
Proof. destruct m as [a|e|]; simpl; try discriminate. intros H. now exists a. Qed.

Lemma comprehension_returned {A B : Type} (f : A -> Call B) (l : list A)
    (ys : list B) :
  comprehension f l = Returned ys ->
  Forall (fun x => exists y, f x = Returned y) l /\ length ys = length l.
Proof.
  revert ys. induction l as [|x l IH]; intros ys H; simpl in H.
  - injection H as <-. split; [constructor|reflexivity].
  - apply bind_returned in H as (y & Hy & H).
    apply bind_returned in H as (ys' & Hys & H). injection H as <-.
    destruct (IH ys' Hys) as [Hall Hlen].
    split; [constructor; eauto|simpl; now rewrite Hlen].
Qed.

Lemma bind_kwargs_returned (fields required : list string) (r : PyValue)
    (d : list (string * PyValue)) :
  bind_kwargs fields required r = Returned d -> is_record fields required r.
Proof.
  unfold bind_kwargs. destruct r as [| | | | |?|d']; try discriminate.
  destruct (forallb _ d' && forallb _ required) eqn:Hok; [|discriminate].
  intros _. apply andb_prop in Hok as [Hkeys Hreq].
  exists d'. split; [reflexivity|]. split.
  - intros k v Hin. rewrite forallb_forall in Hkeys. specialize (Hkeys _ Hin).
    apply existsb_exists in Hkeys as (k' & Hk' & Heq). simpl in Heq.
    apply String.eqb_eq in Heq. now subst.
  - intros k Hin. rewrite forallb_forall in Hreq.
    specialize (Hreq k Hin). simpl in Hreq.
    now apply (bool_decide_eq_true_1 _) in Hreq.
Qed.

Lemma make_returned_record {A : Type} (fields required : list string)
    (k : list (string * PyValue) -> Call A) (r : PyValue) (x : A) :
  bind_kwargs fields required r ≫= k = Returned x -> is_record fields required r.
Proof.
  intros H. apply bind_returned in H as (d & Hd & _).
  now apply bind_kwargs_returned in Hd.
Qed.

(** X17. When a call for the greedy strategy returns, every record of the
    payload was well formed: each requirement, worker, fixed assignment and
    blocked slot is a dict with no key outside its dataclass's fields and
    with every field that has no default. A payload with one record that
    lacks such a field, or has an unknown key, or is not a dict, yields no
    answer. *)
Theorem returned_means_well_formed (clock : Clock)
    (requirements employees fixed_assignments blocked_slots : list PyValue)
    (v : PyValue) :
  SolverSelector._solve_greedy clock requirements employees fixed_assignments
    blocked_slots = Returned v ->
  Forall (is_record ["date"; "dagdeel"; "service_id"; "required_count"; "team"]
                    ["date"; "dagdeel"; "service_id"; "required_count"])
         requirements
  /\ Forall (is_record ["employee_id"; "voornaam"; "achternaam"; "capable_services";
                        "available_dates"; "team"; "max_shifts_per_week";
                        "current_shifts"]
                       ["employee_id"; "voornaam"; "achternaam"])
            employees
  /\ Forall (is_record ["employee_id"; "date"; "dagdeel"; "service_id"; "reason"]
                       ["employee_id"; "date"; "dagdeel"; "service_id"])
            fixed_assignments
  /\ Forall (is_record ["employee_id"; "date"; "dagdeel"; "reason"]
                       ["employee_id"; "date"; "dagdeel"])
            blocked_slots.
Proof.
  unfold SolverSelector._solve_greedy. intros H.
  apply bind_returned in H as (reqs & Hreqs & H).
  apply bind_returned in H as (emps & Hemps & H).
  apply bind_returned in H as (fixed & Hfixed & H).
  apply bind_returned in H as (blocked & Hblocked & _).
  apply comprehension_returned in Hreqs as [Hreqs _].
  apply comprehension_returned in Hemps as [Hemps _].
  apply comprehension_returned in Hfixed as [Hfixed _].
  apply comprehension_returned in Hblocked as [Hblocked _].
  repeat split.
  - eapply List.Forall_impl; [|exact Hreqs]. intros r [x Hx].
    exact (make_returned_record _ _ _ _ _ Hx).
  - eapply List.Forall_impl; [|exact Hemps]. intros r [x Hx].
    exact (make_returned_record _ _ _ _ _ Hx).
  - eapply List.Forall_impl; [|exact Hfixed]. intros r [x Hx].
    exact (make_returned_record _ _ _ _ _ Hx).
  - eapply List.Forall_impl; [|exact Hblocked]. intros r [x Hx].
    exact (make_returned_record _ _ _ _ _ Hx).
Qed.

Lemma returned_means_well_formed_witness :
  Forall (is_record ["date"; "dagdeel"; "service_id"; "required_count"; "team"]
                    ["date"; "dagdeel"; "service_id"; "required_count"])
         [Payload.seat].
Proof.
  apply (returned_means_well_formed Sample.clock [Payload.seat] [Payload.ann] [] []
           Payload.answer).
  vm_compute. reflexivity.
Defined.

(** X18. An answer of the greedy strategy is a success dict: [success] is
    true, [solver] is "GREEDY", [result] is the serialised result of the
    engine on the records built from the payload, the two counts are the
    lengths of that result's roster and bottleneck list, and the result's
    [total_slots] is the number of requirement records in the payload. *)
Theorem greedy_answer (clock : Clock)
    (requirements employees fixed_assignments blocked_slots : list PyValue)
    (v : PyValue) :
  SolverSelector._solve_greedy clock requirements employees fixed_assignments
    blocked_slots = Returned v ->
  exists reqs emps fixed blocked r,
    comprehension make_requirement requirements = Returned reqs
    /\ comprehension make_employee employees = Returned emps
    /\ comprehension make_fixed fixed_assignments = Returned fixed
    /\ comprehension make_blocked blocked_slots = Returned blocked
    /\ solve clock reqs emps fixed blocked = Return (r, emps)
    /\ RosteringResult.total_slots r = Z.of_nat (length requirements)
    /\ v = PyDict
         [("success", PyBool true);
          ("solver", PyStr "GREEDY");
          ("result", to_dict r);
          ("coverage_rate", PyFloat (RosteringResult.coverage_rate r));
          ("solve_time_seconds", PyFloat (RosteringResult.solve_time_seconds r));
          ("assignments_count", PyInt (Z.of_nat (length (RosteringResult.roster r))));
          ("bottlenecks_count",
           PyInt (Z.of_nat (length (RosteringResult.bottlenecks r))))].
Proof.
  unfold SolverSelector._solve_greedy. intros H.
  apply bind_returned in H as (reqs & Hreqs & H).
  apply bind_returned in H as (emps & Hemps & H).
  apply bind_returned in H as (fixed & Hfixed & H).
  apply bind_returned in H as (blocked & Hblocked & H).
  pose proof (solve_spec clock reqs emps fixed blocked) as Hsolve.
  rewrite Hsolve in H. destruct (printable_all _ _ _); [|discriminate].
  injection H as <-.
  exists reqs, emps, fixed, blocked,
    (result_of clock reqs (final_locals reqs emps fixed blocked)).
  repeat split; try assumption.
  - simpl. apply comprehension_returned in Hreqs as [_ ->]. reflexivity.
Qed.

Lemma greedy_answer_witness :
  exists r, Payload.answer = PyDict
         [("success", PyBool true);
          ("solver", PyStr "GREEDY");
          ("result", to_dict r);
          ("coverage_rate", PyFloat (RosteringResult.coverage_rate r));
          ("solve_time_seconds", PyFloat (RosteringResult.solve_time_seconds r));
          ("assignments_count", PyInt (Z.of_nat (length (RosteringResult.roster r))));
          ("bottlenecks_count",
           PyInt (Z.of_nat (length (RosteringResult.bottlenecks r))))].
Proof.
  destruct (greedy_answer Sample.clock [Payload.seat] [Payload.ann] [] []
              Payload.answer) as (_ & _ & _ & _ & r & _ & _ & _ & _ & _ & _ & Hv).
  - vm_compute. reflexivity.
  - now exists r.
Defined.

(** ** Serialisation *)

Lemma map_injective {A B : Type} (f : A -> B) (l1 l2 : list A) :
  (forall x y, f x = f y -> x = y) -> map f l1 = map f l2 -> l1 = l2.
Proof.
  intros Hf. revert l2. induction l1 as [|x l1 IH]; intros [|y l2] H;
    try discriminate; [reflexivity|].
  simpl in H. injection H as Hxy H. f_equal; auto.
Qed.

Lemma SeverityLevel_value_injective (s1 s2 : SeverityLevel) :
  SeverityLevel_value s1 = SeverityLevel_value s2 -> s1 = s2.
Proof. destruct s1, s2; simpl; intros H; try reflexivity; discriminate. Qed.

Lemma assignment_dict_injective (a1 a2 : Assignment.t) :
  assignment_dict a1 = assignment_dict a2 -> a1 = a2.
Proof.
  destruct a1, a2. unfold assignment_dict. simpl. intros H.
  injection H as -> -> -> -> -> -> ->. reflexivity.
Qed.

Lemma bottleneck_dict_injective (b1 b2 : Bottleneck.t) :
  bottleneck_dict b1 = bottleneck_dict b2 -> b1 = b2.
Proof.
  destruct b1, b2. unfold bottleneck_dict. simpl. intros H.
  injection H as -> -> -> -> -> -> Hsev -> Hsug.
  apply SeverityLevel_value_injective in Hsev as ->.
  apply map_injective in Hsug as ->; [reflexivity|]. intros x y Hxy. now injection Hxy.
Qed.

(** X19. [to_dict] loses nothing: two results with the same dict are the
    same result, field by field, bottleneck severities and the order of
    roster and bottlenecks included. *)
Theorem to_dict_injective (r1 r2 : RosteringResult.t) :
  to_dict r1 = to_dict r2 -> r1 = r2.
Proof.
  destruct r1, r2. unfold to_dict. simpl. intros H.
  injection H as Hros Hbn -> -> -> -> -> ->.
  apply map_injective in Hros as ->; [|apply assignment_dict_injective].
  apply map_injective in Hbn as ->; [|apply bottleneck_dict_injective].
  reflexivity.
Qed.

Lemma to_dict_injective_witness :
  SampleRun.result
  = result_of Sample.clock Sample.needs
      (final_locals Sample.needs Sample.staff Sample.locks Sample.blocks).
Proof.
  apply (to_dict_injective SampleRun.result
           (result_of Sample.clock Sample.needs
              (final_locals Sample.needs Sample.staff Sample.locks Sample.blocks))).
  vm_compute. reflexivity.
Defined.

(** * Returning and raising *)

Lemma fits_shortage (shortage required_count : Z) :
  0 < shortage <= required_count -> required_count < int_str_limit ->
  fits shortage = true.
Proof. intros H Hlt. unfold fits. apply Z.ltb_lt. lia. Qed.

Lemma shortfall_shortage (blocked_set : gset Slot) (req : RosteringRequirement.t)
    (s : Locals.t) (b : Bottleneck.t) :
  In b (shortfall blocked_set req s) ->
  0 <= Bottleneck.placed_count b
  /\ 0 < Bottleneck.shortage b <= RosteringRequirement.required_count req
  /\ Bottleneck.shortage b = Bottleneck.required_count b - Bottleneck.placed_count b.
Proof.
  intros Hb. apply shortfall_in in Hb as [-> Hlt].
  pose proof (slot_count_nonneg (RosteringRequirement.date req)
                (RosteringRequirement.dagdeel req)
                (RosteringRequirement.service_id req) (Locals.roster s)) as H0.
  fold (current_count req s) in H0.
  unfold bottleneck_for, Bottleneck.set_suggestions, Bottleneck.set_reason,
    Bottleneck.__post_init__.
  cbn [Bottleneck.shortage Bottleneck.placed_count Bottleneck.required_count]. lia.
Qed.

Lemma printable_bounded (blocked_set : gset Slot) (req : RosteringRequirement.t)
    (s : Locals.t) :
  RosteringRequirement.required_count req < int_str_limit ->
  printable blocked_set req s = true.
Proof.
  intros Hlt. unfold printable. apply forallb_forall. intros b Hb.
  apply shortfall_shortage in Hb as (_ & Hb & _).
  now apply (fits_shortage _ (RosteringRequirement.required_count req)).
Qed.

Lemma printable_all_bounded (blocked_set : gset Slot)
    (requirements : list RosteringRequirement.t) (s : Locals.t) :
  Forall (fun req => RosteringRequirement.required_count req < int_str_limit)
         requirements ->
  printable_all blocked_set requirements s = true.
Proof.
  intros Hall. revert s. induction Hall as [|req l Hreq _ IH]; intros s; [reflexivity|].
  cbn [printable_all]. now rewrite printable_bounded, IH.
Qed.

Lemma printable_all_false (blocked_set : gset Slot)
    (requirements : list RosteringRequirement.t) (s : Locals.t) :
  printable_all blocked_set requirements s = false ->
  Exists (fun req => int_str_limit <= RosteringRequirement.required_count req)
         requirements.
Proof.
  revert s. induction requirements as [|req l IH]; intros s H; [discriminate|].
  cbn [printable_all] in H.
  destruct (Z.lt_ge_cases (RosteringRequirement.required_count req) int_str_limit)
    as [Hlt|Hge]; [|now left].
  rewrite printable_bounded in H by exact Hlt. right. now apply (IH _ H).
Qed.

(** The result built from the pure description is well formed. *)
Lemma result_well_formed (clock : Clock) (requirements : list RosteringRequirement.t)
    (employees : list EmployeeCapability.t)
    (fixed_assignments : list FixedAssignment.t)
    (blocked_slots : list BlockedSlot.t) :
  well_formed requirements employees
    (result_of clock requirements
       (final_locals requirements employees fixed_assignments blocked_slots)).
Proof.
  destruct (result_of_metrics clock requirements employees fixed_assignments
              blocked_slots) as (H1 & H2 & H3 & H4 & H5 & H6).
  unfold well_formed. do 6 (split; [assumption|]).
  cbn [result_of RosteringResult.roster RosteringResult.bottlenecks].
  split; [|split].
  - destruct (final_roster requirements employees fixed_assignments blocked_slots)
      as (added & -> & Hadded).
    apply Forall_app. split.
    + apply List.Forall_forall. intros a Ha. unfold fase1_roster in Ha.
      apply in_map_iff in Ha as (f & <- & Hf). apply filter_In in Hf as [_ Hf].
      apply valid_fixed_found in Hf as (e & He & Hid & Hc & _).
      exists e. simpl. auto.
    + eapply List.Forall_impl; [|exact Hadded]. simpl.
      intros a (req & e & _ & He & -> & _ & Hc & _). exists e. simpl. auto.
  - apply List.Forall_forall. intros b Hb.
    apply final_bottleneck in Hb as (before & req & after & _ & -> & Hlt).
    set (s := final_locals before employees fixed_assignments blocked_slots) in *.
    assert (Hin : In (bottleneck_for (_build_blocked_set blocked_slots) req s)
                     (shortfall (_build_blocked_set blocked_slots) req s)).
    { unfold shortfall.
      destruct (Z.ltb_spec
                  (Z.of_nat (length (picked (_build_blocked_set blocked_slots) req s)))
                  (RosteringRequirement.required_count req - current_count req s));
        [now left|lia]. }
    apply shortfall_shortage in Hin as (Hp & Hs & Heq).
    split; [exact Hp|]. split; [lia|exact Heq].
  - intros req Hreq. unfold final_locals. now apply after_fase2_met_or_short.
Qed.

(** C8, as stated, fails: a requirement nobody can fill, asking for a
    number of seats with 5001 digits, makes [solve] raise [ValueError] when
    the shortage is written into the suggestions of its bottleneck. *)
Lemma solve_raises_on_oversized_shortage :
  solve Sample.clock Oversized.needs [] [] [] = Raise (ValueError digits_msg).
Proof. vm_compute. reflexivity. Qed.

(** C8, amended. When every [required_count] stays below 10^4300, [solve]
    returns, for every combination of inputs (empty lists and fixed
    assignments naming unknown workers included), a well-formed result and
    the worker objects as they were. Whenever it returns, the result is well
    formed. Whenever it raises, the exception is the [ValueError] of an int
    with too many digits, and some requirement asks for 10^4300 or more: no
    [KeyError] from the tally, no [ZeroDivisionError] from the coverage
    rate. *)
Theorem solve_returns_well_formed (clock : Clock)
    (requirements : list RosteringRequirement.t)
    (employees : list EmployeeCapability.t)
    (fixed_assignments : list FixedAssignment.t)
    (blocked_slots : list BlockedSlot.t) :
  (Forall (fun req => RosteringRequirement.required_count req < int_str_limit)
          requirements ->
   exists r : RosteringResult.t,
     solve clock requirements employees fixed_assignments blocked_slots
     = Return (r, employees)
     /\ well_formed requirements employees r)
  /\ (forall (r : RosteringResult.t) (h : list EmployeeCapability.t),
        solve clock requirements employees fixed_assignments blocked_slots
        = Return (r, h) ->
        h = employees /\ well_formed requirements employees r)
  /\ (forall e : PyExn,
        solve clock requirements employees fixed_assignments blocked_slots = Raise e ->
        e = ValueError digits_msg
        /\ Exists (fun req => int_str_limit <= RosteringRequirement.required_count req)
                  requirements).
Proof.
  rewrite solve_spec. split; [|split].
  - intros Hall. rewrite printable_all_bounded by exact Hall.
    eexists. split; [reflexivity|]. apply result_well_formed.
  - intros r h. destruct (printable_all _ _ _); [|discriminate].
    intros H. injection H as <- <-. split; [reflexivity|]. apply result_well_formed.
  - intros e. destruct (printable_all _ _ _) eqn:Hp; [discriminate|].
    intros H. injection H as <-. split; [reflexivity|].
    now apply printable_all_false in Hp.
Qed.

Lemma solve_returns_well_formed_witness :
  exists r : RosteringResult.t,
    solve Sample.clock Sample.needs Sample.staff Sample.locks Sample.blocks
    = Return (r, Sample.staff)
    /\ well_formed Sample.needs Sample.staff r.
Proof.
  apply (proj1 (solve_returns_well_formed Sample.clock Sample.needs Sample.staff
                  Sample.locks Sample.blocks)).
  repeat (constructor; [vm_compute; reflexivity|]). constructor.
Defined.
